(** * youtube-summarizer.py: a shallow embedding and its properties

    The script is a linear pipeline: URL -> video id -> title -> transcript
    -> summary -> output file.  Python [str] values are represented by their
    UTF-8 encoding (a Rocq [string] is a sequence of bytes); every slicing
    operation the script performs happens at an ASCII delimiter, where
    byte and code-point positions agree.

    Layout: Python string primitives ([PyStr]), Python values and
    exceptions, the environment of libraries and services the script talks
    to, the state/exception monad the script runs in, the model of
    [urllib.parse] ([Urllib]), the functions of the script in source order,
    and then the properties. *)

From Stdlib Require Import Ascii QArith.
From stdpp Require Import base strings list gmap pretty.

Open Scope string_scope.
Open Scope list_scope.
Open Scope Z_scope.

(** ** Python [str] operations used by the script and by [urllib.parse] *)

Module PyStr.

Definition LF : ascii := "010"%char.
Definition CR : ascii := "013"%char.
Definition TAB : ascii := "009"%char.
Definition nl : string := String LF "".

Definition code (c : ascii) : N := N_of_ascii c.

Definition is_ascii (c : ascii) : bool := (code c <? 128)%N.
Definition is_upper (c : ascii) : bool := (65 <=? code c)%N && (code c <=? 90)%N.
Definition is_lower (c : ascii) : bool := (97 <=? code c)%N && (code c <=? 122)%N.
Definition is_digit (c : ascii) : bool := (48 <=? code c)%N && (code c <=? 57)%N.
Definition is_alpha (c : ascii) : bool := is_upper c || is_lower c.
Definition is_alnum (c : ascii) : bool := is_alpha c || is_digit c.

(** A byte [10xxxxxx] continues a multi-byte UTF-8 sequence. *)
Definition is_continuation (c : ascii) : bool := (128 <=? code c)%N && (code c <? 192)%N.

Fixpoint forallb (p : ascii -> bool) (s : string) : bool :=
  match s with
  | "" => true
  | String a s' => p a && forallb p s'
  end.

Fixpoint filter (p : ascii -> bool) (s : string) : string :=
  match s with
  | "" => ""
  | String a s' => if p a then String a (filter p s') else filter p s'
  end.

Fixpoint map (f : ascii -> ascii) (s : string) : string :=
  match s with
  | "" => ""
  | String a s' => String (f a) (map f s')
  end.

(** [c in s] *)
Fixpoint contains (c : ascii) (s : string) : bool :=
  match s with
  | "" => false
  | String a s' => Ascii.eqb a c || contains c s'
  end.

(** [bool(s)]: a string is truthy when it is not empty. *)
Definition truthy (s : string) : bool :=
  match s with "" => false | _ => true end.

(** [s.isascii()] *)
Definition isascii (s : string) : bool := forallb is_ascii s.

(** [len(s)]: the number of code points, i.e. of bytes that do not continue
    a sequence. *)
Fixpoint len (s : string) : nat :=
  match s with
  | "" => O
  | String a s' => if is_continuation a then len s' else S (len s')
  end.

(** [s.partition(c)]: the text before the first [c], whether [c] was found,
    and the text after it; [(s, False, "")] when [c] does not occur. *)
Fixpoint partition (c : ascii) (s : string) : string * bool * string :=
  match s with
  | "" => ("", false, "")
  | String a s' =>
      if Ascii.eqb a c then ("", true, s')
      else let '(b, f, r) := partition c s' in (String a b, f, r)
  end.

(** [s.rpartition(c)]: the same at the last [c]; [("", False, s)] when [c]
    does not occur. *)
Fixpoint rpartition (c : ascii) (s : string) : string * bool * string :=
  match s with
  | "" => ("", false, "")
  | String a s' =>
      let '(b, f, r) := rpartition c s' in
      if f then (String a b, true, r)
      else if Ascii.eqb a c then ("", true, s')
      else ("", false, String a r)
  end.

(** [s.split(c)] *)
Fixpoint split (c : ascii) (s : string) : list string :=
  match s with
  | "" => [""]
  | String a s' =>
      if Ascii.eqb a c then "" :: split c s'
      else match split c s' with
           | h :: t => String a h :: t
           | [] => [String a ""]
           end
  end.

(** [s.split(c, 1)] *)
Definition split1 (c : ascii) (s : string) : list string :=
  let '(b, f, r) := partition c s in
  if f then [b; r] else [s].

(** [sep.join(parts)] *)
Fixpoint join (sep : string) (parts : list string) : string :=
  match parts with
  | [] => ""
  | [p] => p
  | p :: rest => p +:+ sep +:+ join sep rest
  end.

(** [s.startswith(p)] *)
Fixpoint startswith (p s : string) : bool :=
  match p, s with
  | "", _ => true
  | String a p', String b s' => Ascii.eqb a b && startswith p' s'
  | String _ _, "" => false
  end.

(** [s.replace(c, "")] *)
Definition remove (c : ascii) (s : string) : string :=
  filter (fun a => negb (Ascii.eqb a c)) s.

(** [s.replace(c, d)] for single characters *)
Definition replace (c d : ascii) (s : string) : string :=
  map (fun a => if Ascii.eqb a c then d else a) s.

(** [s.lower()].  Only ASCII letters are folded: the script compares the
    result with ASCII host names that contain no [k], and no character
    outside ASCII other than the Kelvin sign lowers to ASCII text. *)
Definition lower_char (c : ascii) : ascii :=
  if is_upper c then ascii_of_N (code c + 32) else c.
Definition lower (s : string) : string := map lower_char s.

(** [s.lstrip(chars)] for a set of characters given as a predicate *)
Fixpoint lstrip (p : ascii -> bool) (s : string) : string :=
  match s with
  | "" => ""
  | String a s' => if p a then lstrip p s' else s
  end.

(** [s[0]]: the first code point of a string that is not empty. *)
Fixpoint takewhile (p : ascii -> bool) (s : string) : string :=
  match s with
  | "" => ""
  | String a s' => if p a then String a (takewhile p s') else ""
  end.

Definition head (s : string) : string :=
  match s with
  | "" => ""
  | String a s' => String a (takewhile is_continuation s')
  end.

(** [s[1:]]: the string without its first code point. *)
Definition tail (s : string) : string :=
  match s with
  | "" => ""
  | String _ s' => lstrip is_continuation s'
  end.

End PyStr.

(** ** Python values, exceptions and results *)

(** The values [response.json()] can produce.  A [dict] keeps its insertion
    order, so it is a list of bindings with distinct keys. *)
#[warnings="-register-all"]
Inductive pyval : Type :=
| PNone
| PBool (b : bool)
| PInt (z : Z)
| PFloat (q : Q)
| PStr (s : string)
| PList (l : list pyval)
| PDict (d : list (string * pyval)).

Inductive exn_class : Type :=
| ValueError
| KeyError
| IndexError
| TypeError
| OSError
| LibraryError (name : string)
| KeyboardInterrupt
| SystemExit.

(** An exception: its class and what [str(e)] shows. *)
Record exn : Type := Exn { exn_cls : exn_class; exn_str : string }.

(** [isinstance(e, Exception)]: what an [except Exception] clause catches. *)
Definition is_Exception (e : exn) : bool :=
  match exn_cls e with
  | KeyboardInterrupt | SystemExit => false
  | _ => true
  end.

Inductive outcome (A : Type) : Type :=
| Return (a : A)
| Raise (e : exn).
Arguments Return {A} a.
Arguments Raise {A} e.

Definition obind {A B : Type} (c : outcome A) (k : A -> outcome B) : outcome B :=
  match c with
  | Return a => k a
  | Raise e => Raise e
  end.

Notation "x <~ c ;; k" := (obind c (fun x => k))
  (at level 100, c at next level, k at level 200, right associativity).
Notation "c ;;~ k" := (obind c (fun _ => k))
  (at level 100, k at level 200, right associativity).

(** ** The environment: configuration, libraries and remote services *)

Inductive ip_version : Type := IPv4 | IPv6.

(** The part of yt_dlp's info dictionary the script reads: the value of
    ['title'], [None] when the key is missing. *)
Record VideoInfo : Type := { info_title : option string }.

(** A caption fragment of youtube_transcript_api: its text and timing. *)
Record Entry : Type := { entry_text : string; entry_start : Q; entry_duration : Q }.

(** What [requests.post(url, headers=..., json=...)] is given. *)
Record Request : Type := {
  req_url : string;
  req_headers : list (string * string);
  req_json : pyval
}.

(** What the script reads of a [requests.Response]; [resp_json] is the
    result of [response.json()], which raises when the body is not JSON. *)
Record Response : Type := {
  resp_status_code : Z;
  resp_text : string;
  resp_json : outcome pyval
}.

Record Env : Type := {
  (** config.ini, section [claude] *)
  CLAUDE_API_KEY : string;
  CLAUDE_API_URL : string;
  (** [unicodedata.normalize('NFKC', s)] and [ipaddress.ip_address(s)],
      which [urllib.parse] consults for unusual network locations *)
  unicodedata_normalize_NFKC : string -> string;
  ipaddress_ip_address : string -> outcome ip_version;
  (** [YoutubeDL.extract_info(url, download=False)] *)
  ydl_extract_info : string -> outcome VideoInfo;
  (** [YouTubeTranscriptApi.get_transcript(video_id)] *)
  YouTubeTranscriptApi_get_transcript : string -> outcome (list Entry);
  (** [requests.post] *)
  requests_post : Request -> outcome Response;
  (** the error [open(filename, 'w')] raises for this name, if any *)
  open_error : string -> option exn
}.

(** ** [urllib.parse], as far as the script uses it

    The functions follow CPython's [Lib/urllib/parse.py] (3.11.4 and later:
    leading control characters are stripped and bracketed hosts are
    validated), with the default arguments the script passes. *)

Module Urllib.
Import PyStr.

Record ParseResult : Type := {
  scheme : string;
  netloc : string;
  path : string;
  params : string;
  query : string;
  fragment : string
}.

Definition uses_params : list string :=
  [""; "ftp"; "hdl"; "prospero"; "http"; "imap"; "https"; "shttp"; "rtsp";
   "rtspu"; "sip"; "sips"; "mms"; "sftp"; "tel"].

(** membership in [scheme_chars]: letters, digits and [+-.] *)
Definition scheme_char (c : ascii) : bool :=
  is_alnum c || Ascii.eqb c "+" || Ascii.eqb c "-" || Ascii.eqb c ".".

(** membership in [_WHATWG_C0_CONTROL_OR_SPACE] *)
Definition c0_control_or_space (c : ascii) : bool := (code c <=? 32)%N.

Definition str_in (s : string) (l : list string) : bool :=
  existsb (String.eqb s) l.

Definition _splitparams (url : string) : string * string :=
  if contains "/" url then
    let '(before, _, after) := rpartition "/" url in
    let '(b, found, r) := partition ";" after in
    if found then (before +:+ "/" +:+ b, r) else (url, "")
  else
    let '(b, _, r) := partition ";" url in (b, r).

(** [_splitnetloc(url, 2)] applied to the text after the leading [//] *)
Fixpoint _splitnetloc (s : string) : string * string :=
  match s with
  | "" => ("", "")
  | String a s' =>
      if Ascii.eqb a "/" || Ascii.eqb a "?" || Ascii.eqb a "#" then ("", s)
      else let '(n, r) := _splitnetloc s' in (String a n, r)
  end.

Definition _checknetloc (env : Env) (netloc : string) : outcome unit :=
  if negb (truthy netloc) || isascii netloc then Return tt
  else
    let n := remove "?" (remove "#" (remove ":" (remove "@" netloc))) in
    let netloc2 := unicodedata_normalize_NFKC env n in
    if String.eqb n netloc2 then Return tt
    else if existsb (fun c => contains c netloc2) ["/"; "?"; "#"; "@"; ":"]%char
    then Raise (Exn ValueError
                  ("netloc '" +:+ netloc +:+ "' contains invalid characters under NFKC normalization"))
    else Return tt.

Definition is_hexdig (c : ascii) : bool :=
  is_digit c
  || ((65 <=? code c)%N && (code c <=? 70)%N)
  || ((97 <=? code c)%N && (code c <=? 102)%N).

(** [re.match(r"\Av[a-fA-F0-9]+\..+\Z", hostname)] *)
Definition ipvfuture (hostname : string) : bool :=
  match hostname with
  | String "v" (String h rest) =>
      is_hexdig h &&
      match lstrip is_hexdig rest with
      | String "." (String c tl) =>
          forallb (fun a => negb (Ascii.eqb a LF)) (String c tl)
      | _ => false
      end
  | _ => false
  end.

Definition _check_bracketed_host (env : Env) (hostname : string) : outcome unit :=
  if startswith "v" hostname then
    if ipvfuture hostname then Return tt
    else Raise (Exn ValueError "IPvFuture address is invalid")
  else
    ip <~ ipaddress_ip_address env hostname ;;
    match ip with
    | IPv4 => Raise (Exn ValueError "An IPv4 address cannot be in brackets")
    | IPv6 => Return tt
    end.

Definition _check_bracketed_netloc (env : Env) (netloc : string) : outcome unit :=
  let '(_, _, hostname_and_port) := rpartition "@" netloc in
  let '(before_bracket, have_open_br, bracketed) := partition "[" hostname_and_port in
  if have_open_br then
    if truthy before_bracket then Raise (Exn ValueError "Invalid IPv6 URL")
    else
      let '(hostname, _, port) := partition "]" bracketed in
      if truthy port && negb (startswith ":" port)
      then Raise (Exn ValueError "Invalid IPv6 URL")
      else _check_bracketed_host env hostname
  else
    let '(hostname, _, _) := partition ":" hostname_and_port in
    _check_bracketed_host env hostname.

(** The scheme of a URL and the text after its colon, when the text before
    the first colon is a well-formed scheme. *)
Definition split_scheme (url : string) : string * string :=
  match partition ":" url with
  | (String a pre, true, rest) =>
      if is_ascii a && is_alpha a && forallb scheme_char (String a pre)
      then (lower (String a pre), rest)
      else ("", url)
  | _ => ("", url)
  end.

Definition urlsplit (env : Env) (url : string)
  : outcome (string * string * string * string * string) :=
  let url := lstrip c0_control_or_space url in
  let url := remove LF (remove CR (remove TAB url)) in
  let '(scheme, url) := split_scheme url in
  nu <~ match url with
        | String "/" (String "/" rest) =>
            let '(netloc, url') := _splitnetloc rest in
            if (contains "[" netloc && negb (contains "]" netloc))
               || (contains "]" netloc && negb (contains "[" netloc))
            then Raise (Exn ValueError "Invalid IPv6 URL")
            else
              (if contains "[" netloc && contains "]" netloc
               then _check_bracketed_netloc env netloc else Return tt) ;;~
              Return (netloc, url')
        | _ => Return ("", url)
        end ;;
  let '(netloc, url) := nu in
  let '(url, fragment) :=
    if contains "#" url
    then let '(b, _, r) := partition "#" url in (b, r) else (url, "") in
  let '(url, query) :=
    if contains "?" url
    then let '(b, _, r) := partition "?" url in (b, r) else (url, "") in
  _checknetloc env netloc ;;~
  Return (scheme, netloc, url, query, fragment).

Definition urlparse (env : Env) (url : string) : outcome ParseResult :=
  r <~ urlsplit env url ;;
  let '(scheme, netloc, url, query, fragment) := r in
  let '(url, params) :=
    if str_in scheme uses_params && contains ";" url
    then _splitparams url else (url, "") in
  Return {| scheme := scheme; netloc := netloc; path := url;
            params := params; query := query; fragment := fragment |}.

Definition _hostinfo (p : ParseResult) : string * option string :=
  let '(_, _, hostinfo) := rpartition "@" (netloc p) in
  let '(_, have_open_br, bracketed) := partition "[" hostinfo in
  let '(hostname, port) :=
    if have_open_br then
      let '(hostname, _, port) := partition "]" bracketed in
      let '(_, _, port) := partition ":" port in (hostname, port)
    else
      let '(hostname, _, port) := partition ":" hostinfo in (hostname, port) in
  (hostname, if truthy port then Some port else None).

(** The [hostname] property: [None] when the network location names no host. *)
Definition hostname (p : ParseResult) : option string :=
  let h := fst (_hostinfo p) in
  if negb (truthy h) then None
  else
    let '(h, percent, zone) := partition "%" h in
    Some (lower h +:+ (if percent then "%" else "") +:+ zone).

(** *** Percent-decoding *)

Definition hex_val (c : ascii) : option N :=
  if is_digit c then Some (code c - 48)%N
  else if (65 <=? code c)%N && (code c <=? 70)%N then Some (code c - 55)%N
  else if (97 <=? code c)%N && (code c <=? 102)%N then Some (code c - 87)%N
  else None.

(** One piece after a [%]: the byte its two hexadecimal digits name and the
    rest, or the piece with its [%] put back. *)
Definition unquote_item (item : string) : string :=
  match item with
  | String a (String b rest) =>
      match hex_val a, hex_val b with
      | Some h, Some l => String (ascii_of_N (16 * h + l)) rest
      | _, _ => String "%" item
      end
  | _ => String "%" item
  end.

Definition unquote_to_bytes (s : string) : string :=
  match split "%" s with
  | first :: items => first +:+ String.concat "" (List.map unquote_item items)
  | [] => s
  end.

(** [bytes.decode('utf-8', 'replace')], written over the UTF-8 encoding of
    its result: well-formed sequences pass, and every maximal ill-formed
    prefix becomes U+FFFD. *)
Definition REPLACEMENT : string :=
  String (ascii_of_N 239) (String (ascii_of_N 191) (String (ascii_of_N 189) "")).

(** A sequence under way: its bytes so far, how many more are due, and the
    range the next one must lie in. *)
Definition pending : Type := string * nat * N * N.

Definition utf8_start (b : ascii) : string * option pending :=
  let n := code b in
  let one := String b "" in
  if (n <? 128)%N then (one, None)
  else if (194 <=? n)%N && (n <=? 223)%N then ("", Some (one, 1%nat, 128, 191)%N)
  else if (n =? 224)%N then ("", Some (one, 2%nat, 160, 191)%N)
  else if (n =? 237)%N then ("", Some (one, 2%nat, 128, 159)%N)
  else if (225 <=? n)%N && (n <=? 239)%N then ("", Some (one, 2%nat, 128, 191)%N)
  else if (n =? 240)%N then ("", Some (one, 3%nat, 144, 191)%N)
  else if (241 <=? n)%N && (n <=? 243)%N then ("", Some (one, 3%nat, 128, 191)%N)
  else if (n =? 244)%N then ("", Some (one, 3%nat, 128, 143)%N)
  else (REPLACEMENT, None).

Fixpoint utf8_replace (st : option pending) (s : string) : string :=
  match s with
  | "" => match st with None => "" | Some _ => REPLACEMENT end
  | String b s' =>
      match st with
      | Some (acc, need, lo, hi) =>
          if (lo <=? code b)%N && (code b <=? hi)%N then
            match need with
            | S (S m) => utf8_replace (Some (acc +:+ String b "", S m, 128, 191)%N) s'
            | _ => acc +:+ String b (utf8_replace None s')
            end
          else
            let '(out, st') := utf8_start b in
            REPLACEMENT +:+ out +:+ utf8_replace st' s'
      | None =>
          let '(out, st') := utf8_start b in out +:+ utf8_replace st' s'
      end
  end.

(** The loop of [unquote] over the pieces of [_asciire.split]: each maximal
    run of ASCII characters is percent-decoded and then decoded as UTF-8;
    the characters between the runs are kept. [run] is the run under way. *)
Fixpoint unquote_runs (run : string) (s : string) : string :=
  match s with
  | "" => utf8_replace None (unquote_to_bytes run)
  | String b s' =>
      if is_ascii b then unquote_runs (run +:+ String b "") s'
      else utf8_replace None (unquote_to_bytes run) +:+ String b (unquote_runs "" s')
  end.

Definition unquote (s : string) : string :=
  if negb (contains "%" s) then s else unquote_runs "" s.

(** *** Query strings *)

Definition parse_qsl (qs : string) : list (string * string) :=
  let query_args := if truthy qs then split "&" qs else [] in
  List.concat
    (List.map
       (fun name_value =>
          if negb (truthy name_value) then []
          else match split1 "=" name_value with
               | [n; v] =>
                   if truthy v
                   then [(unquote (replace "+" " " n), unquote (replace "+" " " v))]
                   else []
               | _ => []
               end)
       query_args).

(** [parse_qs(qs)]: a dict from each name to the list of its values, in
    order of appearance. *)
Definition parse_qs (qs : string) : gmap string (list string) :=
  foldl
    (fun parsed_result '(name, value) =>
       match parsed_result !! name with
       | Some values => <[name := values ++ [value]]> parsed_result
       | None => <[name := [value]]> parsed_result
       end)
    ∅ (parse_qsl qs).

End Urllib.

(** ** Subscripts, [len] and truth of Python values *)

Definition type_name (v : pyval) : string :=
  match v with
  | PNone => "NoneType"
  | PBool _ => "bool"
  | PInt _ => "int"
  | PFloat _ => "float"
  | PStr _ => "str"
  | PList _ => "list"
  | PDict _ => "dict"
  end.

(** [d.get(k)] on a list of bindings *)
Fixpoint assoc (k : string) (d : list (string * pyval)) : option pyval :=
  match d with
  | [] => None
  | (k', v) :: d' => if String.eqb k k' then Some v else assoc k d'
  end.

(** [v[k]] for a string [k] *)
Definition getitem_key (v : pyval) (k : string) : outcome pyval :=
  match v with
  | PDict d =>
      match assoc k d with
      | Some x => Return x
      | None => Raise (Exn KeyError ("'" +:+ k +:+ "'"))
      end
  | PList _ => Raise (Exn TypeError "list indices must be integers or slices, not str")
  | PStr _ => Raise (Exn TypeError "string indices must be integers, not 'str'")
  | _ => Raise (Exn TypeError ("'" +:+ type_name v +:+ "' object is not subscriptable"))
  end.

(** [v[0]].  The keys of a parsed JSON object are strings, so [0] is never
    one of them. *)
Definition getitem_0 (v : pyval) : outcome pyval :=
  match v with
  | PList (x :: _) => Return x
  | PList [] => Raise (Exn IndexError "list index out of range")
  | PStr "" => Raise (Exn IndexError "string index out of range")
  | PStr s => Return (PStr (PyStr.head s))
  | PDict _ => Raise (Exn KeyError "0")
  | _ => Raise (Exn TypeError ("'" +:+ type_name v +:+ "' object is not subscriptable"))
  end.

(** [len(v)] *)
Definition py_len (v : pyval) : outcome nat :=
  match v with
  | PStr s => Return (PyStr.len s)
  | PList l => Return (length l)
  | PDict d => Return (length d)
  | _ => Raise (Exn TypeError ("object of type '" +:+ type_name v +:+ "' has no len()"))
  end.

(** [bool(v)] *)
Definition truthy (v : pyval) : bool :=
  match v with
  | PNone => false
  | PBool b => b
  | PInt z => negb (z =? 0)
  | PFloat q => negb (Qeq_bool q 0)
  | PStr s => PyStr.truthy s
  | PList l => negb (bool_decide (l = []))
  | PDict d => negb (bool_decide (d = []))
  end.

(** [bool(x)] for a value that is [None] or a string *)
Definition truthy_opt (x : option string) : bool :=
  match x with
  | Some s => PyStr.truthy s
  | None => false
  end.

(** ** The world the script acts on, and the monad of its effects *)

Inductive level : Type := INFO | ERROR.

(** Calls that leave the process, in the order they are made. *)
Inductive event : Type :=
| EvExtractInfo (url : string)
| EvGetTranscript (video_id : string)
| EvPost (r : Request)
| EvOpen (filename : string)
| EvWrite (filename : string) (chunk : string).

Record World : Type := {
  logged : list (level * string);
  files : gmap string string;
  trace : list event;
  progress : nat
}.

Definition M (A : Type) : Type := World -> outcome A * World.

Definition ret {A : Type} (a : A) : M A := fun w => (Return a, w).

Definition bind {A B : Type} (c : M A) (k : A -> M B) : M B :=
  fun w =>
    match c w with
    | (Return a, w') => k a w'
    | (Raise e, w') => (Raise e, w')
    end.

Notation "x <- c ;; k" := (bind c (fun x => k))
  (at level 100, c at next level, k at level 200, right associativity).
Notation "c ;; k" := (bind c (fun _ => k))
  (at level 100, k at level 200, right associativity).

(** A computation without effects, which may raise. *)
Definition lift {A : Type} (o : outcome A) : M A := fun w => (o, w).

(** [try: c except Exception as e: handler e] *)
Definition try_except {A : Type} (c : M A) (handler : exn -> M A) : M A :=
  fun w =>
    match c w with
    | (Raise e, w') => if is_Exception e then handler e w' else (Raise e, w')
    | r => r
    end.

(** The four ways the script changes the world. *)
Definition add_log (l : level) (msg : string) (w : World) : World :=
  {| logged := logged w ++ [(l, msg)]; files := files w;
     trace := trace w; progress := progress w |}.

Definition add_event (ev : event) (w : World) : World :=
  {| logged := logged w; files := files w;
     trace := trace w ++ [ev]; progress := progress w |}.

Definition add_progress (n : nat) (w : World) : World :=
  {| logged := logged w; files := files w;
     trace := trace w; progress := (progress w + n)%nat |}.

Definition set_file (filename content : string) (w : World) : World :=
  {| logged := logged w; files := <[filename := content]> (files w);
     trace := trace w; progress := progress w |}.

Definition log (l : level) (msg : string) : M unit :=
  fun w => (Return tt, add_log l msg w).

Definition logger_info : string -> M unit := log INFO.
Definition logger_error : string -> M unit := log ERROR.

(** A call to a collaborator: the call is recorded, then its result or
    exception comes back. *)
Definition call {A : Type} (ev : event) (result : outcome A) : M A :=
  fun w => (result, add_event ev w).

(** [pbar.update(n)] *)
Definition pbar_update (n : nat) : M unit :=
  fun w => (Return tt, add_progress n w).

(** [open(filename, 'w', encoding='utf-8')]: raises what the file system
    raises, or leaves an empty file under that name. *)
Definition open_w (env : Env) (filename : string) : M unit :=
  fun w =>
    match open_error env filename with
    | Some e => (Raise e, add_event (EvOpen filename) w)
    | None => (Return tt, set_file filename "" (add_event (EvOpen filename) w))
    end.

(** [f.write(chunk)] on the file opened under [filename]: the chunk goes to
    the end of the file. *)
Definition write (filename : string) (chunk : string) : M unit :=
  fun w =>
    (Return tt,
     set_file filename (default "" (files w !! filename) +:+ chunk)
       (add_event (EvWrite filename chunk) w)).

(** [f.write(v)] for an arbitrary value: only a [str] can be written. *)
Definition write_val (filename : string) (v : pyval) : M unit :=
  match v with
  | PStr s => write filename s
  | _ => lift (Raise (Exn TypeError
                        ("write() argument must be str, not " +:+ type_name v)))
  end.

(** ** The script, in source order *)

Import Urllib.

Definition extract_video_id (env : Env) (url : string) : M (option string) :=
  parsed_url <- lift (urlparse env url) ;;
  let not_found :=
    (logger_error "Could not extract video ID from URL" ;; ret None) in
  if bool_decide (hostname parsed_url = Some "youtu.be") then
    ret (Some (PyStr.tail (path parsed_url)))
  else if bool_decide (hostname parsed_url = Some "www.youtube.com")
          || bool_decide (hostname parsed_url = Some "youtube.com") then
    if String.eqb (path parsed_url) "/watch" then
      match parse_qs (query parsed_url) !! "v" with
      | None => ret None
      | Some (v :: _) => ret (Some v)
      | Some [] => lift (Raise (Exn IndexError "list index out of range"))
      end
    else if PyStr.startswith "/embed/" (path parsed_url)
            || PyStr.startswith "/v/" (path parsed_url) then
      match PyStr.split "/" (path parsed_url) !! 2%nat with
      | Some segment => ret (Some segment)
      | None => lift (Raise (Exn IndexError "list index out of range"))
      end
    else not_found
  else not_found.

Definition get_video_details (env : Env) (video_id : string) : M (option string) :=
  logger_info ("Fetching details for video ID: " +:+ video_id) ;;
  let url := "https://www.youtube.com/watch?v=" +:+ video_id in
  info <- call (EvExtractInfo url) (ydl_extract_info env url) ;;
  let video_title := info_title info in
  if truthy_opt video_title then
    logger_info ("Video title: " +:+ default "" video_title) ;;
    ret video_title
  else
    logger_error "Video details not found" ;;
    ret None.

Definition get_transcript (env : Env) (video_id : string) : M (option string) :=
  logger_info ("Fetching transcript for video ID: " +:+ video_id) ;;
  try_except
    (transcript <- call (EvGetTranscript video_id)
                        (YouTubeTranscriptApi_get_transcript env video_id) ;;
     let full_transcript := PyStr.join " " (List.map entry_text transcript) in
     logger_info ("Transcript fetched successfully. Length: "
                  +:+ pretty (PyStr.len full_transcript) +:+ " characters") ;;
     ret (Some full_transcript))
    (fun e =>
       logger_error ("An error occurred while fetching the transcript: " +:+ exn_str e) ;;
       ret None).

Definition request_headers (env : Env) : list (string * string) :=
  [("Content-Type", "application/json");
   ("x-api-key", CLAUDE_API_KEY env);
   ("anthropic-version", "2023-06-01")].

Definition request_data (prompt : string) : pyval :=
  PDict [("model", PStr "claude-3-opus-20240229");
         ("max_tokens", PInt 1000);
         ("messages", PList [PDict [("role", PStr "user"); ("content", PStr prompt)]])].

Definition claude_api_request (env : Env) (prompt : string) : M pyval :=
  logger_info "Sending request to Claude Opus API" ;;
  let headers := request_headers env in
  let data := request_data prompt in
  let request := {| req_url := CLAUDE_API_URL env; req_headers := headers; req_json := data |} in
  response <- call (EvPost request) (requests_post env request) ;;
  logger_info ("Claude API response status code: " +:+ pretty (resp_status_code response)) ;;
  if resp_status_code response =? 200 then
    content <- lift (payload <~ resp_json response ;;
                     blocks <~ getitem_key payload "content" ;;
                     block <~ getitem_0 blocks ;;
                     getitem_key block "text") ;;
    n <- lift (py_len content) ;;
    logger_info ("Claude Opus API response received. Length: " +:+ pretty n +:+ " characters") ;;
    ret content
  else
    logger_error ("Error from Claude API: " +:+ resp_text response) ;;
    ret PNone.

(** The two constant parts of the prompt, around the transcript. *)
Definition prompt_intro : string :=
  "Please provide a comprehensive summary of the following YouTube video transcript. The summary should:" +:+ PyStr.nl +:+
  PyStr.nl +:+
  "1. Capture the main topics and key points discussed in the video." +:+ PyStr.nl +:+
  "2. Highlight any important insights, data, or arguments presented." +:+ PyStr.nl +:+
  "3. Maintain the original tone and perspective of the speaker." +:+ PyStr.nl +:+
  "4. Be structured in a clear and coherent manner." +:+ PyStr.nl +:+
  "5. Be detailed enough to give a thorough understanding of the video content, but concise enough to be quickly digestible." +:+ PyStr.nl +:+
  PyStr.nl +:+
  "Here's the transcript:" +:+ PyStr.nl +:+
  PyStr.nl.

Definition prompt_outro : string := PyStr.nl +:+ PyStr.nl +:+ "Summary:".

Definition generate_summary (env : Env) (content : string) : M pyval :=
  logger_info "Generating summary" ;;
  let prompt := prompt_intro +:+ content +:+ prompt_outro in
  summary <- claude_api_request env prompt ;;
  (if truthy summary
   then logger_info "Summary generated successfully"
   else logger_error "Failed to generate summary") ;;
  ret summary.

Definition save_to_file (env : Env) (video_id video_title : string)
    (summary : pyval) (transcript : string) : M unit :=
  let filename := video_id +:+ "_summary.txt" in
  open_w env filename ;;
  write filename ("Video Title: " +:+ video_title +:+ PyStr.nl) ;;
  write filename ("Video URL: https://www.youtube.com/watch?v=" +:+ video_id +:+ PyStr.nl +:+ PyStr.nl) ;;
  write filename ("Summary:" +:+ PyStr.nl) ;;
  write_val filename summary ;;
  write filename (PyStr.nl +:+ PyStr.nl +:+ "Full Transcript:" +:+ PyStr.nl) ;;
  write filename transcript ;;
  logger_info ("Summary and transcript saved to " +:+ filename).

(** [main], given the one positional argument of the command line. *)
Definition main (env : Env) (url : string) : M unit :=
  video_id <- extract_video_id env url ;;
  if negb (truthy_opt video_id) then
    logger_error "Invalid YouTube URL. Please provide a valid YouTube video URL."
  else
    let video_id := default "" video_id in
    video_title <- get_video_details env video_id ;;
    pbar_update 1 ;;
    (if truthy_opt video_title then
       transcript <- get_transcript env video_id ;;
       pbar_update 1 ;;
       if truthy_opt transcript then
         summary <- generate_summary env (default "" transcript) ;;
         pbar_update 1 ;;
         if truthy summary then
           save_to_file env video_id (default "" video_title) summary (default "" transcript) ;;
           pbar_update 1
         else logger_error "Failed to generate summary"
       else logger_error "Failed to get transcript"
     else logger_error "Failed to get video details") ;;
    logger_info "Finished processing video".

(** * Properties *)

(** ** Worlds, field by field *)

Lemma world_eq (w1 w2 : World) :
  logged w1 = logged w2 -> files w1 = files w2 ->
  trace w1 = trace w2 -> progress w1 = progress w2 -> w1 = w2.
Proof. destruct w1, w2; simpl; by intros -> -> -> ->. Qed.

Section Projections.
Variable w : World.

Lemma logged_add_log l msg : logged (add_log l msg w) = logged w ++ [(l, msg)].
Proof. reflexivity. Qed.
Lemma files_add_log l msg : files (add_log l msg w) = files w.
Proof. reflexivity. Qed.
Lemma trace_add_log l msg : trace (add_log l msg w) = trace w.
Proof. reflexivity. Qed.
Lemma progress_add_log l msg : progress (add_log l msg w) = progress w.
Proof. reflexivity. Qed.

Lemma logged_add_event ev : logged (add_event ev w) = logged w.
Proof. reflexivity. Qed.
Lemma files_add_event ev : files (add_event ev w) = files w.
Proof. reflexivity. Qed.
Lemma trace_add_event ev : trace (add_event ev w) = trace w ++ [ev].
Proof. reflexivity. Qed.
Lemma progress_add_event ev : progress (add_event ev w) = progress w.
Proof. reflexivity. Qed.

Lemma logged_add_progress n : logged (add_progress n w) = logged w.
Proof. reflexivity. Qed.
Lemma files_add_progress n : files (add_progress n w) = files w.
Proof. reflexivity. Qed.
Lemma trace_add_progress n : trace (add_progress n w) = trace w.
Proof. reflexivity. Qed.
Lemma progress_add_progress n : progress (add_progress n w) = (progress w + n)%nat.
Proof. reflexivity. Qed.

Lemma logged_set_file fn c : logged (set_file fn c w) = logged w.
Proof. reflexivity. Qed.
Lemma files_set_file fn c : files (set_file fn c w) = <[fn := c]> (files w).
Proof. reflexivity. Qed.
Lemma trace_set_file fn c : trace (set_file fn c w) = trace w.
Proof. reflexivity. Qed.
Lemma progress_set_file fn c : progress (set_file fn c w) = progress w.
Proof. reflexivity. Qed.

End Projections.

Create Rewrite HintDb world.
#[local] Hint Rewrite
  logged_add_log files_add_log trace_add_log progress_add_log
  logged_add_event files_add_event trace_add_event progress_add_event
  logged_add_progress files_add_progress trace_add_progress progress_add_progress
  logged_set_file files_set_file trace_set_file progress_set_file : world.

(** Read a field of a world built by the script's steps. *)
Ltac world := autorewrite with world.

(** ** Strings whose characters all satisfy a predicate *)

Section Forallb.
Variable p : ascii -> bool.

Lemma forallb_filter_id (f : ascii -> bool) (s : string) :
  (forall a, p a = true -> f a = true) ->
  PyStr.forallb p s = true -> PyStr.filter f s = s.
Proof.
  intros Hf. induction s as [|a s IH]; simpl; [done|].
  intros [Ha Hs]%andb_prop. rewrite (Hf a Ha), (IH Hs). done.
Qed.

Lemma forallb_map_id (f : ascii -> ascii) (s : string) :
  (forall a, p a = true -> f a = a) ->
  PyStr.forallb p s = true -> PyStr.map f s = s.
Proof.
  intros Hf. induction s as [|a s IH]; simpl; [done|].
  intros [Ha Hs]%andb_prop. rewrite (Hf a Ha), (IH Hs). done.
Qed.

Lemma forallb_contains (c : ascii) (s : string) :
  (forall a, p a = true -> Ascii.eqb a c = false) ->
  PyStr.forallb p s = true -> PyStr.contains c s = false.
Proof.
  intros Hc. induction s as [|a s IH]; simpl; [done|].
  intros [Ha Hs]%andb_prop. rewrite (Hc a Ha), (IH Hs). done.
Qed.

Lemma forallb_partition (c : ascii) (s : string) :
  (forall a, p a = true -> Ascii.eqb a c = false) ->
  PyStr.forallb p s = true -> PyStr.partition c s = (s, false, "").
Proof.
  intros Hc. induction s as [|a s IH]; simpl; [done|].
  intros [Ha Hs]%andb_prop. rewrite (Hc a Ha), (IH Hs). done.
Qed.

Lemma forallb_rpartition (c : ascii) (s : string) :
  (forall a, p a = true -> Ascii.eqb a c = false) ->
  PyStr.forallb p s = true -> PyStr.rpartition c s = ("", false, s).
Proof.
  intros Hc. induction s as [|a s IH]; simpl; [done|].
  intros [Ha Hs]%andb_prop. rewrite (Hc a Ha), (IH Hs). done.
Qed.

Lemma forallb_split (c : ascii) (s : string) :
  (forall a, p a = true -> Ascii.eqb a c = false) ->
  PyStr.forallb p s = true -> PyStr.split c s = [s].
Proof.
  intros Hc. induction s as [|a s IH]; simpl; [done|].
  intros [Ha Hs]%andb_prop. rewrite (Hc a Ha), (IH Hs). done.
Qed.

End Forallb.

(** ** Video identifiers

    The characters of a YouTube identifier: letters, digits, [-] and [_]. *)

Definition ident_char (c : ascii) : bool :=
  PyStr.is_alnum c || Ascii.eqb c "-" || Ascii.eqb c "_".

Definition identifier (s : string) : Prop := PyStr.forallb ident_char s = true.

(** The characters [urllib.parse] gives a meaning to. *)
Definition reserved (c : ascii) : bool :=
  existsb (Ascii.eqb c)
    [":"; "/"; "?"; "#"; ";"; "%"; "+"; "&"; "="; "["; "]"; "@";
     PyStr.TAB; PyStr.CR; PyStr.LF]%char.

Lemma ident_char_not_reserved (a : ascii) :
  ident_char a = true -> reserved a = false.
Proof.
  destruct a as [[] [] [] [] [] [] [] []]; vm_compute; congruence.
Qed.

Lemma ident_char_neq (a c : ascii) :
  reserved c = true -> ident_char a = true -> Ascii.eqb a c = false.
Proof.
  intros Hc Ha. destruct (Ascii.eqb_spec a c) as [->|]; [|done].
  apply ident_char_not_reserved in Ha. congruence.
Qed.

Section Identifier.
Variables (id : string) (c : ascii).
Hypothesis Hid : identifier id.
Hypothesis Hc : reserved c = true.

Lemma ident_remove : PyStr.filter (fun a => negb (Ascii.eqb a c)) id = id.
Proof.
  apply (forallb_filter_id ident_char); [|done].
  intros a Ha. by rewrite ident_char_neq.
Qed.

Lemma ident_replace (d : ascii) :
  PyStr.map (fun a => if Ascii.eqb a c then d else a) id = id.
Proof.
  apply (forallb_map_id ident_char); [|done].
  intros a Ha. by rewrite ident_char_neq.
Qed.

Lemma ident_contains : PyStr.contains c id = false.
Proof.
  apply (forallb_contains ident_char); [|done].
  intros a Ha. by rewrite ident_char_neq.
Qed.

Lemma ident_partition : PyStr.partition c id = (id, false, "").
Proof.
  apply (forallb_partition ident_char); [|done].
  intros a Ha. by rewrite ident_char_neq.
Qed.

Lemma ident_rpartition : PyStr.rpartition c id = ("", false, id).
Proof.
  apply (forallb_rpartition ident_char); [|done].
  intros a Ha. by rewrite ident_char_neq.
Qed.

Lemma ident_split : PyStr.split c id = [id].
Proof.
  apply (forallb_split ident_char); [|done].
  intros a Ha. by rewrite ident_char_neq.
Qed.

End Identifier.

Lemma truthy_nonempty (s : string) : s <> "" -> PyStr.truthy s = true.
Proof. by destruct s. Qed.

(** Rewrite every string operation that met the identifier [id]. *)
Ltac ident_rw H :=
  repeat first
    [ rewrite (ident_remove _ _ H) by reflexivity
    | rewrite (ident_replace _ _ H) by reflexivity
    | rewrite (ident_contains _ _ H) by reflexivity
    | rewrite (ident_partition _ _ H) by reflexivity
    | rewrite (ident_rpartition _ _ H) by reflexivity
    | rewrite (ident_split _ _ H) by reflexivity ].

(** Run the parser over the constant part of a URL, up to the identifier. *)
Ltac url_eval H :=
  cbv [String.append];
  unfold urlparse, urlsplit, split_scheme, PyStr.lower, _splitparams;
  repeat (progress (simpl; ident_rw H)).

(** ** The URL shapes of the specification *)

Inductive url_shape : Type := ShortLink | WatchQuery | EmbedPath | VPath.

Definition schemes : list string := ["https"; "http"].
Definition canonical_hosts : list string := ["www.youtube.com"; "youtube.com"].

(** The URL of a shape, for a scheme, a canonical host (which the short
    link does not use) and an identifier. *)
Definition shape_url (sh : url_shape) (sch host id : string) : string :=
  match sh with
  | ShortLink => sch +:+ "://youtu.be/" +:+ id
  | WatchQuery => sch +:+ "://" +:+ host +:+ "/watch?v=" +:+ id
  | EmbedPath => sch +:+ "://" +:+ host +:+ "/embed/" +:+ id
  | VPath => sch +:+ "://" +:+ host +:+ "/v/" +:+ id
  end.

(** [url] has one of the four shapes and carries the identifier [id]. *)
Definition supported_url (url id : string) : Prop :=
  exists sh sch host,
    In sch schemes /\ In host canonical_hosts /\
    identifier id /\ id <> "" /\ url = shape_url sh sch host id.

(** What the parser makes of each shape. *)
Definition shape_parse (sh : url_shape) (sch host id : string) : ParseResult :=
  match sh with
  | ShortLink =>
      {| scheme := sch; netloc := "youtu.be"; path := "/" +:+ id;
         params := ""; query := ""; fragment := "" |}
  | WatchQuery =>
      {| scheme := sch; netloc := host; path := "/watch";
         params := ""; query := "v=" +:+ id; fragment := "" |}
  | EmbedPath =>
      {| scheme := sch; netloc := host; path := "/embed/" +:+ id;
         params := ""; query := ""; fragment := "" |}
  | VPath =>
      {| scheme := sch; netloc := host; path := "/v/" +:+ id;
         params := ""; query := ""; fragment := "" |}
  end.

Lemma urlparse_shape (env : Env) (sh : url_shape) (sch host id : string) :
  In sch schemes -> In host canonical_hosts -> identifier id ->
  urlparse env (shape_url sh sch host id) = Return (shape_parse sh sch host id).
Proof.
  intros Hs Hh Hid.
  destruct Hs as [<-|[<-|[]]]; destruct Hh as [<-|[<-|[]]]; destruct sh;
    unfold shape_url, shape_parse; url_eval Hid; reflexivity.
Qed.

Lemma parse_qs_v (id : string) :
  identifier id -> id <> "" -> parse_qs ("v=" +:+ id) !! "v" = Some [id].
Proof.
  intros Hid Hne. cbv [String.append].
  unfold parse_qs, parse_qsl, PyStr.split1, unquote, PyStr.replace.
  repeat (progress (simpl; ident_rw Hid)).
  rewrite (truthy_nonempty _ Hne). simpl.
  apply lookup_insert_eq.
Qed.

Lemma ident_lstrip_continuation (id : string) :
  identifier id -> PyStr.lstrip PyStr.is_continuation id = id.
Proof.
  destruct id as [|a id]; [done|]. unfold identifier; simpl.
  intros [Ha _]%andb_prop.
  destruct a as [[] [] [] [] [] [] [] []]; vm_compute in Ha; try discriminate; reflexivity.
Qed.

Lemma extract_video_id_shape (env : Env) (sh : url_shape) (sch host id : string) (w : World) :
  In sch schemes -> In host canonical_hosts -> identifier id ->
  (sh = WatchQuery -> id <> "") ->
  extract_video_id env (shape_url sh sch host id) w = (Return (Some id), w).
Proof.
  intros Hs Hh Hid Hne. unfold extract_video_id, bind, lift.
  rewrite urlparse_shape by done.
  destruct Hh as [<-|[<-|[]]]; destruct sh; simpl.
  all: rewrite ?parse_qs_v by auto.
  all: cbv [String.append]; simpl; ident_rw Hid.
  all: rewrite ?ident_lstrip_continuation by done.
  all: reflexivity.
Qed.

(** ** A sample environment and world, for concrete runs *)

Definition sample_transcript : list Entry :=
  [ {| entry_text := "a"; entry_start := 0; entry_duration := 3 # 2 |};
    {| entry_text := "b"; entry_start := 3 # 2; entry_duration := 2 |};
    {| entry_text := "c"; entry_start := 7 # 2; entry_duration := 1 |} ].

Definition sample_payload : pyval :=
  PDict [("id", PStr "msg_01");
         ("content", PList [PDict [("type", PStr "text"); ("text", PStr "A short summary.")]])].

Definition sample_env : Env := {|
  CLAUDE_API_KEY := "sk-sample";
  CLAUDE_API_URL := "https://api.anthropic.com/v1/messages";
  unicodedata_normalize_NFKC := fun s => s;
  ipaddress_ip_address := fun s =>
    if String.eqb s "::1" then Return IPv6
    else Raise (Exn ValueError ("'" +:+ s +:+ "' does not appear to be an IPv4 or IPv6 address"));
  ydl_extract_info := fun _ => Return {| info_title := Some "A talk" |};
  YouTubeTranscriptApi_get_transcript := fun _ => Return sample_transcript;
  requests_post := fun _ =>
    Return {| resp_status_code := 200; resp_text := "{...}";
              resp_json := Return sample_payload |};
  open_error := fun _ => None
|}.

Definition empty_world : World :=
  {| logged := []; files := ∅; trace := []; progress := 0 |}.

(** ** The identifier parser (C1, C10) *)

Definition short_host (p : ParseResult) : Prop := hostname p = Some "youtu.be".

Definition canonical_host (p : ParseResult) : Prop :=
  hostname p = Some "www.youtube.com" \/ hostname p = Some "youtube.com".

Definition not_found_msg : string := "Could not extract video ID from URL".

Lemma extract_video_id_unsupported_host (env : Env) (url : string) (w : World) (p : ParseResult) :
  urlparse env url = Return p ->
  ~ short_host p -> ~ canonical_host p ->
  extract_video_id env url w = (Return None, add_log ERROR not_found_msg w).
Proof.
  unfold short_host, canonical_host. intros Hp Hs Hc.
  unfold extract_video_id, bind, lift. rewrite Hp.
  rewrite !bool_decide_false by tauto. reflexivity.
Qed.

Lemma extract_video_id_other_path (env : Env) (url : string) (w : World) (p : ParseResult) :
  urlparse env url = Return p ->
  canonical_host p -> path p <> "/watch" ->
  PyStr.startswith "/embed/" (path p) = false ->
  PyStr.startswith "/v/" (path p) = false ->
  extract_video_id env url w = (Return None, add_log ERROR not_found_msg w).
Proof.
  unfold canonical_host. intros Hp Hc Hw He Hv.
  unfold extract_video_id, bind, lift. rewrite Hp.
  rewrite bool_decide_false by (destruct Hc as [-> | ->]; discriminate).
  replace (bool_decide (hostname p = Some "www.youtube.com")
           || bool_decide (hostname p = Some "youtube.com")) with true
    by (destruct Hc as [Hc|Hc]; rewrite Hc; reflexivity).
  apply String.eqb_neq in Hw. rewrite Hw, He, Hv. reflexivity.
Qed.

Lemma extract_video_id_no_v (env : Env) (url : string) (w : World) (p : ParseResult) :
  urlparse env url = Return p ->
  canonical_host p -> path p = "/watch" ->
  parse_qs (query p) !! "v" = None ->
  extract_video_id env url w = (Return None, w).
Proof.
  unfold canonical_host. intros Hp Hc Hw Hq.
  unfold extract_video_id, bind, lift. rewrite Hp.
  rewrite bool_decide_false by (destruct Hc as [-> | ->]; discriminate).
  replace (bool_decide (hostname p = Some "www.youtube.com")
           || bool_decide (hostname p = Some "youtube.com")) with true
    by (destruct Hc as [Hc|Hc]; rewrite Hc; reflexivity).
  rewrite Hw, Hq. reflexivity.
Qed.

(** C1 (as amended).  A URL of one of the four supported shapes (short
    link, canonical watch query, embed path, v path) that carries a
    non-empty identifier yields exactly that identifier, and nothing is
    logged.  A URL that parses to a host other than youtu.be,
    www.youtube.com and youtube.com, or to a canonical host with a path
    that is neither /watch nor under /embed/ or /v/, yields [None] and the
    failure is logged; a canonical /watch URL without a [v] parameter
    yields [None]. *)
Theorem extract_video_id_shapes_and_failures (env : Env) (url : string) (w : World) :
  (forall id, supported_url url id ->
     extract_video_id env url w = (Return (Some id), w))
  /\ (forall p, urlparse env url = Return p ->
        (~ short_host p /\ ~ canonical_host p)
        \/ (canonical_host p /\ path p <> "/watch"
            /\ PyStr.startswith "/embed/" (path p) = false
            /\ PyStr.startswith "/v/" (path p) = false) ->
        extract_video_id env url w = (Return None, add_log ERROR not_found_msg w))
  /\ (forall p, urlparse env url = Return p ->
        canonical_host p -> path p = "/watch" ->
        parse_qs (query p) !! "v" = None ->
        extract_video_id env url w = (Return None, w)).
Proof.
  split; [|split].
  - intros id (sh & sch & host & Hs & Hh & Hid & Hne & ->).
    by apply extract_video_id_shape.
  - intros p Hp [[Hs Hc] | (Hc & Hw & He & Hv)].
    + by eapply extract_video_id_unsupported_host.
    + by eapply extract_video_id_other_path.
  - intros p Hp Hc Hw Hq. by eapply extract_video_id_no_v.
Qed.

Lemma extract_video_id_shapes_and_failures_witness :
  extract_video_id sample_env "https://www.youtube.com/watch?v=ABC123" empty_world
    = (Return (Some "ABC123"), empty_world)
  /\ extract_video_id sample_env "https://youtu.be/ABC123" empty_world
    = (Return (Some "ABC123"), empty_world)
  /\ extract_video_id sample_env "https://vimeo.com/12345" empty_world
    = (Return None, add_log ERROR not_found_msg empty_world)
  /\ extract_video_id sample_env "https://www.youtube.com/playlist?list=PL1" empty_world
    = (Return None, add_log ERROR not_found_msg empty_world)
  /\ extract_video_id sample_env "https://www.youtube.com/watch?list=PL1" empty_world
    = (Return None, empty_world).
Proof.
  pose proof (extract_video_id_shapes_and_failures sample_env) as T.
  split; [|split; [|split; [|split]]].
  - apply (proj1 (T _ empty_world)).
    exists WatchQuery, "https", "www.youtube.com".
    split; [simpl; tauto|]. split; [simpl; tauto|].
    split; [reflexivity|]. split; [discriminate | reflexivity].
  - apply (proj1 (T _ empty_world)).
    exists ShortLink, "https", "www.youtube.com".
    split; [simpl; tauto|]. split; [simpl; tauto|].
    split; [reflexivity|]. split; [discriminate | reflexivity].
  - eapply (proj1 (proj2 (T _ empty_world))).
    + vm_compute; reflexivity.
    + left; split; [intros H | intros [H|H]]; vm_compute in H; discriminate.
  - eapply (proj1 (proj2 (T _ empty_world))).
    + vm_compute; reflexivity.
    + right. split; [left; vm_compute; reflexivity|].
      split; [discriminate|]. split; reflexivity.
  - eapply (proj2 (proj2 (T _ empty_world))).
    + vm_compute; reflexivity.
    + left; vm_compute; reflexivity.
    + reflexivity.
    + vm_compute; reflexivity.
Defined.

(** C1 as stated fails: the short link without an identifier has none of
    the four shapes, and yet the parser returns the empty string for it,
    not [None]. *)
Lemma extract_video_id_short_link_without_identifier :
  (~ exists id, supported_url "https://youtu.be/" id)
  /\ extract_video_id sample_env "https://youtu.be/" empty_world
     = (Return (Some ""), empty_world)
  /\ fst (extract_video_id sample_env "https://youtu.be/" empty_world) <> Return None.
Proof.
  split; [|split].
  - intros (id & sh & sch & host & Hs & Hh & _ & Hne & Heq).
    destruct Hs as [<-|[<-|[]]]; destruct Hh as [<-|[<-|[]]]; destruct sh;
      cbv [shape_url String.append] in Heq; congruence.
  - vm_compute; reflexivity.
  - vm_compute; discriminate.
Qed.

(** A URL that [urlparse] rejects makes the parser raise: the exception is
    not turned into [None]. *)
Lemma extract_video_id_raises_on_rejected_url :
  extract_video_id sample_env "http://[youtu.be/ABC123" empty_world
  = (Raise (Exn ValueError "Invalid IPv6 URL"), empty_world).
Proof. vm_compute; reflexivity. Qed.

(** The parser makes no call and writes no file: it leaves the world as it
    found it, but for the one line it may log. *)
Lemma extract_video_id_world (env : Env) (url : string) (w w' : World) (o : outcome (option string)) :
  extract_video_id env url w = (o, w') ->
  w' = w \/ w' = add_log ERROR not_found_msg w.
Proof.
  unfold extract_video_id, bind, lift, ret, logger_error, log.
  destruct (urlparse env url) as [p|e]; [|intros [= _ <-]; by left].
  repeat case_match; intros [= _ <-]; auto.
Qed.

Lemma extract_video_id_trace (env : Env) (url : string) (w w' : World) (o : outcome (option string)) :
  extract_video_id env url w = (o, w') ->
  trace w' = trace w /\ files w' = files w /\ progress w' = progress w.
Proof.
  intros [-> | ->]%extract_video_id_world; done.
Qed.

Definition invalid_url_msg : string :=
  "Invalid YouTube URL. Please provide a valid YouTube video URL.".

Lemma main_invalid_url (env : Env) (url : string) (w w' : World) (r : option string) :
  extract_video_id env url w = (Return r, w') ->
  truthy_opt r = false ->
  main env url w = (Return tt, add_log ERROR invalid_url_msg w').
Proof.
  intros Hx Hr. unfold main, bind. rewrite Hx, Hr. reflexivity.
Qed.

(** C10.  On a supported host an empty identifier segment gives the empty
    string, not [None]: so for https://youtu.be/ and for
    https://www.youtube.com/embed/.  [main] takes any falsy result, [None]
    or the empty string, as failure: it logs the invalid URL and returns,
    having made no call and written no file. *)
Theorem empty_identifier_is_failure (env : Env) (w : World) :
  extract_video_id env "https://youtu.be/" w = (Return (Some ""), w)
  /\ extract_video_id env "https://www.youtube.com/embed/" w = (Return (Some ""), w)
  /\ (forall url r w',
        extract_video_id env url w = (Return r, w') ->
        r = None \/ r = Some "" ->
        main env url w = (Return tt, add_log ERROR invalid_url_msg w')
        /\ trace (add_log ERROR invalid_url_msg w') = trace w
        /\ files (add_log ERROR invalid_url_msg w') = files w).
Proof.
  split; [|split].
  - apply (extract_video_id_shape env ShortLink "https" "www.youtube.com" "");
      [simpl; tauto | simpl; tauto | reflexivity | discriminate].
  - apply (extract_video_id_shape env EmbedPath "https" "www.youtube.com" "");
      [simpl; tauto | simpl; tauto | reflexivity | discriminate].
  - intros url r w' Hx Hr. split.
    + apply (main_invalid_url _ _ _ _ r); [done|]. by destruct Hr as [-> | ->].
    + apply extract_video_id_trace in Hx as (Ht & Hf & _). done.
Qed.

Lemma empty_identifier_is_failure_witness :
  main sample_env "https://youtu.be/" empty_world
    = (Return tt, add_log ERROR invalid_url_msg empty_world)
  /\ main sample_env "https://www.youtube.com/watch" empty_world
    = (Return tt, add_log ERROR invalid_url_msg empty_world).
Proof.
  split.
  - apply (proj2 (proj2 (empty_identifier_is_failure sample_env empty_world))
             "https://youtu.be/" (Some "") empty_world).
    + vm_compute; reflexivity.
    + right; reflexivity.
  - apply (proj2 (proj2 (empty_identifier_is_failure sample_env empty_world))
             "https://www.youtube.com/watch" None empty_world).
    + vm_compute; reflexivity.
    + left; reflexivity.
Defined.

(** ** The transcript fetcher (C6, C8) *)

Lemma split_app_sep (c : ascii) (t s : string) :
  PyStr.contains c t = false ->
  PyStr.split c (t +:+ String c s) = t :: PyStr.split c s.
Proof.
  induction t as [|a t IH]; simpl.
  - intros _. by rewrite Ascii.eqb_refl.
  - intros [Ha Ht]%orb_false_elim. rewrite Ha, (IH Ht). done.
Qed.

Lemma split_no_sep (c : ascii) (t : string) :
  PyStr.contains c t = false -> PyStr.split c t = [t].
Proof.
  induction t as [|a t IH]; simpl; [done|].
  intros [Ha Ht]%orb_false_elim. rewrite Ha, (IH Ht). done.
Qed.

(** Joining with a separator and splitting at it again gives the parts
    back, in their order, when no part contains the separator. *)
Lemma split_join (c : ascii) (parts : list string) :
  parts <> [] ->
  Forall (fun t => PyStr.contains c t = false) parts ->
  PyStr.split c (PyStr.join (String c "") parts) = parts.
Proof.
  intros Hne Hall. induction Hall as [|t rest Ht Hrest IH]; [done|].
  destruct rest as [|t' rest].
  - simpl. by apply split_no_sep.
  - change (PyStr.join (String c "") (t :: t' :: rest))
      with (t +:+ String c (PyStr.join (String c "") (t' :: rest))).
    rewrite split_app_sep by done. f_equal. by apply IH.
Qed.

Definition fetching_transcript_msg (video_id : string) : string :=
  "Fetching transcript for video ID: " +:+ video_id.

Definition transcript_fetched_msg (full_transcript : string) : string :=
  "Transcript fetched successfully. Length: "
  +:+ pretty (PyStr.len full_transcript) +:+ " characters".

Definition transcript_error_msg (e : exn) : string :=
  "An error occurred while fetching the transcript: " +:+ exn_str e.

Lemma get_transcript_ok (env : Env) (video_id : string) (w : World) (fragments : list Entry) :
  YouTubeTranscriptApi_get_transcript env video_id = Return fragments ->
  get_transcript env video_id w
  = (Return (Some (PyStr.join " " (List.map entry_text fragments))),
     add_log INFO (transcript_fetched_msg (PyStr.join " " (List.map entry_text fragments)))
       (add_event (EvGetTranscript video_id)
          (add_log INFO (fetching_transcript_msg video_id) w))).
Proof.
  intros H. unfold get_transcript, try_except, bind, call, logger_info, log.
  rewrite H. reflexivity.
Qed.

Lemma get_transcript_error (env : Env) (video_id : string) (w : World) (e : exn) :
  YouTubeTranscriptApi_get_transcript env video_id = Raise e ->
  is_Exception e = true ->
  get_transcript env video_id w
  = (Return None,
     add_log ERROR (transcript_error_msg e)
       (add_event (EvGetTranscript video_id)
          (add_log INFO (fetching_transcript_msg video_id) w))).
Proof.
  intros H He. unfold get_transcript, try_except, bind, call, logger_info, log.
  rewrite H, He. reflexivity.
Qed.

(** C6.  Whatever caption fragments the transcript collaborator returns,
    [get_transcript] returns their text fields joined by single spaces in
    their original order; start and duration play no part.  Splitting the
    result at the spaces gives the texts back when none of them contains a
    space, and the fragments a, b, c give "a b c". *)
Theorem get_transcript_joins_fragments (env : Env) (video_id : string) (w : World)
    (fragments : list Entry) :
  YouTubeTranscriptApi_get_transcript env video_id = Return fragments ->
  get_transcript env video_id w
    = (Return (Some (PyStr.join " " (List.map entry_text fragments))),
       add_log INFO (transcript_fetched_msg (PyStr.join " " (List.map entry_text fragments)))
         (add_event (EvGetTranscript video_id)
            (add_log INFO (fetching_transcript_msg video_id) w)))
  /\ (fragments <> [] ->
      Forall (fun f => PyStr.contains " " (entry_text f) = false) fragments ->
      PyStr.split " " (PyStr.join " " (List.map entry_text fragments))
        = List.map entry_text fragments)
  /\ (List.map entry_text fragments = ["a"; "b"; "c"] ->
      fst (get_transcript env video_id w) = Return (Some "a b c")).
Proof.
  intros H. rewrite (get_transcript_ok _ _ _ _ H). simpl.
  split; [done|split].
  - intros Hne Hall. apply split_join.
    + by destruct fragments.
    + by apply Forall_map.
  - by intros ->.
Qed.

Lemma get_transcript_joins_fragments_witness :
  fst (get_transcript sample_env "ABC123" empty_world) = Return (Some "a b c")
  /\ PyStr.split " " "a b c" = ["a"; "b"; "c"].
Proof.
  pose proof (get_transcript_joins_fragments sample_env "ABC123" empty_world
                sample_transcript eq_refl) as (H1 & H2 & H3).
  split.
  - apply H3. reflexivity.
  - apply H2; [discriminate|]. repeat constructor.
Defined.

(** C8.  Whatever exception the transcript collaborator raises (rate
    limiting, disabled captions, an unavailable video, or any other
    [Exception]), [get_transcript] returns [None], the one failure signal,
    and logs the error's text; nothing is raised to the caller. *)
Theorem get_transcript_collapses_errors (env : Env) (video_id : string) (w : World) (e : exn) :
  YouTubeTranscriptApi_get_transcript env video_id = Raise e ->
  is_Exception e = true ->
  get_transcript env video_id w
  = (Return None,
     add_log ERROR ("An error occurred while fetching the transcript: " +:+ exn_str e)
       (add_event (EvGetTranscript video_id)
          (add_log INFO (fetching_transcript_msg video_id) w))).
Proof.
  intros Hraise Hcaught.
  unfold get_transcript, try_except, bind, call, logger_info, logger_error, log.
  rewrite Hraise. cbn [fst snd]. rewrite Hcaught. reflexivity.
Qed.

(** The sample environment with another transcript collaborator. *)
Definition with_transcript (env : Env) (r : string -> outcome (list Entry)) : Env :=
  {| CLAUDE_API_KEY := CLAUDE_API_KEY env;
     CLAUDE_API_URL := CLAUDE_API_URL env;
     unicodedata_normalize_NFKC := unicodedata_normalize_NFKC env;
     ipaddress_ip_address := ipaddress_ip_address env;
     ydl_extract_info := ydl_extract_info env;
     YouTubeTranscriptApi_get_transcript := r;
     requests_post := requests_post env;
     open_error := open_error env |}.

Definition transcripts_disabled : exn :=
  Exn (LibraryError "TranscriptsDisabled") "Subtitles are disabled for this video".

Lemma get_transcript_collapses_errors_witness :
  get_transcript (with_transcript sample_env (fun _ => Raise transcripts_disabled))
    "ABC123" empty_world
  = (Return None,
     add_log ERROR
       "An error occurred while fetching the transcript: Subtitles are disabled for this video"
       (add_event (EvGetTranscript "ABC123")
          (add_log INFO "Fetching transcript for video ID: ABC123" empty_world))).
Proof.
  apply (get_transcript_collapses_errors
           (with_transcript sample_env (fun _ => Raise transcripts_disabled))
           "ABC123" empty_world transcripts_disabled); reflexivity.
Defined.

(** ** The summarizer (C4, C5, C7, C9) *)

(** The request [claude_api_request] posts for a prompt. *)
Definition api_request (env : Env) (prompt : string) : Request :=
  {| req_url := CLAUDE_API_URL env;
     req_headers := request_headers env;
     req_json := request_data prompt |}.

(** The world once the response has come back and its status is logged. *)
Definition after_post (env : Env) (prompt : string) (status : Z) (w : World) : World :=
  add_log INFO ("Claude API response status code: " +:+ pretty status)
    (add_event (EvPost (api_request env prompt))
       (add_log INFO "Sending request to Claude Opus API" w)).

(** [response.json()['content'][0]['text']] *)
Definition content_text (response : Response) : outcome pyval :=
  payload <~ resp_json response ;;
  blocks <~ getitem_key payload "content" ;;
  block <~ getitem_0 blocks ;;
  getitem_key block "text".

Lemma claude_api_request_failure (env : Env) (prompt : string) (w : World) (response : Response) :
  requests_post env (api_request env prompt) = Return response ->
  resp_status_code response <> 200 ->
  claude_api_request env prompt w
  = (Return PNone,
     add_log ERROR ("Error from Claude API: " +:+ resp_text response)
       (after_post env prompt (resp_status_code response) w)).
Proof.
  intros H Hs. unfold claude_api_request, bind, call, logger_info, logger_error, log.
  fold (api_request env prompt). rewrite H.
  apply Z.eqb_neq in Hs. rewrite Hs. reflexivity.
Qed.

Lemma claude_api_request_success (env : Env) (prompt : string) (w : World)
    (response : Response) (content : pyval) (n : nat) :
  requests_post env (api_request env prompt) = Return response ->
  resp_status_code response = 200 ->
  content_text response = Return content ->
  py_len content = Return n ->
  claude_api_request env prompt w
  = (Return content,
     add_log INFO ("Claude Opus API response received. Length: " +:+ pretty n +:+ " characters")
       (after_post env prompt 200 w)).
Proof.
  intros H Hs Hc Hn. unfold claude_api_request, bind, call, lift, logger_info, log.
  fold (api_request env prompt). rewrite H, Hs. simpl.
  fold (content_text response). rewrite Hc, Hn. reflexivity.
Qed.

Lemma claude_api_request_content_raises (env : Env) (prompt : string) (w : World)
    (response : Response) (e : exn) :
  requests_post env (api_request env prompt) = Return response ->
  resp_status_code response = 200 ->
  content_text response = Raise e ->
  claude_api_request env prompt w = (Raise e, after_post env prompt 200 w).
Proof.
  intros H Hs Hc. unfold claude_api_request, bind, call, lift, logger_info, log.
  fold (api_request env prompt). rewrite H, Hs. simpl.
  fold (content_text response). rewrite Hc. reflexivity.
Qed.

(** Whatever the response, the one call [claude_api_request] makes is the
    post of [api_request], and it touches no file. *)
Lemma claude_api_request_trace (env : Env) (prompt : string) (w : World) :
  trace (snd (claude_api_request env prompt w))
    = trace w ++ [EvPost (api_request env prompt)]
  /\ files (snd (claude_api_request env prompt w)) = files w.
Proof.
  unfold claude_api_request, bind, call, lift, logger_info, logger_error, log, ret.
  fold (api_request env prompt). simpl.
  destruct (requests_post env (api_request env prompt)) as [response|e]; simpl; [|done].
  destruct (resp_status_code response =? 200); simpl; [|done].
  repeat (case_match; simpl; try done).
Qed.

(** C9.  For every prompt the request sent to the generation API is the
    JSON body {model: "claude-3-opus-20240229", max_tokens: 1000,
    messages: [{role: "user", content: prompt}]}, with a content-type
    header, the API key and the version token; when the response has
    status 200, the returned summary is the text field of element 0 of the
    response's content array. *)
Theorem claude_api_request_wire_contract (env : Env) (prompt : string) (w : World) :
  trace (snd (claude_api_request env prompt w))
  = trace w ++
    [EvPost
       {| req_url := CLAUDE_API_URL env;
          req_headers := [("Content-Type", "application/json");
                          ("x-api-key", CLAUDE_API_KEY env);
                          ("anthropic-version", "2023-06-01")];
          req_json :=
            PDict [("model", PStr "claude-3-opus-20240229");
                   ("max_tokens", PInt 1000);
                   ("messages",
                    PList [PDict [("role", PStr "user"); ("content", PStr prompt)]])] |}]
  /\ (forall response payload block rest text,
        requests_post env (api_request env prompt) = Return response ->
        resp_status_code response = 200 ->
        resp_json response = Return payload ->
        getitem_key payload "content" = Return (PList (block :: rest)) ->
        getitem_key block "text" = Return (PStr text) ->
        fst (claude_api_request env prompt w) = Return (PStr text)).
Proof.
  split; [apply claude_api_request_trace|].
  intros response payload block rest text H Hs Hj Hc Ht.
  assert (content_text response = Return (PStr text)) as Hct.
  { unfold content_text. rewrite Hj. simpl. rewrite Hc. simpl. done. }
  by rewrite (claude_api_request_success env prompt w response (PStr text)
                (PyStr.len text) H Hs Hct eq_refl).
Qed.

Lemma claude_api_request_wire_contract_witness :
  fst (claude_api_request sample_env "Summarise: a b c" empty_world)
  = Return (PStr "A short summary.").
Proof.
  apply (proj2 (claude_api_request_wire_contract sample_env "Summarise: a b c" empty_world)
           {| resp_status_code := 200; resp_text := "{...}"; resp_json := Return sample_payload |}
           sample_payload
           (PDict [("type", PStr "text"); ("text", PStr "A short summary.")]) []);
    reflexivity.
Defined.

Definition substring_of (needle hay : string) : Prop :=
  exists before after, hay = before +:+ needle +:+ after.

(** The prompt sent for a transcript. *)
Definition prompt_of (content : string) : string :=
  prompt_intro +:+ content +:+ prompt_outro.

Lemma generate_summary_unfold (env : Env) (content : string) (w : World) :
  generate_summary env content w
  = match claude_api_request env (prompt_of content) (add_log INFO "Generating summary" w) with
    | (Return summary, w') =>
        (Return summary,
         if truthy summary
         then add_log INFO "Summary generated successfully" w'
         else add_log ERROR "Failed to generate summary" w')
    | (Raise e, w') => (Raise e, w')
    end.
Proof.
  unfold generate_summary, bind, logger_info, logger_error, log, ret, prompt_of.
  destruct (claude_api_request _ _ _) as [[summary|e] w']; [|done].
  by destruct (truthy summary).
Qed.

Lemma generate_summary_trace (env : Env) (content : string) (w : World) :
  trace (snd (generate_summary env content w))
    = trace w ++ [EvPost (api_request env (prompt_of content))]
  /\ files (snd (generate_summary env content w)) = files w.
Proof.
  rewrite generate_summary_unfold.
  pose proof (claude_api_request_trace env (prompt_of content)
                (add_log INFO "Generating summary" w)) as [Ht Hf].
  destruct (claude_api_request _ _ _) as [[summary|e] w']; simpl in *; [|done].
  by destruct (truthy summary).
Qed.

(** C7.  For every transcript, the request [generate_summary] sends to the
    generation API carries, as the content of its one message, a prompt
    that contains the whole transcript as a contiguous substring. *)
Theorem generate_summary_prompt_contains_transcript (env : Env) (content : string) (w : World) :
  exists prompt,
    trace (snd (generate_summary env content w))
      = trace w ++ [EvPost (api_request env prompt)]
    /\ (messages <~ getitem_key (req_json (api_request env prompt)) "messages" ;;
        message <~ getitem_0 messages ;;
        getitem_key message "content") = Return (PStr prompt)
    /\ substring_of content prompt.
Proof.
  exists (prompt_of content). split; [apply generate_summary_trace|].
  split; [reflexivity|]. by exists prompt_intro, prompt_outro.
Qed.

(** ** The writer (C2) *)

Definition summary_filename (video_id : string) : string := video_id +:+ "_summary.txt".

(** The pieces [save_to_file] writes, in order. *)
Definition file_chunks (video_id video_title summary transcript : string) : list string :=
  [ "Video Title: " +:+ video_title +:+ PyStr.nl;
    "Video URL: https://www.youtube.com/watch?v=" +:+ video_id +:+ PyStr.nl +:+ PyStr.nl;
    "Summary:" +:+ PyStr.nl;
    summary;
    PyStr.nl +:+ PyStr.nl +:+ "Full Transcript:" +:+ PyStr.nl;
    transcript ].

(** The text of the file, line by line. *)
Definition file_content (video_id video_title summary transcript : string) : string :=
  "Video Title: " +:+ video_title +:+ PyStr.nl +:+
  "Video URL: https://www.youtube.com/watch?v=" +:+ video_id +:+ PyStr.nl +:+
  PyStr.nl +:+
  "Summary:" +:+ PyStr.nl +:+
  summary +:+ PyStr.nl +:+
  PyStr.nl +:+
  "Full Transcript:" +:+ PyStr.nl +:+
  transcript.

Lemma append_assoc (a b c : string) : (a +:+ b) +:+ c = a +:+ b +:+ c.
Proof.
  induction a as [|x a IH]; [done|].
  change (String x ((a +:+ b) +:+ c) = String x (a +:+ b +:+ c)). by rewrite IH.
Qed.

Lemma append_nil_r (a : string) : a +:+ "" = a.
Proof.
  induction a as [|x a IH]; [done|].
  change (String x (a +:+ "") = String x a). by rewrite IH.
Qed.

(** The content is the chunks, one after the other. *)
Lemma concat_file_chunks (video_id video_title summary transcript : string) :
  fold_right String.append "" (file_chunks video_id video_title summary transcript)
  = file_content video_id video_title summary transcript.
Proof.
  unfold file_chunks, file_content. cbn [fold_right].
  rewrite !append_assoc, append_nil_r. reflexivity.
Qed.

(** A file opened and then written chunk by chunk holds their concatenation. *)
Lemma write_after (filename chunk : string) (w : World) (sofar : string) :
  files w !! filename = Some sofar ->
  write filename chunk w
  = (Return tt, set_file filename (sofar +:+ chunk) (add_event (EvWrite filename chunk) w)).
Proof. intros H. unfold write. by rewrite H. Qed.

Lemma set_file_lookup (filename content : string) (w : World) :
  files (set_file filename content w) !! filename = Some content.
Proof. apply lookup_insert_eq. Qed.

Definition saved_msg (video_id : string) : string :=
  "Summary and transcript saved to " +:+ summary_filename video_id.

(** The world [save_to_file] leaves when the file can be opened. *)
Definition saved_world (video_id video_title summary transcript : string) (w : World) : World :=
  {| logged := logged w ++ [(INFO, saved_msg video_id)];
     files := <[summary_filename video_id :=
                  file_content video_id video_title summary transcript]> (files w);
     trace := trace w ++
              EvOpen (summary_filename video_id)
              :: List.map (EvWrite (summary_filename video_id))
                   (file_chunks video_id video_title summary transcript);
     progress := progress w |}.

Lemma save_to_file_ok (env : Env) (video_id video_title summary transcript : string) (w : World) :
  open_error env (summary_filename video_id) = None ->
  save_to_file env video_id video_title (PStr summary) transcript w
  = (Return tt, saved_world video_id video_title summary transcript w).
Proof.
  intros Hopen. unfold save_to_file, open_w, bind, write_val.
  fold (summary_filename video_id). rewrite Hopen.
  repeat (erewrite write_after by apply set_file_lookup).
  unfold logger_info, log. f_equal.
  apply world_eq; unfold saved_world, file_chunks;
    cbn [logged files trace progress List.map]; world.
  - reflexivity.
  - rewrite !insert_insert_eq. f_equal.
    unfold file_content. rewrite !append_assoc. reflexivity.
  - rewrite <- !app_assoc. reflexivity.
  - reflexivity.
Qed.

Lemma save_to_file_open_fails (env : Env) (video_id video_title : string) (summary : pyval)
    (transcript : string) (w : World) (e : exn) :
  open_error env (summary_filename video_id) = Some e ->
  save_to_file env video_id video_title summary transcript w
  = (Raise e, add_event (EvOpen (summary_filename video_id)) w).
Proof.
  intros Hopen. unfold save_to_file, open_w, bind.
  fold (summary_filename video_id). by rewrite Hopen.
Qed.

(** C2.  For every identifier, title, summary and transcript,
    [save_to_file], when the file can be opened, writes exactly one file,
    named <identifier>_summary.txt.  Its content is, in this order: the
    title line, the canonical URL line, a blank line, the "Summary:" label,
    the summary, blank lines, the "Full Transcript:" label, and the
    transcript.  Title, URL, summary and transcript are each written once
    and whole: the chunks written are exactly [file_chunks].  No other file
    changes.  (Strings stand for their UTF-8 encoding, so the content is
    the bytes on disk.) *)
Theorem save_to_file_writes_the_artifact (env : Env)
    (video_id video_title summary transcript : string) (w : World) :
  open_error env (video_id +:+ "_summary.txt") = None ->
  exists w',
    save_to_file env video_id video_title (PStr summary) transcript w = (Return tt, w')
    /\ files w' !! (video_id +:+ "_summary.txt")
       = Some ("Video Title: " +:+ video_title +:+ PyStr.nl +:+
               "Video URL: https://www.youtube.com/watch?v=" +:+ video_id +:+ PyStr.nl +:+
               PyStr.nl +:+
               "Summary:" +:+ PyStr.nl +:+
               summary +:+ PyStr.nl +:+
               PyStr.nl +:+
               "Full Transcript:" +:+ PyStr.nl +:+
               transcript)
    /\ (forall other, other <> video_id +:+ "_summary.txt" ->
          files w' !! other = files w !! other)
    /\ trace w'
       = trace w ++
         [ EvOpen (video_id +:+ "_summary.txt");
           EvWrite (video_id +:+ "_summary.txt") ("Video Title: " +:+ video_title +:+ PyStr.nl);
           EvWrite (video_id +:+ "_summary.txt")
             ("Video URL: https://www.youtube.com/watch?v=" +:+ video_id +:+ PyStr.nl +:+ PyStr.nl);
           EvWrite (video_id +:+ "_summary.txt") ("Summary:" +:+ PyStr.nl);
           EvWrite (video_id +:+ "_summary.txt") summary;
           EvWrite (video_id +:+ "_summary.txt")
             (PyStr.nl +:+ PyStr.nl +:+ "Full Transcript:" +:+ PyStr.nl);
           EvWrite (video_id +:+ "_summary.txt") transcript ].
Proof.
  intros Hopen. exists (saved_world video_id video_title summary transcript w).
  split; [by apply save_to_file_ok|].
  unfold saved_world; cbn [files trace].
  split; [apply lookup_insert_eq|].
  split; [|reflexivity].
  intros other Hne. by apply lookup_insert_ne.
Qed.

Lemma save_to_file_writes_the_artifact_witness :
  exists w',
    save_to_file sample_env "ABC123" "A talk" (PStr "A short summary.") "a b c" empty_world
      = (Return tt, w')
    /\ files w' !! "ABC123_summary.txt"
       = Some ("Video Title: A talk" +:+ PyStr.nl +:+
               "Video URL: https://www.youtube.com/watch?v=ABC123" +:+ PyStr.nl +:+
               PyStr.nl +:+
               "Summary:" +:+ PyStr.nl +:+
               "A short summary." +:+ PyStr.nl +:+
               PyStr.nl +:+
               "Full Transcript:" +:+ PyStr.nl +:+
               "a b c").
Proof.
  destruct (save_to_file_writes_the_artifact sample_env "ABC123" "A talk"
              "A short summary." "a b c" empty_world eq_refl) as (w' & Hrun & Hfile & _).
  exists w'. split; [exact Hrun | exact Hfile].
Defined.

(** ** The metadata fetcher *)

Definition watch_url (video_id : string) : string :=
  "https://www.youtube.com/watch?v=" +:+ video_id.

(** The world after [get_video_details]: the call, between two log lines. *)
Definition after_details (video_id : string) (l : level) (msg : string) (w : World) : World :=
  add_log l msg
    (add_event (EvExtractInfo (watch_url video_id))
       (add_log INFO ("Fetching details for video ID: " +:+ video_id) w)).

Lemma get_video_details_ok (env : Env) (video_id : string) (w : World)
    (info : VideoInfo) (title : string) :
  ydl_extract_info env (watch_url video_id) = Return info ->
  info_title info = Some title -> title <> "" ->
  get_video_details env video_id w
  = (Return (Some title), after_details video_id INFO ("Video title: " +:+ title) w).
Proof.
  intros H Ht Hne. unfold get_video_details, bind, call, logger_info, log.
  fold (watch_url video_id). rewrite H, Ht. simpl.
  by rewrite (truthy_nonempty _ Hne).
Qed.

Lemma get_video_details_absent (env : Env) (video_id : string) (w : World) (info : VideoInfo) :
  ydl_extract_info env (watch_url video_id) = Return info ->
  truthy_opt (info_title info) = false ->
  get_video_details env video_id w
  = (Return None, after_details video_id ERROR "Video details not found" w).
Proof.
  intros H Ht. unfold get_video_details, bind, call, logger_info, log.
  fold (watch_url video_id). rewrite H, Ht. reflexivity.
Qed.

Lemma get_video_details_raises (env : Env) (video_id : string) (w : World) (e : exn) :
  ydl_extract_info env (watch_url video_id) = Raise e ->
  get_video_details env video_id w
  = (Raise e, add_event (EvExtractInfo (watch_url video_id))
                (add_log INFO ("Fetching details for video ID: " +:+ video_id) w)).
Proof.
  intros H. unfold get_video_details, bind, call, logger_info, log.
  fold (watch_url video_id). by rewrite H.
Qed.

(** ** Runs of [main] *)

Lemma extract_video_id_some (env : Env) (url : string) (w w' : World) (id : string) :
  extract_video_id env url w = (Return (Some id), w') -> w' = w.
Proof.
  unfold extract_video_id, bind, lift, ret, logger_error, log.
  destruct (urlparse env url) as [p|e]; [|done].
  repeat case_match; intros [= <- <-] || intros [= <-] || intros [=]; done.
Qed.

Lemma extract_video_id_fst (env : Env) (url : string) (w : World) (id : string) :
  fst (extract_video_id env url w) = Return (Some id) ->
  extract_video_id env url w = (Return (Some id), w).
Proof.
  destruct (extract_video_id env url w) as [o w'] eqn:E. simpl. intros ->.
  by rewrite (extract_video_id_some _ _ _ _ _ E).
Qed.

Definition finished_msg : string := "Finished processing video".

(** How a run ends when a step gives up: the step's own log, the progress
    bar, the reason, and the closing line. *)
Definition gave_up (reason : string) (w : World) : World :=
  add_log INFO finished_msg (add_log ERROR reason (add_progress 1 w)).

Section Run.
Variables (env : Env) (url : string) (w : World) (video_id : string).
Hypothesis Hid : fst (extract_video_id env url w) = Return (Some video_id).
Hypothesis Hid_truthy : video_id <> "".

Lemma main_details_raises (e : exn) (w1 : World) :
  get_video_details env video_id w = (Raise e, w1) ->
  main env url w = (Raise e, w1).
Proof.
  intros H1. unfold main, bind.
  rewrite (extract_video_id_fst _ _ _ _ Hid). simpl.
  rewrite (truthy_nonempty _ Hid_truthy). simpl. by rewrite H1.
Qed.

Lemma main_details_failed (title : option string) (w1 : World) :
  get_video_details env video_id w = (Return title, w1) ->
  truthy_opt title = false ->
  main env url w = (Return tt, gave_up "Failed to get video details" w1).
Proof.
  intros H1 Ht. unfold main, bind.
  rewrite (extract_video_id_fst _ _ _ _ Hid). simpl.
  rewrite (truthy_nonempty _ Hid_truthy). simpl. rewrite H1. simpl.
  by rewrite Ht.
Qed.

Section Titled.
Variables (title : string) (w1 : World).
Hypothesis Hdetails : get_video_details env video_id w = (Return (Some title), w1).
Hypothesis Htitle_truthy : title <> "".

Lemma main_transcript_failed (transcript : option string) (w2 : World) :
  get_transcript env video_id (add_progress 1 w1) = (Return transcript, w2) ->
  truthy_opt transcript = false ->
  main env url w = (Return tt, gave_up "Failed to get transcript" w2).
Proof.
  intros H2 Ht. unfold main, bind.
  rewrite (extract_video_id_fst _ _ _ _ Hid). simpl.
  rewrite (truthy_nonempty _ Hid_truthy). simpl. rewrite Hdetails. simpl.
  rewrite (truthy_nonempty _ Htitle_truthy). rewrite H2. simpl.
  by rewrite Ht.
Qed.

Section Transcribed.
Variables (transcript : string) (w2 : World).
Hypothesis Htranscript :
  get_transcript env video_id (add_progress 1 w1) = (Return (Some transcript), w2).
Hypothesis Htranscript_truthy : transcript <> "".

Lemma main_summary_raises (e : exn) (w3 : World) :
  generate_summary env transcript (add_progress 1 w2) = (Raise e, w3) ->
  main env url w = (Raise e, w3).
Proof.
  intros H3. unfold main, bind.
  rewrite (extract_video_id_fst _ _ _ _ Hid). simpl.
  rewrite (truthy_nonempty _ Hid_truthy). simpl. rewrite Hdetails. simpl.
  rewrite (truthy_nonempty _ Htitle_truthy). rewrite Htranscript. simpl.
  rewrite (truthy_nonempty _ Htranscript_truthy). by rewrite H3.
Qed.

Lemma main_summary_failed (summary : pyval) (w3 : World) :
  generate_summary env transcript (add_progress 1 w2) = (Return summary, w3) ->
  truthy summary = false ->
  main env url w = (Return tt, gave_up "Failed to generate summary" w3).
Proof.
  intros H3 Hs. unfold main, bind.
  rewrite (extract_video_id_fst _ _ _ _ Hid). simpl.
  rewrite (truthy_nonempty _ Hid_truthy). simpl. rewrite Hdetails. simpl.
  rewrite (truthy_nonempty _ Htitle_truthy). rewrite Htranscript. simpl.
  rewrite (truthy_nonempty _ Htranscript_truthy). rewrite H3. simpl.
  by rewrite Hs.
Qed.

Lemma main_saved (summary : pyval) (w3 w4 : World) :
  generate_summary env transcript (add_progress 1 w2) = (Return summary, w3) ->
  truthy summary = true ->
  save_to_file env video_id title summary transcript (add_progress 1 w3) = (Return tt, w4) ->
  main env url w = (Return tt, add_log INFO finished_msg (add_progress 1 w4)).
Proof.
  intros H3 Hs H4. unfold main, bind.
  rewrite (extract_video_id_fst _ _ _ _ Hid). simpl.
  rewrite (truthy_nonempty _ Hid_truthy). simpl. rewrite Hdetails. simpl.
  rewrite (truthy_nonempty _ Htitle_truthy). rewrite Htranscript. simpl.
  rewrite (truthy_nonempty _ Htranscript_truthy). rewrite H3. simpl.
  rewrite Hs. by rewrite H4.
Qed.

End Transcribed.
End Titled.
End Run.

(** Read the trace or the files of a world named by the definitions above. *)
Ltac run_world :=
  unfold gave_up, after_details, after_post; world;
  rewrite <- ?app_assoc; try reflexivity.

(** The worlds after each step that went well. *)
Definition titled (video_id title : string) (w : World) : World :=
  add_progress 1 (after_details video_id INFO ("Video title: " +:+ title) w).

Definition transcribed (video_id title transcript : string) (w : World) : World :=
  add_progress 1
    (add_log INFO (transcript_fetched_msg transcript)
       (add_event (EvGetTranscript video_id)
          (add_log INFO (fetching_transcript_msg video_id) (titled video_id title w)))).

Section Scenarios.
Variables (env : Env) (url : string) (w : World) (video_id : string).
Hypothesis Hid : fst (extract_video_id env url w) = Return (Some video_id).
Hypothesis Hid_truthy : video_id <> "".

Lemma run_details_failed (info : VideoInfo) :
  ydl_extract_info env (watch_url video_id) = Return info ->
  truthy_opt (info_title info) = false ->
  main env url w
  = (Return tt,
     gave_up "Failed to get video details"
       (after_details video_id ERROR "Video details not found" w)).
Proof.
  intros H Ht.
  exact (main_details_failed env url w video_id Hid Hid_truthy None _
           (get_video_details_absent _ _ _ _ H Ht) eq_refl).
Qed.

Lemma run_details_raised (e : exn) :
  ydl_extract_info env (watch_url video_id) = Raise e ->
  main env url w
  = (Raise e, add_event (EvExtractInfo (watch_url video_id))
                (add_log INFO ("Fetching details for video ID: " +:+ video_id) w)).
Proof.
  intros H.
  exact (main_details_raises env url w video_id Hid Hid_truthy e _
           (get_video_details_raises _ _ _ _ H)).
Qed.

Section Titled.
Variables (info : VideoInfo) (title : string).
Hypothesis Hinfo : ydl_extract_info env (watch_url video_id) = Return info.
Hypothesis Htitle : info_title info = Some title.
Hypothesis Htitle_truthy : title <> "".

Lemma run_details :
  get_video_details env video_id w
  = (Return (Some title), after_details video_id INFO ("Video title: " +:+ title) w).
Proof. by eapply get_video_details_ok. Qed.

Lemma run_transcript_raised (e : exn) :
  YouTubeTranscriptApi_get_transcript env video_id = Raise e ->
  is_Exception e = true ->
  main env url w
  = (Return tt,
     gave_up "Failed to get transcript"
       (add_log ERROR (transcript_error_msg e)
          (add_event (EvGetTranscript video_id)
             (add_log INFO (fetching_transcript_msg video_id) (titled video_id title w))))).
Proof.
  intros H He.
  exact (main_transcript_failed env url w video_id Hid Hid_truthy _ _ run_details
           Htitle_truthy None _ (get_transcript_error _ _ _ _ H He) eq_refl).
Qed.

Lemma run_transcript_empty (fragments : list Entry) :
  YouTubeTranscriptApi_get_transcript env video_id = Return fragments ->
  PyStr.join " " (List.map entry_text fragments) = "" ->
  main env url w
  = (Return tt,
     gave_up "Failed to get transcript"
       (add_log INFO (transcript_fetched_msg "")
          (add_event (EvGetTranscript video_id)
             (add_log INFO (fetching_transcript_msg video_id) (titled video_id title w))))).
Proof.
  intros H He.
  eapply (main_transcript_failed _ _ _ _ Hid Hid_truthy _ _ run_details Htitle_truthy (Some "")).
  - unfold titled. rewrite (get_transcript_ok _ _ _ _ H), He. reflexivity.
  - reflexivity.
Qed.

Section Transcribed.
Variables (fragments : list Entry) (transcript : string).
Hypothesis Hfragments : YouTubeTranscriptApi_get_transcript env video_id = Return fragments.
Hypothesis Htranscript : PyStr.join " " (List.map entry_text fragments) = transcript.
Hypothesis Htranscript_truthy : transcript <> "".

Lemma run_transcript :
  get_transcript env video_id (add_progress 1 (after_details video_id INFO ("Video title: " +:+ title) w))
  = (Return (Some transcript),
     add_log INFO (transcript_fetched_msg transcript)
       (add_event (EvGetTranscript video_id)
          (add_log INFO (fetching_transcript_msg video_id) (titled video_id title w)))).
Proof. rewrite (get_transcript_ok _ _ _ _ Hfragments), Htranscript. reflexivity. Qed.

(** The world in which the request for the summary is made. *)
Definition summarizing : World :=
  add_log INFO "Generating summary" (transcribed video_id title transcript w).

Lemma run_api_failed (response : Response) :
  requests_post env (api_request env (prompt_of transcript)) = Return response ->
  resp_status_code response <> 200 ->
  main env url w
  = (Return tt,
     gave_up "Failed to generate summary"
       (add_log ERROR "Failed to generate summary"
          (add_log ERROR ("Error from Claude API: " +:+ resp_text response)
             (after_post env (prompt_of transcript) (resp_status_code response)
                summarizing)))).
Proof.
  intros H Hs.
  eapply (main_summary_failed _ _ _ _ Hid Hid_truthy _ _ run_details Htitle_truthy
            _ _ run_transcript Htranscript_truthy PNone); [|reflexivity].
  rewrite generate_summary_unfold.
  by rewrite (claude_api_request_failure _ _ _ _ H Hs).
Qed.

Lemma run_content_raises (response : Response) (e : exn) :
  requests_post env (api_request env (prompt_of transcript)) = Return response ->
  resp_status_code response = 200 ->
  content_text response = Raise e ->
  main env url w
  = (Raise e, after_post env (prompt_of transcript) 200 summarizing).
Proof.
  intros H Hs Hc.
  eapply (main_summary_raises _ _ _ _ Hid Hid_truthy _ _ run_details Htitle_truthy
            _ _ run_transcript Htranscript_truthy).
  rewrite generate_summary_unfold.
  by rewrite (claude_api_request_content_raises _ _ _ _ _ H Hs Hc).
Qed.

(** The world in which the file is written, after a summary came back. *)
Definition summarized (summary : pyval) (n : nat) : World :=
  add_progress 1
    (add_log INFO "Summary generated successfully"
       (add_log INFO ("Claude Opus API response received. Length: " +:+ pretty n +:+ " characters")
          (after_post env (prompt_of transcript) 200 summarizing))).

Lemma run_summary (response : Response) (summary : pyval) (n : nat) :
  requests_post env (api_request env (prompt_of transcript)) = Return response ->
  resp_status_code response = 200 ->
  content_text response = Return summary ->
  py_len summary = Return n ->
  truthy summary = true ->
  generate_summary env transcript (add_progress 1
    (add_log INFO (transcript_fetched_msg transcript)
       (add_event (EvGetTranscript video_id)
          (add_log INFO (fetching_transcript_msg video_id) (titled video_id title w)))))
  = (Return summary,
     add_log INFO "Summary generated successfully"
       (add_log INFO ("Claude Opus API response received. Length: " +:+ pretty n +:+ " characters")
          (after_post env (prompt_of transcript) 200 summarizing))).
Proof.
  intros H Hs Hc Hn Ht. rewrite generate_summary_unfold.
  rewrite (claude_api_request_success _ _ _ _ _ _ H Hs Hc Hn). by rewrite Ht.
Qed.

Lemma run_saved (response : Response) (summary : string) :
  requests_post env (api_request env (prompt_of transcript)) = Return response ->
  resp_status_code response = 200 ->
  content_text response = Return (PStr summary) ->
  summary <> "" ->
  open_error env (summary_filename video_id) = None ->
  main env url w
  = (Return tt,
     add_log INFO finished_msg
       (add_progress 1
          (saved_world video_id title summary transcript
             (summarized (PStr summary) (PyStr.len summary))))).
Proof.
  intros H Hs Hc Hne Hopen.
  assert (truthy (PStr summary) = true) as Ht by (by apply truthy_nonempty).
  exact (main_saved env url w video_id Hid Hid_truthy _ _ run_details Htitle_truthy
           _ _ run_transcript Htranscript_truthy (PStr summary) _ _
           (run_summary response (PStr summary) _ H Hs Hc eq_refl Ht) Ht
           (save_to_file_ok env video_id title summary transcript _ Hopen)).
Qed.

(** A summary that is not a string, such as a JSON array, passes the truth
    test of [main] and fails in [f.write]: by then the file is open and
    holds its first three chunks. *)
Lemma run_summary_not_str (response : Response) (summary : pyval) (n : nat) :
  requests_post env (api_request env (prompt_of transcript)) = Return response ->
  resp_status_code response = 200 ->
  content_text response = Return summary ->
  py_len summary = Return n ->
  truthy summary = true ->
  (forall s, summary <> PStr s) ->
  open_error env (summary_filename video_id) = None ->
  exists w',
    main env url w
    = (Raise (Exn TypeError ("write() argument must be str, not " +:+ type_name summary)), w')
    /\ files w' !! summary_filename video_id
       = Some ("Video Title: " +:+ title +:+ PyStr.nl +:+
               "Video URL: https://www.youtube.com/watch?v=" +:+ video_id +:+ PyStr.nl +:+
               PyStr.nl +:+
               "Summary:" +:+ PyStr.nl).
Proof.
  intros H Hs Hc Hn Ht Hnot Hopen.
  pose proof (run_summary response summary n H Hs Hc Hn Ht) as Hgen.
  eexists. split.
  - unfold main, bind.
    rewrite (extract_video_id_fst _ _ _ _ Hid). simpl.
    rewrite (truthy_nonempty _ Hid_truthy). simpl. rewrite run_details. simpl.
    rewrite (truthy_nonempty _ Htitle_truthy). rewrite run_transcript. simpl.
    rewrite (truthy_nonempty _ Htranscript_truthy). rewrite Hgen. simpl.
    rewrite Ht. unfold save_to_file, open_w, bind, write_val.
    fold (summary_filename video_id). rewrite Hopen.
    repeat (erewrite write_after by apply set_file_lookup).
    destruct summary; try reflexivity. by destruct (Hnot s).
  - world. rewrite lookup_insert_eq. f_equal.
    rewrite !append_assoc. reflexivity.
Qed.

End Transcribed.
End Titled.
End Scenarios.

(** ** Short-circuiting (C3, C4, C5) *)

(** C3.  In a run that reached the metadata fetch, if the fetch gives an
    empty or absent title (or raises), the run ends having made that one
    call only: no transcript fetch, no request to the generation API, no
    file written.
    The same holds further down: a failed transcript fetch (an exception or
    an empty transcript) is followed by no request and no file, and a
    refused summarization request is followed by no file. *)
Theorem first_failing_step_stops_the_run (env : Env) (url : string) (w : World)
    (video_id : string) :
  fst (extract_video_id env url w) = Return (Some video_id) ->
  video_id <> "" ->
  (forall info,
     ydl_extract_info env (watch_url video_id) = Return info ->
     truthy_opt (info_title info) = false ->
     exists w',
       main env url w = (Return tt, w')
       /\ trace w' = trace w ++ [EvExtractInfo (watch_url video_id)]
       /\ files w' = files w)
  /\ (forall e,
        ydl_extract_info env (watch_url video_id) = Raise e ->
        exists w',
          main env url w = (Raise e, w')
          /\ trace w' = trace w ++ [EvExtractInfo (watch_url video_id)]
          /\ files w' = files w)
  /\ (forall info title,
        ydl_extract_info env (watch_url video_id) = Return info ->
        info_title info = Some title -> title <> "" ->
        (exists e, YouTubeTranscriptApi_get_transcript env video_id = Raise e
                   /\ is_Exception e = true)
        \/ (exists fragments,
              YouTubeTranscriptApi_get_transcript env video_id = Return fragments
              /\ PyStr.join " " (List.map entry_text fragments) = "") ->
        exists w',
          main env url w = (Return tt, w')
          /\ trace w' = trace w ++ [EvExtractInfo (watch_url video_id);
                                    EvGetTranscript video_id]
          /\ files w' = files w)
  /\ (forall info title fragments response,
        ydl_extract_info env (watch_url video_id) = Return info ->
        info_title info = Some title -> title <> "" ->
        YouTubeTranscriptApi_get_transcript env video_id = Return fragments ->
        PyStr.join " " (List.map entry_text fragments) <> "" ->
        requests_post env
          (api_request env (prompt_of (PyStr.join " " (List.map entry_text fragments))))
        = Return response ->
        resp_status_code response <> 200 ->
        exists w',
          main env url w = (Return tt, w')
          /\ trace w' = trace w ++
               [EvExtractInfo (watch_url video_id);
                EvGetTranscript video_id;
                EvPost (api_request env
                          (prompt_of (PyStr.join " " (List.map entry_text fragments))))]
          /\ files w' = files w).
Proof.
  intros Hid Hne. split; [|split; [|split]].
  - intros info Hi Ht. eexists. split; [by eapply run_details_failed|].
    split; run_world.
  - intros e He. eexists. split; [by eapply run_details_raised|].
    split; run_world.
  - intros info title Hi Ht Htne [(e & He & Hexc) | (fragments & Hf & Hempty)].
    + eexists. split; [by eapply run_transcript_raised|].
      unfold titled. split; run_world.
    + eexists. split; [by eapply run_transcript_empty|].
      unfold titled. split; run_world.
  - intros info title fragments response Hi Ht Htne Hf Hfne Hp Hs.
    eexists. split; [by eapply run_api_failed|].
    unfold summarizing, transcribed, titled. split; run_world.
Qed.

(** Variants of an environment. *)
Definition with_extract_info (env : Env) (r : string -> outcome VideoInfo) : Env :=
  {| CLAUDE_API_KEY := CLAUDE_API_KEY env;
     CLAUDE_API_URL := CLAUDE_API_URL env;
     unicodedata_normalize_NFKC := unicodedata_normalize_NFKC env;
     ipaddress_ip_address := ipaddress_ip_address env;
     ydl_extract_info := r;
     YouTubeTranscriptApi_get_transcript := YouTubeTranscriptApi_get_transcript env;
     requests_post := requests_post env;
     open_error := open_error env |}.

Definition with_post (env : Env) (r : Request -> outcome Response) : Env :=
  {| CLAUDE_API_KEY := CLAUDE_API_KEY env;
     CLAUDE_API_URL := CLAUDE_API_URL env;
     unicodedata_normalize_NFKC := unicodedata_normalize_NFKC env;
     ipaddress_ip_address := ipaddress_ip_address env;
     ydl_extract_info := ydl_extract_info env;
     YouTubeTranscriptApi_get_transcript := YouTubeTranscriptApi_get_transcript env;
     requests_post := r;
     open_error := open_error env |}.

Definition untitled_env : Env :=
  with_extract_info sample_env (fun _ => Return {| info_title := Some "" |}).

Lemma first_failing_step_stops_the_run_witness :
  exists w',
    main untitled_env "https://youtu.be/ABC123" empty_world = (Return tt, w')
    /\ trace w' = [EvExtractInfo "https://www.youtube.com/watch?v=ABC123"]
    /\ files w' = ∅.
Proof.
  assert (fst (extract_video_id untitled_env "https://youtu.be/ABC123" empty_world)
          = Return (Some "ABC123")) as Hid by (vm_compute; reflexivity).
  assert ("ABC123" <> "") as Hne by discriminate.
  exact (proj1 (first_failing_step_stops_the_run untitled_env "https://youtu.be/ABC123"
                  empty_world "ABC123" Hid Hne)
           {| info_title := Some "" |} eq_refl eq_refl).
Defined.

(** C4.  When the generation API answers with a status other than 200,
    [claude_api_request] returns [None] and logs the response body as it
    came; [generate_summary] returns [None] too; and a run of [main] that
    got this far ends with that line in its log and with no file opened or
    written. *)
Theorem api_failure_is_logged_and_writes_nothing (env : Env) (content : string)
    (response : Response) (w : World) :
  requests_post env (api_request env (prompt_of content)) = Return response ->
  resp_status_code response <> 200 ->
  claude_api_request env (prompt_of content) w
    = (Return PNone,
       add_log ERROR ("Error from Claude API: " +:+ resp_text response)
         (after_post env (prompt_of content) (resp_status_code response) w))
  /\ fst (generate_summary env content w) = Return PNone
  /\ (forall url video_id info title fragments,
        fst (extract_video_id env url w) = Return (Some video_id) ->
        video_id <> "" ->
        ydl_extract_info env (watch_url video_id) = Return info ->
        info_title info = Some title -> title <> "" ->
        YouTubeTranscriptApi_get_transcript env video_id = Return fragments ->
        PyStr.join " " (List.map entry_text fragments) = content ->
        content <> "" ->
        exists w',
          main env url w = (Return tt, w')
          /\ In (ERROR, "Error from Claude API: " +:+ resp_text response) (logged w')
          /\ files w' = files w
          /\ trace w' = trace w ++
               [EvExtractInfo (watch_url video_id);
                EvGetTranscript video_id;
                EvPost (api_request env (prompt_of content))]).
Proof.
  intros Hp Hs. split; [by apply claude_api_request_failure|]. split.
  - rewrite generate_summary_unfold.
    by rewrite (claude_api_request_failure _ _ _ _ Hp Hs).
  - intros url video_id info title fragments Hid Hne Hi Ht Htne Hf Hj Hcne.
    eexists. split; [by eapply run_api_failed|].
    unfold summarizing, transcribed, titled.
    split; [|split; run_world].
    unfold gave_up. world. rewrite !in_app_iff. simpl. tauto.
Qed.

Definition overloaded : Response :=
  {| resp_status_code := 529;
     resp_text := "overloaded_error: Overloaded";
     resp_json := Return (PDict [("type", PStr "error")]) |}.

Definition overloaded_env : Env := with_post sample_env (fun _ => Return overloaded).

Lemma api_failure_is_logged_and_writes_nothing_witness :
  claude_api_request overloaded_env (prompt_of "a b c") empty_world
    = (Return PNone,
       add_log ERROR "Error from Claude API: overloaded_error: Overloaded"
         (after_post overloaded_env (prompt_of "a b c") 529 empty_world))
  /\ exists w',
       main overloaded_env "https://youtu.be/ABC123" empty_world = (Return tt, w')
       /\ In (ERROR, "Error from Claude API: overloaded_error: Overloaded") (logged w')
       /\ files w' = ∅.
Proof.
  assert (resp_status_code overloaded <> 200) as Hs by discriminate.
  pose proof (api_failure_is_logged_and_writes_nothing overloaded_env "a b c"
                overloaded empty_world eq_refl Hs) as (Hreq & _ & Hrun).
  split; [exact Hreq|].
  assert (fst (extract_video_id overloaded_env "https://youtu.be/ABC123" empty_world)
          = Return (Some "ABC123")) as Hid by (vm_compute; reflexivity).
  assert ("ABC123" <> "") as Hne by discriminate.
  assert ("A talk" <> "") as Htne by discriminate.
  assert ("a b c" <> "") as Hcne by discriminate.
  destruct (Hrun "https://youtu.be/ABC123" "ABC123" {| info_title := Some "A talk" |}
              "A talk" sample_transcript Hid Hne eq_refl eq_refl Htne eq_refl eq_refl Hcne)
    as (w' & Hmain & Hlog & Hfiles & _).
  exists w'. split; [exact Hmain|]. split; [exact Hlog | exact Hfiles].
Defined.

(** C5 (as amended).  When the response has status 200 but its JSON object
    has no content key, or the first element of its content array is an
    object with no text key, [claude_api_request] raises [KeyError]: it
    returns nothing, neither generated text nor [None].  The exception
    passes through [generate_summary] and [main], and no file is opened or
    written. *)
Theorem missing_content_raises_KeyError (env : Env) (content : string)
    (response : Response) (payload : list (string * pyval)) (key : string) (w : World) :
  requests_post env (api_request env (prompt_of content)) = Return response ->
  resp_status_code response = 200 ->
  resp_json response = Return (PDict payload) ->
  (key = "content" /\ assoc "content" payload = None)
  \/ (key = "text"
      /\ exists block rest,
           assoc "content" payload = Some (PList (PDict block :: rest))
           /\ assoc "text" block = None) ->
  claude_api_request env (prompt_of content) w
    = (Raise (Exn KeyError ("'" +:+ key +:+ "'")), after_post env (prompt_of content) 200 w)
  /\ fst (generate_summary env content w) = Raise (Exn KeyError ("'" +:+ key +:+ "'"))
  /\ (forall url video_id info title fragments,
        fst (extract_video_id env url w) = Return (Some video_id) ->
        video_id <> "" ->
        ydl_extract_info env (watch_url video_id) = Return info ->
        info_title info = Some title -> title <> "" ->
        YouTubeTranscriptApi_get_transcript env video_id = Return fragments ->
        PyStr.join " " (List.map entry_text fragments) = content ->
        content <> "" ->
        exists w',
          main env url w = (Raise (Exn KeyError ("'" +:+ key +:+ "'")), w')
          /\ files w' = files w
          /\ trace w' = trace w ++
               [EvExtractInfo (watch_url video_id);
                EvGetTranscript video_id;
                EvPost (api_request env (prompt_of content))]).
Proof.
  intros Hp Hs Hj Hmissing.
  assert (content_text response = Raise (Exn KeyError ("'" +:+ key +:+ "'"))) as Hc.
  { unfold content_text. rewrite Hj. simpl.
    destruct Hmissing as [[-> Hnone] | (-> & block & rest & Hsome & Hnone)].
    - by rewrite Hnone.
    - rewrite Hsome. simpl. by rewrite Hnone. }
  split; [exact (claude_api_request_content_raises _ _ _ _ _ Hp Hs Hc)|]. split.
  - rewrite generate_summary_unfold.
    by rewrite (claude_api_request_content_raises _ _ _ _ _ Hp Hs Hc).
  - intros url video_id info title fragments Hid Hne Hi Ht Htne Hf Hjoin Hcne.
    eexists. split; [by eapply run_content_raises|].
    unfold summarizing, transcribed, titled. split; run_world.
Qed.

Definition no_content : Response :=
  {| resp_status_code := 200;
     resp_text := "{...}";
     resp_json := Return (PDict [("type", PStr "message"); ("role", PStr "assistant")]) |}.

Definition no_content_env : Env := with_post sample_env (fun _ => Return no_content).

Lemma missing_content_raises_KeyError_witness :
  claude_api_request no_content_env (prompt_of "a b c") empty_world
    = (Raise (Exn KeyError "'content'"),
       after_post no_content_env (prompt_of "a b c") 200 empty_world)
  /\ exists w',
       main no_content_env "https://youtu.be/ABC123" empty_world
         = (Raise (Exn KeyError "'content'"), w')
       /\ files w' = ∅.
Proof.
  assert (("content" = "content"
           /\ assoc "content" [("type", PStr "message"); ("role", PStr "assistant")] = None)
          \/ ("content" = "text"
              /\ exists block rest,
                   assoc "content" [("type", PStr "message"); ("role", PStr "assistant")]
                     = Some (PList (PDict block :: rest))
                   /\ assoc "text" block = None)) as Hmissing
    by (left; split; reflexivity).
  pose proof (missing_content_raises_KeyError no_content_env "a b c" no_content
                [("type", PStr "message"); ("role", PStr "assistant")] "content"
                empty_world eq_refl eq_refl eq_refl Hmissing) as (Hreq & _ & Hrun).
  split; [exact Hreq|].
  assert (fst (extract_video_id no_content_env "https://youtu.be/ABC123" empty_world)
          = Return (Some "ABC123")) as Hid by (vm_compute; reflexivity).
  assert ("ABC123" <> "") as Hne by discriminate.
  assert ("A talk" <> "") as Htne by discriminate.
  assert ("a b c" <> "") as Hcne by discriminate.
  destruct (Hrun "https://youtu.be/ABC123" "ABC123" {| info_title := Some "A talk" |}
              "A talk" sample_transcript Hid Hne eq_refl eq_refl Htne eq_refl eq_refl Hcne)
    as (w' & Hmain & Hfiles & _).
  exists w'. split; [exact Hmain | exact Hfiles].
Defined.

(** C5 as stated fails: a response with status 200 whose payload has no
    content key makes [claude_api_request] raise [KeyError]; it does not
    return [None]. *)
Lemma missing_content_does_not_return_None :
  resp_status_code no_content = 200
  /\ getitem_key (PDict [("type", PStr "message"); ("role", PStr "assistant")]) "content"
     = Raise (Exn KeyError "'content'")
  /\ fst (claude_api_request no_content_env (prompt_of "a b c") empty_world)
     = Raise (Exn KeyError "'content'")
  /\ fst (claude_api_request no_content_env (prompt_of "a b c") empty_world)
     <> Return PNone.
Proof.
  split; [reflexivity|]. split; [reflexivity|]. split; [reflexivity|].
  change (fst (claude_api_request no_content_env (prompt_of "a b c") empty_world))
    with (@Raise pyval (Exn KeyError "'content'")).
  discriminate.
Qed.

(** ** Whole runs *)

(** X1.  When every step succeeds (a non-empty identifier, title,
    transcript and summary, status 200, and a file that can be opened),
    [main] returns having made the three calls in order and written the
    one file <identifier>_summary.txt, whose content is the title line,
    the URL line, the summary and the transcript; the progress bar has
    advanced by four. *)
Theorem successful_run_writes_the_artifact (env : Env) (url : string) (w : World)
    (video_id title summary : string) (info : VideoInfo) (fragments : list Entry)
    (response : Response) :
  fst (extract_video_id env url w) = Return (Some video_id) ->
  video_id <> "" ->
  ydl_extract_info env (watch_url video_id) = Return info ->
  info_title info = Some title -> title <> "" ->
  YouTubeTranscriptApi_get_transcript env video_id = Return fragments ->
  PyStr.join " " (List.map entry_text fragments) <> "" ->
  requests_post env
    (api_request env (prompt_of (PyStr.join " " (List.map entry_text fragments))))
  = Return response ->
  resp_status_code response = 200 ->
  content_text response = Return (PStr summary) ->
  summary <> "" ->
  open_error env (summary_filename video_id) = None ->
  exists w',
    main env url w = (Return tt, w')
    /\ files w'
       = <[summary_filename video_id :=
             file_content video_id title summary
               (PyStr.join " " (List.map entry_text fragments))]> (files w)
    /\ trace w'
       = trace w ++
         [EvExtractInfo (watch_url video_id);
          EvGetTranscript video_id;
          EvPost (api_request env
                    (prompt_of (PyStr.join " " (List.map entry_text fragments))));
          EvOpen (summary_filename video_id)]
         ++ List.map (EvWrite (summary_filename video_id))
              (file_chunks video_id title summary
                 (PyStr.join " " (List.map entry_text fragments)))
    /\ progress w' = (progress w + 4)%nat.
Proof.
  intros Hid Hne Hi Ht Htne Hf Hfne Hp Hs Hc Hsne Hopen.
  eexists. split; [by eapply run_saved|].
  unfold saved_world, summarized, summarizing, transcribed, titled.
  split; [|split].
  - world. cbn [files]. run_world.
  - world. cbn [trace]. run_world.
  - world. cbn [progress]. run_world. lia.
Qed.

Lemma successful_run_writes_the_artifact_witness :
  exists w',
    main sample_env "https://youtu.be/ABC123" empty_world = (Return tt, w')
    /\ files w'
       = {[ "ABC123_summary.txt" :=
              "Video Title: A talk" +:+ PyStr.nl +:+
              "Video URL: https://www.youtube.com/watch?v=ABC123" +:+ PyStr.nl +:+
              PyStr.nl +:+
              "Summary:" +:+ PyStr.nl +:+
              "A short summary." +:+ PyStr.nl +:+
              PyStr.nl +:+
              "Full Transcript:" +:+ PyStr.nl +:+
              "a b c" ]}.
Proof.
  assert (fst (extract_video_id sample_env "https://youtu.be/ABC123" empty_world)
          = Return (Some "ABC123")) as Hid by (vm_compute; reflexivity).
  assert ("ABC123" <> "") as Hne by discriminate.
  assert ("A talk" <> "") as Htne by discriminate.
  assert (PyStr.join " " (List.map entry_text sample_transcript) <> "") as Hfne
    by discriminate.
  assert ("A short summary." <> "") as Hsne by discriminate.
  destruct (successful_run_writes_the_artifact sample_env "https://youtu.be/ABC123"
              empty_world "ABC123" "A talk" "A short summary."
              {| info_title := Some "A talk" |} sample_transcript
              {| resp_status_code := 200; resp_text := "{...}";
                 resp_json := Return sample_payload |}
              Hid Hne eq_refl eq_refl Htne eq_refl Hfne eq_refl eq_refl eq_refl Hsne eq_refl)
    as (w' & Hmain & Hfiles & _).
  exists w'. split; [exact Hmain | exact Hfiles].
Defined.

(** X2.  An exception of [urlparse] is not caught: [extract_video_id] and
    [main] raise it, having logged nothing and made no call. *)
Theorem parse_errors_propagate (env : Env) (url : string) (w : World) (e : exn) :
  urlparse env url = Raise e ->
  extract_video_id env url w = (Raise e, w) /\ main env url w = (Raise e, w).
Proof.
  intros H.
  assert (extract_video_id env url w = (Raise e, w)) as Hx
    by (unfold extract_video_id, bind, lift; by rewrite H).
  split; [done|]. unfold main, bind. by rewrite Hx.
Qed.

Lemma parse_errors_propagate_witness :
  main sample_env "http://[youtu.be/ABC123" empty_world
  = (Raise (Exn ValueError "Invalid IPv6 URL"), empty_world).
Proof.
  apply (parse_errors_propagate sample_env "http://[youtu.be/ABC123" empty_world
           (Exn ValueError "Invalid IPv6 URL")).
  vm_compute; reflexivity.
Defined.

(** X3.  When the response has status 200 and the text field is a
    non-empty value that is not a string (an array, an object), [main]
    opens the output file, writes the title line, the URL line and the
    "Summary:" label, and then raises [TypeError] in [f.write(summary)]:
    the run fails and leaves a partial file. *)
Theorem non_string_summary_leaves_partial_file (env : Env) (url : string) (w : World)
    (video_id title : string) (info : VideoInfo) (fragments : list Entry)
    (response : Response) (summary : pyval) (n : nat) :
  fst (extract_video_id env url w) = Return (Some video_id) ->
  video_id <> "" ->
  ydl_extract_info env (watch_url video_id) = Return info ->
  info_title info = Some title -> title <> "" ->
  YouTubeTranscriptApi_get_transcript env video_id = Return fragments ->
  PyStr.join " " (List.map entry_text fragments) <> "" ->
  requests_post env
    (api_request env (prompt_of (PyStr.join " " (List.map entry_text fragments))))
  = Return response ->
  resp_status_code response = 200 ->
  content_text response = Return summary ->
  py_len summary = Return n ->
  truthy summary = true ->
  (forall s, summary <> PStr s) ->
  open_error env (summary_filename video_id) = None ->
  exists w',
    main env url w
    = (Raise (Exn TypeError ("write() argument must be str, not " +:+ type_name summary)), w')
    /\ files w' !! summary_filename video_id
       = Some ("Video Title: " +:+ title +:+ PyStr.nl +:+
               "Video URL: https://www.youtube.com/watch?v=" +:+ video_id +:+ PyStr.nl +:+
               PyStr.nl +:+
               "Summary:" +:+ PyStr.nl).
Proof.
  intros Hid Hne Hi Ht Htne Hf Hfne Hp Hs Hc Hn Htr Hnot Hopen.
  by eapply run_summary_not_str.
Qed.

Definition array_text : Response :=
  {| resp_status_code := 200;
     resp_text := "{...}";
     resp_json :=
       Return (PDict [("content", PList [PDict [("text", PList [PStr "A"; PStr "B"])]])]) |}.

Lemma non_string_summary_leaves_partial_file_witness :
  exists w',
    main (with_post sample_env (fun _ => Return array_text))
      "https://youtu.be/ABC123" empty_world
    = (Raise (Exn TypeError "write() argument must be str, not list"), w')
    /\ files w' !! "ABC123_summary.txt"
       = Some ("Video Title: A talk" +:+ PyStr.nl +:+
               "Video URL: https://www.youtube.com/watch?v=ABC123" +:+ PyStr.nl +:+
               PyStr.nl +:+
               "Summary:" +:+ PyStr.nl).
Proof.
  assert (fst (extract_video_id (with_post sample_env (fun _ => Return array_text))
                 "https://youtu.be/ABC123" empty_world)
          = Return (Some "ABC123")) as Hid by (vm_compute; reflexivity).
  assert ("ABC123" <> "") as Hne by discriminate.
  assert ("A talk" <> "") as Htne by discriminate.
  assert (PyStr.join " " (List.map entry_text sample_transcript) <> "") as Hfne
    by discriminate.
  assert (forall s, PList [PStr "A"; PStr "B"] <> PStr s) as Hnot by discriminate.
  exact (non_string_summary_leaves_partial_file
           (with_post sample_env (fun _ => Return array_text))
           "https://youtu.be/ABC123" empty_world "ABC123" "A talk"
           {| info_title := Some "A talk" |} sample_transcript array_text
           (PList [PStr "A"; PStr "B"]) 2%nat
           Hid Hne eq_refl eq_refl Htne eq_refl Hfne eq_refl eq_refl eq_refl eq_refl
           eq_refl Hnot eq_refl).
Defined.

(** * Further properties of the script *)

(** ** [extract_video_id]: effects and index safety *)

(** X4.  [extract_video_id] makes no call, writes no file and leaves the
    progress bar alone; it logs nothing, or the one line that no identifier
    was found, and it logs nothing when it returns an identifier or raises. *)
Theorem extract_video_id_only_logs (env : Env) (url : string) (w : World) :
  trace (snd (extract_video_id env url w)) = trace w
  /\ files (snd (extract_video_id env url w)) = files w
  /\ progress (snd (extract_video_id env url w)) = progress w
  /\ (logged (snd (extract_video_id env url w)) = logged w
      \/ logged (snd (extract_video_id env url w)) = logged w ++ [(ERROR, not_found_msg)])
  /\ match fst (extract_video_id env url w) with
     | Return None => True
     | _ => snd (extract_video_id env url w) = w
     end.
Proof.
  destruct (extract_video_id env url w) as [o w'] eqn:E. simpl.
  pose proof (extract_video_id_world _ _ _ _ _ E) as Hw.
  split; [|split; [|split; [|split]]].
  - by destruct Hw as [-> | ->].
  - by destruct Hw as [-> | ->].
  - by destruct Hw as [-> | ->].
  - destruct Hw as [-> | ->]; [by left | by right].
  - destruct o as [[id|]|e]; [|done|].
    + by apply (extract_video_id_some _ _ _ _ _ E).
    + revert E. unfold extract_video_id, bind, lift, ret, logger_error, log.
      destruct (urlparse env url) as [p|e']; [|by intros [= _ <-]].
      repeat case_match; intros [= _ <-] || intros [=]; done.
Qed.

(** Every value of the dict [parse_qs] builds is a list that is not empty. *)
Lemma parse_qs_fold_nonempty (pairs : list (string * string)) (m : gmap string (list string)) :
  (forall k vs, m !! k = Some vs -> vs <> []) ->
  forall k vs,
    foldl (fun parsed_result '(name, value) =>
             match parsed_result !! name with
             | Some values => <[name := values ++ [value]]> parsed_result
             | None => <[name := [value]]> parsed_result
             end) m pairs !! k = Some vs ->
    vs <> [].
Proof.
  revert m. induction pairs as [|[n v] pairs IH]; intros m Hm k vs; simpl; [by apply Hm|].
  apply IH. intros k' vs'.
  destruct (m !! n) as [old|] eqn:En.
  - destruct (decide (n = k')) as [->|Hne].
    + rewrite lookup_insert_eq. intros [= <-]. by destruct old.
    + rewrite lookup_insert_ne by done. apply Hm.
  - destruct (decide (n = k')) as [->|Hne].
    + rewrite lookup_insert_eq. by intros [= <-].
    + rewrite lookup_insert_ne by done. apply Hm.
Qed.

Lemma parse_qs_nonempty (qs k : string) (vs : list string) :
  parse_qs qs !! k = Some vs -> vs <> [].
Proof.
  unfold parse_qs. apply parse_qs_fold_nonempty. intros k' vs'.
  by rewrite lookup_empty.
Qed.

Lemma split_cons (c : ascii) (s : string) : exists h t, PyStr.split c s = h :: t.
Proof.
  induction s as [|a s (h & t & IH)]; simpl; [by eexists _, _|].
  destruct (Ascii.eqb a c); [by eexists _, _|]. rewrite IH. by eexists _, _.
Qed.

(** A path under /embed/ or /v/ has a third piece between slashes. *)
Lemma split_third (p : string) :
  PyStr.startswith "/embed/" p || PyStr.startswith "/v/" p = true ->
  exists segment, PyStr.split "/" p !! 2%nat = Some segment.
Proof.
  intros [H|H]%orb_prop.
  - do 7 (destruct p as [|? p]; cbn [PyStr.startswith] in H; [discriminate|];
          apply andb_prop in H as [?%Ascii.eqb_eq H]; subst).
    destruct (split_cons "/" p) as (h & t & E). simpl. rewrite E. by eexists.
  - do 3 (destruct p as [|? p]; cbn [PyStr.startswith] in H; [discriminate|];
          apply andb_prop in H as [?%Ascii.eqb_eq H]; subst).
    destruct (split_cons "/" p) as (h & t & E). simpl. rewrite E. by eexists.
Qed.

(** X5.  The two subscripts of [extract_video_id], [...get('v', [None])[0]]
    and [path.split('/')[2]], are always in range: whenever [urlparse]
    accepts the URL, [extract_video_id] returns, an identifier or [None];
    the only exceptions it raises are those of [urlparse]. *)
Theorem extract_video_id_raises_only_parse_errors (env : Env) (url : string) (w : World) :
  (forall p, urlparse env url = Return p ->
     exists r, fst (extract_video_id env url w) = Return r)
  /\ (forall e, fst (extract_video_id env url w) = Raise e ->
        urlparse env url = Raise e).
Proof.
  assert (forall p, urlparse env url = Return p ->
            exists r, fst (extract_video_id env url w) = Return r) as Hret.
  { intros p Hp. unfold extract_video_id, bind, lift, ret, logger_error, log. rewrite Hp.
    destruct (bool_decide (hostname p = Some "youtu.be")); [by eexists|].
    destruct (bool_decide _ || bool_decide _); [|by eexists].
    destruct (String.eqb (path p) "/watch").
    - destruct (parse_qs (query p) !! "v") as [[|v vs]|] eqn:Ev; [|by eexists..].
      by destruct (parse_qs_nonempty _ _ _ Ev).
    - destruct (PyStr.startswith "/embed/" (path p) || PyStr.startswith "/v/" (path p)) eqn:Es;
        [|by eexists].
      destruct (split_third _ Es) as (segment & ->). by eexists. }
  split; [exact Hret|].
  intros e He. destruct (urlparse env url) as [p|e'] eqn:Hp.
  - destruct (Hret p eq_refl) as (r & Hr). congruence.
  - unfold extract_video_id, bind, lift in He. rewrite Hp in He. simpl in He. congruence.
Qed.

Lemma extract_video_id_raises_only_parse_errors_witness :
  (exists r, fst (extract_video_id sample_env "https://www.youtube.com/embed" empty_world)
             = Return r)
  /\ urlparse sample_env "http://[youtu.be/ABC123" = Raise (Exn ValueError "Invalid IPv6 URL").
Proof.
  split.
  - eapply (proj1 (extract_video_id_raises_only_parse_errors sample_env _ empty_world)).
    vm_compute; reflexivity.
  - apply (proj2 (extract_video_id_raises_only_parse_errors sample_env _ empty_world)).
    vm_compute; reflexivity.
Defined.

(** ** URLs in general: host, path and query of any text *)

Lemma append_cons (a : ascii) (s t : string) : String a s +:+ t = String a (s +:+ t).
Proof. reflexivity. Qed.

(** String operations over [s +:+ t], when the characters of [s] all
    satisfy [p] and so are none of the characters looked for. *)
Section Prefix.
Variables (p : ascii -> bool) (s t : string).
Hypothesis Hs : PyStr.forallb p s = true.

Lemma filter_app (f : ascii -> bool) :
  (forall a, p a = true -> f a = true) ->
  PyStr.filter f (s +:+ t) = s +:+ PyStr.filter f t.
Proof.
  intros Hf. induction s as [|a s' IH]; [done|].
  simpl in Hs. apply andb_prop in Hs as [Ha Hs'].
  rewrite !append_cons. simpl. by rewrite (Hf a Ha), (IH Hs').
Qed.

Lemma contains_app (c : ascii) :
  (forall a, p a = true -> Ascii.eqb a c = false) ->
  PyStr.contains c (s +:+ t) = PyStr.contains c t.
Proof.
  intros Hc. induction s as [|a s' IH]; [done|].
  simpl in Hs. apply andb_prop in Hs as [Ha Hs'].
  rewrite append_cons. simpl. by rewrite (Hc a Ha), (IH Hs').
Qed.

Lemma partition_app (c : ascii) :
  (forall a, p a = true -> Ascii.eqb a c = false) ->
  PyStr.partition c (s +:+ t)
  = (s +:+ (PyStr.partition c t).1.1, (PyStr.partition c t).1.2, (PyStr.partition c t).2).
Proof.
  intros Hc. induction s as [|a s' IH].
  - change ("" +:+ t) with t. destruct (PyStr.partition c t) as [[??]?]. reflexivity.
  - simpl in Hs. apply andb_prop in Hs as [Ha Hs'].
    rewrite append_cons. simpl. by rewrite (Hc a Ha), (IH Hs').
Qed.

Lemma split_app (c : ascii) :
  (forall a, p a = true -> Ascii.eqb a c = false) ->
  PyStr.split c (s +:+ t)
  = match PyStr.split c t with
    | h :: rest => (s +:+ h) :: rest
    | [] => [s]
    end.
Proof.
  intros Hc. induction s as [|a s' IH].
  - change ("" +:+ t) with t. destruct (split_cons c t) as (h & rest & ->). reflexivity.
  - simpl in Hs. apply andb_prop in Hs as [Ha Hs'].
    rewrite append_cons. simpl. rewrite (Hc a Ha), (IH Hs').
    by destruct (PyStr.split c t).
Qed.

Lemma splitnetloc_app :
  (forall a, p a = true ->
     Ascii.eqb a "/" || Ascii.eqb a "?" || Ascii.eqb a "#" = false) ->
  _splitnetloc (s +:+ t) = (s +:+ (_splitnetloc t).1, (_splitnetloc t).2).
Proof.
  intros Hc. induction s as [|a s' IH].
  - change ("" +:+ t) with t. destruct (_splitnetloc t). reflexivity.
  - simpl in Hs. apply andb_prop in Hs as [Ha Hs'].
    rewrite append_cons. simpl. by rewrite (Hc a Ha), (IH Hs').
Qed.

Lemma forallb_app (q : ascii -> bool) :
  (forall a, p a = true -> q a = true) ->
  PyStr.forallb q (s +:+ t) = PyStr.forallb q t.
Proof.
  intros Hq. induction s as [|a s' IH]; [done|].
  simpl in Hs. apply andb_prop in Hs as [Ha Hs'].
  rewrite append_cons. simpl. by rewrite (Hq a Ha), (IH Hs').
Qed.

Lemma map_app (f : ascii -> ascii) :
  PyStr.map f (s +:+ t) = PyStr.map f s +:+ PyStr.map f t.
Proof.
  clear Hs. induction s as [|a s' IH]; [done|].
  rewrite append_cons. simpl. by rewrite IH.
Qed.

End Prefix.

(** The characters of host names, of paths and of query strings. *)
Definition host_char (c : ascii) : bool :=
  PyStr.is_alnum c || Ascii.eqb c "." || Ascii.eqb c "-".

(** A network location: a host name and, after a colon, a port. *)
Definition netloc_char (c : ascii) : bool := host_char c || Ascii.eqb c ":".

Definition path_char (c : ascii) : bool := ident_char c || Ascii.eqb c "/".

Definition query_char (c : ascii) : bool :=
  ident_char c || Ascii.eqb c "&" || Ascii.eqb c "=".

(** Settle a fact about every character of a class by trying them all. *)
Ltac by_ascii :=
  let a := fresh "a" in
  intros a; destruct a as [[] [] [] [] [] [] [] []]; vm_compute; congruence.

(** An http or https URL: scheme, network location, path, and a query
    string if there is one. *)
Definition http_url (sch loc pth : string) (qry : option string) : string :=
  sch +:+ "://" +:+ loc +:+ pth +:+
  match qry with Some q => String "?" q | None => "" end.

Section HttpUrl.
Variables (env : Env) (loc pth : string) (qry : option string).
Hypothesis Hloc : PyStr.forallb netloc_char loc = true.
Hypothesis Hpth : PyStr.forallb path_char pth = true.
Hypothesis Hslash : pth = "" \/ exists pth', pth = String "/" pth'.
Hypothesis Hqry : forall q, qry = Some q -> PyStr.forallb query_char q = true.

(** The text after the path, and the text after the scheme. *)
Definition query_part : string :=
  match qry with Some q => String "?" q | None => "" end.

Definition after_netloc : string := pth +:+ query_part.

Lemma query_part_filter (c : ascii) :
  (forall a, query_char a = true -> Ascii.eqb a c = false) ->
  Ascii.eqb "?" c = false ->
  PyStr.filter (fun a => negb (Ascii.eqb a c)) query_part = query_part.
Proof.
  intros Hc Hq. unfold query_part. destruct qry as [q|]; [|done].
  cbn [PyStr.filter]. rewrite Hq. cbn [negb]. f_equal.
  apply (forallb_filter_id query_char); [|by apply Hqry].
  intros a Ha. by rewrite Hc.
Qed.

Lemma query_part_contains (c : ascii) :
  (forall a, query_char a = true -> Ascii.eqb a c = false) ->
  Ascii.eqb "?" c = false ->
  PyStr.contains c query_part = false.
Proof.
  intros Hc Hq. unfold query_part. destruct qry as [q|]; [|done].
  cbn [PyStr.contains]. rewrite Hq. cbn [orb].
  apply (forallb_contains query_char); [done|by apply Hqry].
Qed.

Lemma url_filter (c : ascii) :
  (forall a, netloc_char a = true -> Ascii.eqb a c = false) ->
  (forall a, path_char a = true -> Ascii.eqb a c = false) ->
  (forall a, query_char a = true -> Ascii.eqb a c = false) ->
  Ascii.eqb "?" c = false ->
  PyStr.filter (fun a => negb (Ascii.eqb a c)) (loc +:+ after_netloc) = loc +:+ after_netloc.
Proof.
  intros Hh Hp Hq Hc. unfold after_netloc.
  rewrite (filter_app netloc_char) by (try done; intros a Ha; by rewrite Hh).
  rewrite (filter_app path_char) by (try done; intros a Ha; by rewrite Hp).
  by rewrite query_part_filter.
Qed.

Lemma splitnetloc_query_part : _splitnetloc query_part = ("", query_part).
Proof. unfold query_part. by destruct qry. Qed.

Lemma splitnetloc_after_netloc : _splitnetloc after_netloc = ("", after_netloc).
Proof.
  unfold after_netloc. destruct Hslash as [-> | (pth' & ->)]; [|done].
  apply splitnetloc_query_part.
Qed.

Lemma url_splitnetloc : _splitnetloc (loc +:+ after_netloc) = (loc, after_netloc).
Proof.
  rewrite (splitnetloc_app netloc_char) by (done || by_ascii).
  rewrite splitnetloc_after_netloc. simpl. by rewrite append_nil_r.
Qed.

Lemma after_netloc_no_fragment : PyStr.contains "#" after_netloc = false.
Proof.
  unfold after_netloc. rewrite (contains_app path_char) by (done || by_ascii).
  apply query_part_contains; [by_ascii | reflexivity].
Qed.

Lemma after_netloc_query :
  (if PyStr.contains "?" after_netloc
   then let '(b, _, r) := PyStr.partition "?" after_netloc in (b, r)
   else (after_netloc, ""))
  = (pth, default "" qry).
Proof.
  unfold after_netloc, query_part.
  rewrite (contains_app path_char) by (done || by_ascii).
  rewrite (partition_app path_char) by (done || by_ascii).
  destruct qry as [q|]; simpl; by rewrite append_nil_r.
Qed.

Lemma loc_checks :
  PyStr.contains "[" loc = false /\ PyStr.contains "]" loc = false
  /\ _checknetloc env loc = Return tt.
Proof.
  split; [|split].
  - apply (forallb_contains netloc_char); [by_ascii | done].
  - apply (forallb_contains netloc_char); [by_ascii | done].
  - unfold _checknetloc, PyStr.isascii.
    replace (PyStr.forallb PyStr.is_ascii loc) with true; [by rewrite orb_true_r|].
    symmetry. revert Hloc. clear. induction loc as [|a s IH]; [done|]. simpl.
    intros [Ha Hs]%andb_prop. rewrite (IH Hs), andb_true_r.
    revert Ha. revert a. by_ascii.
Qed.

Lemma pth_no_params : PyStr.contains ";" pth = false.
Proof. apply (forallb_contains path_char); [by_ascii | done]. Qed.

Lemma urlparse_http_url (sch : string) :
  In sch schemes ->
  urlparse env (http_url sch loc pth qry)
  = Return {| scheme := sch; netloc := loc; path := pth; params := "";
              query := default "" qry; fragment := "" |}.
Proof.
  intros Hsch. unfold http_url. fold query_part. fold after_netloc.
  destruct loc_checks as (Hopen & Hclose & Hcheck).
  set (rest := loc +:+ after_netloc).
  destruct Hsch as [<-|[<-|[]]]; cbv [String.append];
    unfold urlparse, urlsplit, split_scheme, PyStr.lower; simpl; subst rest.
  all: rewrite !url_filter by (by_ascii || reflexivity).
  all: rewrite url_splitnetloc, Hopen, Hclose; simpl.
  all: rewrite after_netloc_no_fragment, after_netloc_query, Hcheck; simpl.
  all: by rewrite pth_no_params.
Qed.

End HttpUrl.

(** The host of a network location made of a host name and maybe a port:
    the name in lower case. *)
Definition port_part (port : option string) : string :=
  match port with Some n => String ":" n | None => "" end.

Lemma netloc_chars (h : string) (port : option string) :
  PyStr.forallb host_char h = true ->
  (forall n, port = Some n -> PyStr.forallb PyStr.is_digit n = true) ->
  PyStr.forallb netloc_char (h +:+ port_part port) = true.
Proof.
  intros Hh Hport. rewrite (forallb_app host_char) by (done || by_ascii).
  destruct port as [n|]; [|done]. simpl.
  revert Hport. intros Hn. specialize (Hn n eq_refl). revert Hn. clear.
  induction n as [|a n IH]; [done|]. simpl.
  intros [Ha Hn]%andb_prop. rewrite (IH Hn), andb_true_r.
  revert Ha. revert a. by_ascii.
Qed.

Lemma hostname_of_netloc (p : ParseResult) (h : string) (port : option string) :
  PyStr.forallb host_char h = true -> h <> "" ->
  (forall n, port = Some n -> PyStr.forallb PyStr.is_digit n = true) ->
  netloc p = h +:+ port_part port ->
  hostname p = Some (PyStr.lower h).
Proof.
  intros Hh Hne Hport Hp. pose proof (netloc_chars h port Hh Hport) as Hloc.
  unfold hostname, _hostinfo. rewrite Hp.
  rewrite (forallb_rpartition netloc_char) by (done || by_ascii).
  rewrite (forallb_partition netloc_char _ (h +:+ port_part port)) by (done || by_ascii).
  rewrite (partition_app host_char) by (done || by_ascii).
  assert ((h +:+ (PyStr.partition ":" (port_part port)).1.1) = h) as ->.
  { destruct port; simpl; by rewrite append_nil_r. }
  cbn [fst]. rewrite (truthy_nonempty _ Hne). cbn [negb].
  rewrite (forallb_partition host_char) by (done || by_ascii).
  by rewrite !append_nil_r.
Qed.

(** What [extract_video_id] returns, read off the parsed URL. *)
Section Parsed.
Variables (env : Env) (url : string) (w : World) (p : ParseResult).
Hypothesis Hp : urlparse env url = Return p.

Lemma extract_short :
  hostname p = Some "youtu.be" ->
  extract_video_id env url w = (Return (Some (PyStr.tail (path p))), w).
Proof.
  intros Hh. unfold extract_video_id, bind, lift. rewrite Hp, Hh.
  by rewrite bool_decide_true.
Qed.

Lemma canonical_branch :
  canonical_host p ->
  bool_decide (hostname p = Some "youtu.be") = false
  /\ bool_decide (hostname p = Some "www.youtube.com")
     || bool_decide (hostname p = Some "youtube.com") = true.
Proof.
  intros [Hh|Hh]; rewrite Hh; split; reflexivity.
Qed.

Lemma extract_watch (v : string) (vs : list string) :
  canonical_host p -> path p = "/watch" ->
  parse_qs (query p) !! "v" = Some (v :: vs) ->
  extract_video_id env url w = (Return (Some v), w).
Proof.
  intros [Hn Hc]%canonical_branch Hw Hq.
  unfold extract_video_id, bind, lift. rewrite Hp, Hn, Hc, Hw, Hq. reflexivity.
Qed.

Lemma extract_segment (segment : string) :
  canonical_host p -> path p <> "/watch" ->
  PyStr.startswith "/embed/" (path p) || PyStr.startswith "/v/" (path p) = true ->
  PyStr.split "/" (path p) !! 2%nat = Some segment ->
  extract_video_id env url w = (Return (Some segment), w).
Proof.
  intros [Hn Hc]%canonical_branch Hw Hs Hseg.
  unfold extract_video_id, bind, lift. rewrite Hp, Hn, Hc.
  apply String.eqb_neq in Hw. rewrite Hw, Hs, Hseg. reflexivity.
Qed.

End Parsed.

Lemma forallb_impl (p q : ascii -> bool) (s : string) :
  (forall a, p a = true -> q a = true) ->
  PyStr.forallb p s = true -> PyStr.forallb q s = true.
Proof.
  intros Hq. induction s as [|a s IH]; [done|]. simpl.
  intros [Ha Hs]%andb_prop. by rewrite (Hq a Ha), (IH Hs).
Qed.

Lemma lstrip_continuation_ascii (p : ascii -> bool) (s : string) :
  (forall a, p a = true -> PyStr.is_continuation a = false) ->
  PyStr.forallb p s = true ->
  PyStr.lstrip PyStr.is_continuation s = s.
Proof.
  intros Hp. destruct s as [|a s]; [done|]. simpl.
  intros [Ha _]%andb_prop. by rewrite (Hp a Ha).
Qed.

(** The URL of a scheme, host, port, path and query, written out. *)
Lemma http_url_flat (sch h : string) (port : option string) (pth : string) (qry : option string) :
  http_url sch (h +:+ port_part port) pth qry
  = sch +:+ "://" +:+ h +:+ port_part port +:+ pth +:+ query_part qry.
Proof. unfold http_url, query_part. by rewrite !append_assoc. Qed.

Section Hosts.
Variables (env : Env) (sch h : string) (port : option string) (w : World).
Hypothesis Hsch : In sch schemes.
Hypothesis Hh : PyStr.forallb host_char h = true.
Hypothesis Hport : forall n, port = Some n -> PyStr.forallb PyStr.is_digit n = true.

Lemma urlparse_host (pth : string) (qry : option string) :
  PyStr.forallb path_char pth = true ->
  pth = "" \/ (exists pth', pth = String "/" pth') ->
  (forall q, qry = Some q -> PyStr.forallb query_char q = true) ->
  urlparse env (sch +:+ "://" +:+ h +:+ port_part port +:+ pth +:+ query_part qry)
  = Return {| scheme := sch; netloc := h +:+ port_part port; path := pth; params := "";
              query := default "" qry; fragment := "" |}.
Proof.
  intros Hpth Hslash Hqry. rewrite <- http_url_flat.
  apply urlparse_http_url; try done. by apply netloc_chars.
Qed.

(** X6.  The host of a URL is compared without regard to case, and a port
    after it is ignored: with a host that reads youtu.be in lower case, the
    short link yields its identifier; with one that reads www.youtube.com
    or youtube.com, so does the watch URL. *)
Theorem host_is_matched_without_case_or_port (id : string) :
  identifier id ->
  (PyStr.lower h = "youtu.be" ->
   extract_video_id env (sch +:+ "://" +:+ h +:+ port_part port +:+ "/" +:+ id) w
   = (Return (Some id), w))
  /\ (In (PyStr.lower h) canonical_hosts -> id <> "" ->
      extract_video_id env (sch +:+ "://" +:+ h +:+ port_part port +:+ "/watch?v=" +:+ id) w
      = (Return (Some id), w)).
Proof.
  intros Hid.
  assert (PyStr.forallb path_char id = true) as Hpath
    by (apply (forallb_impl ident_char); [by_ascii | done]).
  assert (PyStr.forallb query_char id = true) as Hquery
    by (apply (forallb_impl ident_char); [by_ascii | done]).
  split.
  - intros Hlow.
    assert (h <> "") as Hne by (intros ->; discriminate Hlow).
    assert (urlparse env (sch +:+ "://" +:+ h +:+ port_part port +:+ "/" +:+ id)
            = Return {| scheme := sch; netloc := h +:+ port_part port; path := "/" +:+ id;
                        params := ""; query := ""; fragment := "" |}) as Hp.
    { pose proof (urlparse_host ("/" +:+ id) None) as Hp.
      unfold query_part in Hp. rewrite append_nil_r in Hp. apply Hp.
      - exact Hpath.
      - right. by exists id.
      - done. }
    rewrite (extract_short env _ w _ Hp).
    + cbn [path]. change (PyStr.tail ("/" +:+ id)) with (PyStr.lstrip PyStr.is_continuation id).
      by rewrite ident_lstrip_continuation.
    + rewrite <- Hlow. by apply (hostname_of_netloc _ h port).
  - intros Hlow Hne_id.
    assert (h <> "") as Hne by (intros ->; simpl in Hlow; intuition discriminate).
    assert (urlparse env (sch +:+ "://" +:+ h +:+ port_part port +:+ "/watch?v=" +:+ id)
            = Return {| scheme := sch; netloc := h +:+ port_part port; path := "/watch";
                        params := ""; query := "v=" +:+ id; fragment := "" |}) as Hp.
    { apply (urlparse_host "/watch" (Some ("v=" +:+ id))).
      - reflexivity.
      - right. by eexists.
      - intros q [= <-]. exact Hquery. }
    apply (extract_watch env _ w _ Hp id []).
    + unfold canonical_host.
      rewrite (hostname_of_netloc
                 {| scheme := sch; netloc := h +:+ port_part port; path := "/watch";
                    params := ""; query := "v=" +:+ id; fragment := "" |}
                 h port Hh Hne Hport eq_refl).
      destruct Hlow as [<-|[<-|[]]]; [by left | by right].
    + reflexivity.
    + by apply parse_qs_v.
Qed.

End Hosts.

Lemma host_is_matched_without_case_or_port_witness :
  extract_video_id sample_env "https://YouTu.BE:443/ABC123" empty_world
    = (Return (Some "ABC123"), empty_world)
  /\ extract_video_id sample_env "http://WWW.YouTube.com/watch?v=ABC123" empty_world
    = (Return (Some "ABC123"), empty_world).
Proof.
  assert (forall n, Some "443" = Some n -> PyStr.forallb PyStr.is_digit n = true) as Hport
    by (intros n [= <-]; reflexivity).
  assert (forall n, @None string = Some n -> PyStr.forallb PyStr.is_digit n = true) as Hnone
    by (intros n [=]).
  split.
  - apply (proj1 (host_is_matched_without_case_or_port sample_env "https" "YouTu.BE"
                    (Some "443") empty_world (or_introl eq_refl) eq_refl Hport
                    "ABC123" eq_refl)).
    reflexivity.
  - apply (proj2 (host_is_matched_without_case_or_port sample_env "http" "WWW.YouTube.com"
                    None empty_world (or_intror (or_introl eq_refl)) eq_refl Hnone
                    "ABC123" eq_refl)).
    + left; reflexivity.
    + discriminate.
Defined.

Section Paths.
Variables (env : Env) (sch : string) (qry : option string) (w : World).
Hypothesis Hsch : In sch schemes.
Hypothesis Hqry : forall q, qry = Some q -> PyStr.forallb query_char q = true.

Lemma no_port : forall n, @None string = Some n -> PyStr.forallb PyStr.is_digit n = true.
Proof. intros n [=]. Qed.

(** X7.  A short link yields everything between the first slash of its
    path and the query string, further slashes included, while a URL under
    /embed/ yields only the piece up to the next slash; the query string
    is dropped in both. *)
Theorem short_link_keeps_the_rest_of_the_path (rest : string) :
  PyStr.forallb path_char rest = true ->
  extract_video_id env (sch +:+ "://youtu.be/" +:+ rest +:+ query_part qry) w
    = (Return (Some rest), w)
  /\ (forall host id,
        In host canonical_hosts -> identifier id ->
        extract_video_id env
          (sch +:+ "://" +:+ host +:+ "/embed/" +:+ id +:+ "/" +:+ rest +:+ query_part qry) w
        = (Return (Some id), w)).
Proof.
  intros Hrest. split.
  - assert (urlparse env (sch +:+ "://youtu.be/" +:+ rest +:+ query_part qry)
            = Return {| scheme := sch; netloc := "youtu.be"; path := "/" +:+ rest;
                        params := ""; query := default "" qry; fragment := "" |}) as Hp.
    { change (sch +:+ "://youtu.be/" +:+ rest +:+ query_part qry)
        with (sch +:+ "://" +:+ "youtu.be" +:+ port_part None +:+ ("/" +:+ rest)
              +:+ query_part qry).
      apply (urlparse_host env sch "youtu.be" None Hsch eq_refl no_port ("/" +:+ rest) qry).
      - exact Hrest.
      - right. by exists rest.
      - exact Hqry. }
    rewrite (extract_short env _ w _ Hp); [|reflexivity].
    cbn [path]. change (PyStr.tail ("/" +:+ rest)) with (PyStr.lstrip PyStr.is_continuation rest).
    by rewrite (lstrip_continuation_ascii path_char) by (done || by_ascii).
  - intros host id Hhost Hid.
    assert (PyStr.forallb path_char id = true) as Hpath
      by (apply (forallb_impl ident_char); [by_ascii | done]).
    assert (PyStr.forallb host_char host = true /\ host <> "" /\ PyStr.lower host = host)
      as (Hchars & Hne & Hlow)
      by (destruct Hhost as [<-|[<-|[]]]; repeat split; discriminate).
    assert (urlparse env (sch +:+ "://" +:+ host +:+ "/embed/" +:+ id +:+ "/" +:+ rest
                          +:+ query_part qry)
            = Return {| scheme := sch; netloc := host +:+ port_part None;
                        path := "/embed/" +:+ id +:+ "/" +:+ rest;
                        params := ""; query := default "" qry; fragment := "" |}) as Hp.
    { replace (sch +:+ "://" +:+ host +:+ "/embed/" +:+ id +:+ "/" +:+ rest +:+ query_part qry)
        with (sch +:+ "://" +:+ host +:+ port_part None
              +:+ ("/embed/" +:+ id +:+ "/" +:+ rest) +:+ query_part qry)
        by (rewrite !append_assoc; reflexivity).
      apply (urlparse_host env sch host None Hsch Hchars no_port).
      - change (PyStr.forallb path_char (id +:+ String "/" rest) = true).
        by rewrite (forallb_app ident_char) by (done || by_ascii).
      - right. by eexists.
      - exact Hqry. }
    apply (extract_segment env _ w _ Hp id).
    + unfold canonical_host.
      rewrite (hostname_of_netloc
                 {| scheme := sch; netloc := host +:+ port_part None;
                    path := "/embed/" +:+ id +:+ "/" +:+ rest;
                    params := ""; query := default "" qry; fragment := "" |}
                 host None Hchars Hne no_port eq_refl), Hlow.
      destruct Hhost as [<-|[<-|[]]]; [by left | by right].
    + discriminate.
    + reflexivity.
    + cbn [path]. change ("/embed/" +:+ id +:+ "/" +:+ rest)
        with (String "/" (String "e" (String "m" (String "b" (String "e" (String "d"
               (String "/" (id +:+ String "/" rest)))))))).
      cbn [PyStr.split]. rewrite split_app_sep.
      * reflexivity.
      * apply (forallb_contains ident_char); [by_ascii | done].
Qed.

End Paths.

Lemma short_link_keeps_the_rest_of_the_path_witness :
  extract_video_id sample_env "https://youtu.be/ABC123/extra?t=10" empty_world
    = (Return (Some "ABC123/extra"), empty_world)
  /\ extract_video_id sample_env "https://www.youtube.com/embed/ABC123/extra?t=10" empty_world
    = (Return (Some "ABC123"), empty_world).
Proof.
  assert (forall q, Some "t=10" = Some q -> PyStr.forallb query_char q = true) as Hq
    by (intros q [= <-]; reflexivity).
  pose proof (short_link_keeps_the_rest_of_the_path sample_env "https" (Some "t=10")
                empty_world (or_introl eq_refl) Hq "ABC123/extra" eq_refl) as [Hshort _].
  pose proof (short_link_keeps_the_rest_of_the_path sample_env "https" (Some "t=10")
                empty_world (or_introl eq_refl) Hq "extra" eq_refl) as [_ Hembed].
  split; [exact Hshort|].
  exact (Hembed "www.youtube.com" "ABC123" (or_introl eq_refl) eq_refl).
Defined.

(** ** Query strings *)

(** One [name=value] field of a query string. *)
Definition field (name value : string) : string := name +:+ String "=" value.

Lemma field_chars (k v : string) :
  identifier k -> identifier v -> PyStr.forallb query_char (field k v) = true.
Proof.
  intros Hk Hv. unfold field.
  rewrite (forallb_app ident_char) by (done || by_ascii). cbn [PyStr.forallb].
  by rewrite (forallb_impl ident_char query_char v) by (done || by_ascii).
Qed.

Lemma amp_chars (a b : string) :
  PyStr.forallb query_char a = true -> PyStr.forallb query_char b = true ->
  PyStr.forallb query_char (a +:+ String "&" b) = true.
Proof.
  intros Ha Hb. rewrite (forallb_app query_char) by done. cbn [PyStr.forallb].
  by rewrite Hb.
Qed.

Lemma field_no_amp (k v : string) :
  identifier k -> identifier v -> PyStr.contains "&" (field k v) = false.
Proof.
  intros Hk Hv. unfold field.
  rewrite (contains_app ident_char) by (done || by_ascii). cbn [PyStr.contains].
  by rewrite (forallb_contains ident_char) by (done || by_ascii).
Qed.

Lemma unquote_identifier (s : string) :
  identifier s -> unquote (PyStr.replace "+" " " s) = s.
Proof.
  intros Hs. unfold PyStr.replace. rewrite (ident_replace _ _ Hs) by reflexivity.
  unfold unquote. by rewrite (ident_contains _ _ Hs) by reflexivity.
Qed.

(** [parse_qsl] field by field. *)
Definition parse_field (name_value : string) : list (string * string) :=
  if negb (PyStr.truthy name_value) then []
  else match PyStr.split1 "=" name_value with
       | [n; v] =>
           if PyStr.truthy v
           then [(unquote (PyStr.replace "+" " " n), unquote (PyStr.replace "+" " " v))]
           else []
       | _ => []
       end.

Lemma parse_qsl_fields (qs : string) :
  parse_qsl qs = List.concat (List.map parse_field (PyStr.split "&" qs)).
Proof. unfold parse_qsl. by destruct qs. Qed.

Lemma parse_field_field (k v : string) :
  identifier k -> k <> "" -> identifier v -> v <> "" ->
  parse_field (field k v) = [(k, v)].
Proof.
  intros Hk Hkne Hv Hvne. unfold parse_field, field, PyStr.split1.
  replace (PyStr.truthy (k +:+ String "=" v)) with true by (by destruct k).
  rewrite (partition_app ident_char) by (done || by_ascii).
  cbn [PyStr.partition fst snd negb]. rewrite Ascii.eqb_refl. cbn [fst snd].
  rewrite append_nil_r, (truthy_nonempty _ Hvne).
  by rewrite !unquote_identifier.
Qed.

Lemma parse_qsl_one (k v : string) :
  identifier k -> k <> "" -> identifier v -> v <> "" ->
  parse_qsl (field k v) = [(k, v)].
Proof.
  intros Hk Hkne Hv Hvne. rewrite parse_qsl_fields.
  rewrite split_no_sep by (by apply field_no_amp).
  cbn [List.map List.concat]. rewrite parse_field_field by done. reflexivity.
Qed.

Lemma parse_qsl_more (k v rest : string) :
  identifier k -> k <> "" -> identifier v -> v <> "" ->
  parse_qsl (field k v +:+ String "&" rest) = (k, v) :: parse_qsl rest.
Proof.
  intros Hk Hkne Hv Hvne. rewrite !parse_qsl_fields.
  rewrite split_app_sep by (by apply field_no_amp).
  cbn [List.map List.concat]. rewrite parse_field_field by done. reflexivity.
Qed.

Section WatchQuery.
Variables (env : Env) (sch host : string) (w : World).
Hypothesis Hsch : In sch schemes.
Hypothesis Hhost : In host canonical_hosts.

Lemma urlparse_watch (q : string) :
  PyStr.forallb query_char q = true ->
  urlparse env (sch +:+ "://" +:+ host +:+ "/watch?" +:+ q)
  = Return {| scheme := sch; netloc := host; path := "/watch"; params := "";
              query := q; fragment := "" |}.
Proof.
  intros Hq.
  change (sch +:+ "://" +:+ host +:+ "/watch?" +:+ q)
    with (http_url sch host "/watch" (Some q)).
  apply urlparse_http_url; try done.
  - by destruct Hhost as [<-|[<-|[]]].
  - right. by eexists.
  - by intros ? [= <-].
Qed.

(** What a watch URL yields, read off its query string: the first value
    of [v], if there is one. *)
Lemma extract_watch_query (q : string) :
  PyStr.forallb query_char q = true ->
  extract_video_id env (sch +:+ "://" +:+ host +:+ "/watch?" +:+ q) w
  = (Return (match parse_qs q !! "v" with Some (v :: _) => Some v | _ => None end), w).
Proof.
  intros Hq. unfold extract_video_id, bind, lift. rewrite (urlparse_watch q Hq).
  destruct Hhost as [<-|[<-|[]]]; simpl.
  all: destruct (parse_qs q !! "v") as [[|v vs]|] eqn:Ev; try reflexivity.
  all: by destruct (parse_qs_nonempty _ _ _ Ev).
Qed.

(** X8.  In a watch URL the identifier is the value of the first [v]
    field of the query string, wherever it stands among the other fields;
    later [v] fields are ignored, and without a [v] field the result is
    [None], with nothing logged. *)
Theorem watch_takes_the_first_v (id k val other : string) :
  identifier id -> id <> "" ->
  identifier k -> k <> "" -> k <> "v" ->
  identifier val -> val <> "" ->
  identifier other -> other <> "" ->
  extract_video_id env
    (sch +:+ "://" +:+ host +:+ "/watch?v=" +:+ id +:+ "&" +:+ k +:+ "=" +:+ val) w
    = (Return (Some id), w)
  /\ extract_video_id env
       (sch +:+ "://" +:+ host +:+ "/watch?" +:+ k +:+ "=" +:+ val +:+ "&v=" +:+ id) w
     = (Return (Some id), w)
  /\ extract_video_id env
       (sch +:+ "://" +:+ host +:+ "/watch?v=" +:+ id +:+ "&v=" +:+ other) w
     = (Return (Some id), w)
  /\ extract_video_id env
       (sch +:+ "://" +:+ host +:+ "/watch?" +:+ k +:+ "=" +:+ val) w
     = (Return None, w).
Proof.
  intros Hid Hidne Hk Hkne Hkv Hval Hvalne Hother Hotherne.
  assert (identifier "v") as Hv by reflexivity.
  assert ("v" <> "") as Hvne by discriminate.
  split; [|split; [|split]].
  - change (sch +:+ "://" +:+ host +:+ "/watch?v=" +:+ id +:+ "&" +:+ k +:+ "=" +:+ val)
      with (sch +:+ "://" +:+ host +:+ "/watch?" +:+ (field "v" id +:+ String "&" (field k val))).
    rewrite extract_watch_query by (apply amp_chars; by apply field_chars).
    unfold parse_qs. rewrite parse_qsl_more, parse_qsl_one by done. simpl.
    rewrite lookup_empty. rewrite lookup_insert_ne, lookup_empty by done.
    rewrite lookup_insert_ne by done. by rewrite lookup_insert_eq.
  - replace (sch +:+ "://" +:+ host +:+ "/watch?" +:+ k +:+ "=" +:+ val +:+ "&v=" +:+ id)
      with (sch +:+ "://" +:+ host +:+ "/watch?" +:+ (field k val +:+ String "&" (field "v" id)))
      by (unfold field; rewrite !append_assoc; reflexivity).
    rewrite extract_watch_query by (apply amp_chars; by apply field_chars).
    unfold parse_qs. rewrite parse_qsl_more, parse_qsl_one by done. simpl.
    rewrite lookup_empty. rewrite lookup_insert_ne, lookup_empty by done.
    by rewrite lookup_insert_eq.
  - change (sch +:+ "://" +:+ host +:+ "/watch?v=" +:+ id +:+ "&v=" +:+ other)
      with (sch +:+ "://" +:+ host +:+ "/watch?" +:+ (field "v" id +:+ String "&" (field "v" other))).
    rewrite extract_watch_query by (apply amp_chars; by apply field_chars).
    unfold parse_qs. rewrite parse_qsl_more, parse_qsl_one by done. simpl.
    rewrite lookup_empty, lookup_insert_eq. by rewrite lookup_insert_eq.
  - change (sch +:+ "://" +:+ host +:+ "/watch?" +:+ k +:+ "=" +:+ val)
      with (sch +:+ "://" +:+ host +:+ "/watch?" +:+ field k val).
    rewrite extract_watch_query by (by apply field_chars).
    unfold parse_qs. rewrite parse_qsl_one by done. simpl.
    rewrite lookup_empty. by rewrite lookup_insert_ne, lookup_empty by done.
Qed.

End WatchQuery.

Lemma watch_takes_the_first_v_witness :
  extract_video_id sample_env "https://www.youtube.com/watch?v=ABC123&t=10s" empty_world
    = (Return (Some "ABC123"), empty_world)
  /\ extract_video_id sample_env "https://www.youtube.com/watch?t=10s&v=ABC123" empty_world
    = (Return (Some "ABC123"), empty_world)
  /\ extract_video_id sample_env "https://www.youtube.com/watch?v=ABC123&v=XYZ789" empty_world
    = (Return (Some "ABC123"), empty_world)
  /\ extract_video_id sample_env "https://www.youtube.com/watch?t=10s" empty_world
    = (Return None, empty_world).
Proof.
  assert ("ABC123" <> "") as H1 by discriminate.
  assert ("t" <> "") as H2 by discriminate.
  assert ("t" <> "v") as H3 by discriminate.
  assert ("10s" <> "") as H4 by discriminate.
  assert ("XYZ789" <> "") as H5 by discriminate.
  exact (watch_takes_the_first_v sample_env "https" "www.youtube.com" empty_world
           (or_introl eq_refl) (or_introl eq_refl) "ABC123" "t" "10s" "XYZ789"
           eq_refl H1 eq_refl H2 H3 eq_refl H4 eq_refl H5).
Defined.

(** ** URLs without a scheme *)

(** Characters that are no colon, no fragment or parameter mark, and no
    control character. *)
Definition plain_char (c : ascii) : bool :=
  host_char c || path_char c || query_char c || Ascii.eqb c "?".

Lemma not_double_slash {A : Type} (url : string) (f : string -> A) (y : A) :
  PyStr.startswith "/" url = false ->
  match url with
  | String "/" (String "/" rest) => f rest
  | _ => y
  end = y.
Proof.
  destruct url as [|a s]; [done|]. cbn [PyStr.startswith]. rewrite andb_true_r.
  intros Ha. destruct a as [[] [] [] [] [] [] [] []]; try reflexivity. discriminate Ha.
Qed.

Lemma urlparse_no_scheme (env : Env) (url : string) :
  PyStr.forallb plain_char url = true ->
  PyStr.startswith "/" url = false ->
  exists p, urlparse env url = Return p /\ netloc p = "".
Proof.
  intros Hplain Hslash. unfold urlparse, urlsplit, split_scheme.
  assert (PyStr.lstrip c0_control_or_space url = url) as ->.
  { destruct url as [|a s]; [done|]. cbn [PyStr.forallb] in Hplain.
    apply andb_prop in Hplain as [Ha _]. cbn [PyStr.lstrip].
    assert (c0_control_or_space a = false) as -> by (revert Ha; clear; revert a; by_ascii).
    reflexivity. }
  unfold PyStr.remove.
  do 3 rewrite (forallb_filter_id plain_char _ url) by (done || by_ascii).
  rewrite (forallb_partition plain_char) by (done || by_ascii).
  replace (match url with "" | _ => ("", url) end) with ("", url) by (by destruct url).
  cbv beta iota zeta.
  rewrite (not_double_slash url _ _ Hslash). cbn [obind].
  repeat match goal with
         | |- context [let '(a, b) := ?X in _] => destruct X
         end.
  cbn [_checknetloc PyStr.truthy negb orb obind].
  repeat match goal with
         | |- context [let '(a, b) := ?X in _] => destruct X
         end.
  by eexists.
Qed.

(** X9.  A URL written without its scheme, such as youtu.be/<id> or
    www.youtube.com/watch?v=<id>, has no host for [urlparse]:
    [extract_video_id] logs that no identifier was found and returns
    [None], and [main] stops there, having made no call. *)
Theorem url_without_scheme_is_rejected (env : Env) (url : string) (w : World) :
  PyStr.forallb plain_char url = true ->
  PyStr.startswith "/" url = false ->
  extract_video_id env url w = (Return None, add_log ERROR not_found_msg w)
  /\ main env url w
     = (Return tt, add_log ERROR invalid_url_msg (add_log ERROR not_found_msg w)).
Proof.
  intros Hplain Hslash.
  destruct (urlparse_no_scheme env url Hplain Hslash) as (p & Hp & Hnet).
  assert (hostname p = None) as Hhost by (unfold hostname, _hostinfo; by rewrite Hnet).
  assert (extract_video_id env url w = (Return None, add_log ERROR not_found_msg w)) as Hx.
  { apply (extract_video_id_unsupported_host env url w p Hp).
    - unfold short_host. by rewrite Hhost.
    - unfold canonical_host. rewrite Hhost. by intros [|]. }
  split; [exact Hx|]. by apply (main_invalid_url env url w _ None).
Qed.

Lemma url_without_scheme_is_rejected_witness :
  extract_video_id sample_env "youtu.be/ABC123" empty_world
    = (Return None, add_log ERROR not_found_msg empty_world)
  /\ main sample_env "www.youtube.com/watch?v=ABC123" empty_world
     = (Return tt, add_log ERROR invalid_url_msg (add_log ERROR not_found_msg empty_world)).
Proof.
  split.
  - exact (proj1 (url_without_scheme_is_rejected sample_env "youtu.be/ABC123" empty_world
                    eq_refl eq_refl)).
  - exact (proj2 (url_without_scheme_is_rejected sample_env "www.youtube.com/watch?v=ABC123"
                    empty_world eq_refl eq_refl)).
Defined.

(** ** The metadata and transcript fetchers, in every case *)

(** X10.  [get_video_details] makes exactly one call, to [extract_info]
    with the canonical watch URL of the identifier, and writes no file.  It
    returns a title only when the title is not empty: a missing title and
    an empty one both come back as [None]; an exception of the collaborator
    is not caught. *)
Theorem get_video_details_outcomes (env : Env) (video_id : string) (w : World) :
  trace (snd (get_video_details env video_id w))
    = trace w ++ [EvExtractInfo ("https://www.youtube.com/watch?v=" +:+ video_id)]
  /\ files (snd (get_video_details env video_id w)) = files w
  /\ match fst (get_video_details env video_id w) with
     | Return (Some title) =>
         title <> ""
         /\ exists info, ydl_extract_info env (watch_url video_id) = Return info
                         /\ info_title info = Some title
     | Return None =>
         exists info, ydl_extract_info env (watch_url video_id) = Return info
                      /\ (info_title info = None \/ info_title info = Some "")
     | Raise e => ydl_extract_info env (watch_url video_id) = Raise e
     end.
Proof.
  unfold get_video_details, bind, call, logger_info, logger_error, log, ret.
  fold (watch_url video_id). cbn [fst snd].
  destruct (ydl_extract_info env (watch_url video_id)) as [info|e]; [|done].
  destruct (info_title info) as [[|a title]|] eqn:Et; cbn [truthy_opt PyStr.truthy fst snd].
  - split; [done|]. split; [done|]. exists info. auto.
  - split; [done|]. split; [done|]. split; [done|]. by exists info.
  - split; [done|]. split; [done|]. exists info. auto.
Qed.

Lemma join_cons_nonempty (sep t t' : string) (rest : list string) :
  sep <> "" -> PyStr.join sep (t :: t' :: rest) <> "".
Proof.
  intros Hsep. change (PyStr.join sep (t :: t' :: rest))
    with (t +:+ sep +:+ PyStr.join sep (t' :: rest)).
  destruct t; [|done]. destruct sep; [done|]. done.
Qed.

(** The joined text is empty only for no parts at all or one empty part. *)
Lemma join_empty_iff (sep : string) (parts : list string) :
  sep <> "" ->
  PyStr.join sep parts = "" <-> parts = [] \/ parts = [""].
Proof.
  intros Hsep. split.
  - destruct parts as [|t [|t' rest]].
    + by left.
    + simpl. intros ->. by right.
    + intros H. by destruct (join_cons_nonempty sep t t' rest Hsep).
  - by intros [-> | ->].
Qed.

Lemma get_transcript_not_exception (env : Env) (video_id : string) (w : World) (e : exn) :
  YouTubeTranscriptApi_get_transcript env video_id = Raise e ->
  is_Exception e = false ->
  get_transcript env video_id w
  = (Raise e, add_event (EvGetTranscript video_id)
                (add_log INFO (fetching_transcript_msg video_id) w)).
Proof.
  intros H He. unfold get_transcript, try_except, bind, call, logger_info, log.
  rewrite H. cbn [fst snd]. by rewrite He.
Qed.

Section AfterTitle.
Variables (env : Env) (url : string) (w : World) (video_id title : string) (info : VideoInfo).
Hypothesis Hid : fst (extract_video_id env url w) = Return (Some video_id).
Hypothesis Hid_truthy : video_id <> "".
Hypothesis Hinfo : ydl_extract_info env (watch_url video_id) = Return info.
Hypothesis Htitle : info_title info = Some title.
Hypothesis Htitle_truthy : title <> "".

Lemma main_after_title :
  main env url w
  = match get_transcript env video_id (titled video_id title w) with
    | (Raise e, w2) => (Raise e, w2)
    | (Return transcript, w2) =>
        if truthy_opt transcript then
          match generate_summary env (default "" transcript) (add_progress 1 w2) with
          | (Raise e, w3) => (Raise e, w3)
          | (Return summary, w3) =>
              if truthy summary then
                match save_to_file env video_id title summary (default "" transcript)
                        (add_progress 1 w3) with
                | (Raise e, w4) => (Raise e, w4)
                | (Return _, w4) =>
                    (Return tt, add_log INFO finished_msg (add_progress 1 w4))
                end
              else (Return tt, gave_up "Failed to generate summary" w3)
          end
        else (Return tt, gave_up "Failed to get transcript" w2)
    end.
Proof.
  unfold main, bind.
  rewrite (extract_video_id_fst _ _ _ _ Hid). simpl.
  rewrite (truthy_nonempty _ Hid_truthy). simpl.
  rewrite (run_details env w video_id info title Hinfo Htitle Htitle_truthy).
  simpl. rewrite (truthy_nonempty _ Htitle_truthy).
  fold (titled video_id title w).
  destruct (get_transcript env video_id (titled video_id title w)) as [[tr|e] w2]; [|done].
  simpl. destruct (truthy_opt tr); [|done].
  destruct (generate_summary env (default "" tr) (add_progress 1 w2)) as [[s|e] w3]; [|done].
  simpl. destruct (truthy s); [|done].
  by destruct (save_to_file env video_id title s (default "" tr) (add_progress 1 w3))
    as [[[]|e] w4].
Qed.

(** X11.  The transcript is the empty string exactly when the collaborator
    returns no fragment at all, or a single fragment whose text is empty;
    [get_transcript] then returns the empty string, not [None], and [main]
    takes it as a failed fetch: it sends no request and writes no file. *)
Theorem empty_transcript_is_a_failure (fragments : list Entry) :
  YouTubeTranscriptApi_get_transcript env video_id = Return fragments ->
  (fst (get_transcript env video_id w) = Return (Some "")
   <-> List.map entry_text fragments = [] \/ List.map entry_text fragments = [""])
  /\ (List.map entry_text fragments = [] \/ List.map entry_text fragments = [""] ->
      exists w',
        main env url w = (Return tt, w')
        /\ trace w' = trace w ++ [EvExtractInfo (watch_url video_id); EvGetTranscript video_id]
        /\ files w' = files w
        /\ In (ERROR, "Failed to get transcript") (logged w')).
Proof.
  intros Hf. split.
  - rewrite (get_transcript_ok _ _ _ _ Hf). cbn [fst].
    rewrite <- (join_empty_iff " ") by discriminate.
    split; [by intros [= ->] | by intros ->].
  - intros Hempty%(join_empty_iff " "); [|discriminate].
    eexists. split.
    + by apply (run_transcript_empty env url w video_id Hid Hid_truthy info title
                  Hinfo Htitle Htitle_truthy fragments).
    + unfold titled. split; [run_world|]. split; [run_world|].
      unfold gave_up. world. rewrite !in_app_iff. simpl. tauto.
Qed.

(** X12.  [get_transcript] catches only instances of [Exception]: a
    [KeyboardInterrupt] or [SystemExit] raised while the transcript is
    fetched is raised again by [get_transcript] and by [main], and the run
    ends without the closing log line, without a request and without a
    file. *)
Theorem interrupt_passes_through_get_transcript (e : exn) :
  YouTubeTranscriptApi_get_transcript env video_id = Raise e ->
  is_Exception e = false ->
  (forall w0, fst (get_transcript env video_id w0) = Raise e)
  /\ exists w',
       main env url w = (Raise e, w')
       /\ trace w' = trace w ++ [EvExtractInfo (watch_url video_id); EvGetTranscript video_id]
       /\ files w' = files w
       /\ ~ In (INFO, finished_msg) (skipn (length (logged w)) (logged w')).
Proof.
  intros Hr He. split.
  - intros w0. by rewrite (get_transcript_not_exception _ _ _ _ Hr He).
  - eexists. split.
    + rewrite main_after_title.
      by rewrite (get_transcript_not_exception _ _ _ _ Hr He).
    + unfold titled. split; [run_world|]. split; [run_world|].
      unfold after_details. world. rewrite <- !app_assoc.
      rewrite drop_app_length. simpl. intros H.
      repeat (destruct H as [H|H]; [discriminate H|]). done.
Qed.

End AfterTitle.

Lemma empty_transcript_is_a_failure_witness :
  exists w',
    main (with_transcript sample_env (fun _ => Return [])) "https://youtu.be/ABC123" empty_world
      = (Return tt, w')
    /\ trace w' = [EvExtractInfo "https://www.youtube.com/watch?v=ABC123";
                   EvGetTranscript "ABC123"]
    /\ files w' = ∅
    /\ In (ERROR, "Failed to get transcript") (logged w').
Proof.
  assert (fst (extract_video_id (with_transcript sample_env (fun _ => Return []))
                 "https://youtu.be/ABC123" empty_world)
          = Return (Some "ABC123")) as Hid by (vm_compute; reflexivity).
  assert ("ABC123" <> "") as Hne by discriminate.
  assert ("A talk" <> "") as Htne by discriminate.
  exact (proj2 (empty_transcript_is_a_failure
                  (with_transcript sample_env (fun _ => Return []))
                  "https://youtu.be/ABC123" empty_world "ABC123" "A talk"
                  {| info_title := Some "A talk" |} Hid Hne eq_refl eq_refl Htne [] eq_refl)
           (or_introl eq_refl)).
Defined.

Definition interrupted : exn := Exn KeyboardInterrupt "".

Lemma interrupt_passes_through_get_transcript_witness :
  fst (get_transcript (with_transcript sample_env (fun _ => Raise interrupted))
         "ABC123" empty_world)
  = Raise interrupted.
Proof.
  assert (fst (extract_video_id (with_transcript sample_env (fun _ => Raise interrupted))
                 "https://youtu.be/ABC123" empty_world)
          = Return (Some "ABC123")) as Hid by (vm_compute; reflexivity).
  assert ("ABC123" <> "") as Hne by discriminate.
  assert ("A talk" <> "") as Htne by discriminate.
  exact (proj1 (interrupt_passes_through_get_transcript
                  (with_transcript sample_env (fun _ => Raise interrupted))
                  "https://youtu.be/ABC123" empty_world "ABC123" "A talk"
                  {| info_title := Some "A talk" |} Hid Hne eq_refl eq_refl Htne
                  interrupted eq_refl eq_refl) empty_world).
Defined.

(** ** The response of the generation API, in every case *)

(** The one shape of payload for which [response.json()['content'][0]['text']]
    has a value. *)
Lemma content_text_returns_iff (response : Response) (v : pyval) :
  content_text response = Return v
  <-> exists payload block rest,
        resp_json response = Return (PDict payload)
        /\ assoc "content" payload = Some (PList (PDict block :: rest))
        /\ assoc "text" block = Some v.
Proof.
  unfold content_text. split.
  - destruct (resp_json response) as [[| | | | |l|payload]|e]; try discriminate.
    simpl. destruct (assoc "content" payload) as [blocks|] eqn:Ec; [|discriminate].
    simpl. destruct blocks as [| | | |s|[|[| | | | | |block] rest]|d]; try discriminate.
    + destruct s; discriminate.
    + simpl. destruct (assoc "text" block) as [x|] eqn:Et; [|discriminate].
      intros [= <-]. by exists payload, block, rest.
  - intros (payload & block & rest & -> & Hc & Ht). simpl. rewrite Hc. simpl. by rewrite Ht.
Qed.

(** X13.  With status 200, [claude_api_request] returns a value exactly
    when the payload is an object whose content is an array that starts
    with an object holding a text, and that text is a string, an array or
    an object; it then returns this text.  It never returns [None] for
    status 200: a returned [None] means that the status was another one. *)
Theorem claude_api_request_returns_iff (env : Env) (prompt : string) (w : World)
    (response : Response) :
  requests_post env (api_request env prompt) = Return response ->
  (resp_status_code response = 200 ->
   forall v,
     fst (claude_api_request env prompt w) = Return v
     <-> (exists payload block rest,
            resp_json response = Return (PDict payload)
            /\ assoc "content" payload = Some (PList (PDict block :: rest))
            /\ assoc "text" block = Some v)
         /\ exists n, py_len v = Return n)
  /\ (fst (claude_api_request env prompt w) = Return PNone ->
      resp_status_code response <> 200).
Proof.
  intros Hp.
  assert (resp_status_code response = 200 ->
          fst (claude_api_request env prompt w)
          = (content <~ content_text response ;; _ <~ py_len content ;; Return content)) as Hrun.
  { intros Hs. unfold claude_api_request, bind, call, lift, logger_info, log, ret.
    fold (api_request env prompt). rewrite Hp, Hs. cbn [fst snd Z.eqb Pos.eqb].
    fold (content_text response).
    destruct (content_text response) as [c|e]; [|done]. cbn [obind].
    by destruct (py_len c). }
  split.
  - intros Hs v. rewrite (Hrun Hs), <- content_text_returns_iff. split.
    + destruct (content_text response) as [c|e]; [|discriminate]. cbn [obind].
      destruct (py_len c) as [n|e] eqn:En; [|discriminate]. cbn [obind].
      intros [= <-]. split; [done|]. by exists n.
    + intros [-> (n & Hn)]. cbn [obind]. by rewrite Hn.
  - intros Hnone Hs. rewrite (Hrun Hs) in Hnone.
    destruct (content_text response) as [c|e]; [|discriminate]. cbn [obind] in Hnone.
    destruct (py_len c) as [n|e] eqn:En; [|discriminate]. cbn [obind] in Hnone.
    injection Hnone as ->. discriminate En.
Qed.

Lemma claude_api_request_returns_iff_witness :
  fst (claude_api_request overloaded_env "Summarise: a b c" empty_world) = Return PNone
  /\ resp_status_code overloaded <> 200.
Proof.
  assert (fst (claude_api_request overloaded_env "Summarise: a b c" empty_world)
          = Return PNone) as Hnone by reflexivity.
  split; [exact Hnone|].
  exact (proj2 (claude_api_request_returns_iff overloaded_env "Summarise: a b c"
                  empty_world overloaded eq_refl) Hnone).
Defined.

Section AfterTranscript.
Variables (env : Env) (url : string) (w : World) (video_id title transcript : string)
  (info : VideoInfo) (fragments : list Entry).
Hypothesis Hid : fst (extract_video_id env url w) = Return (Some video_id).
Hypothesis Hid_truthy : video_id <> "".
Hypothesis Hinfo : ydl_extract_info env (watch_url video_id) = Return info.
Hypothesis Htitle : info_title info = Some title.
Hypothesis Htitle_truthy : title <> "".
Hypothesis Hfragments : YouTubeTranscriptApi_get_transcript env video_id = Return fragments.
Hypothesis Htranscript : PyStr.join " " (List.map entry_text fragments) = transcript.
Hypothesis Htranscript_truthy : transcript <> "".

Lemma main_after_transcript :
  main env url w
  = match generate_summary env transcript (transcribed video_id title transcript w) with
    | (Raise e, w3) => (Raise e, w3)
    | (Return summary, w3) =>
        if truthy summary then
          match save_to_file env video_id title summary transcript (add_progress 1 w3) with
          | (Raise e, w4) => (Raise e, w4)
          | (Return _, w4) => (Return tt, add_log INFO finished_msg (add_progress 1 w4))
          end
        else (Return tt, gave_up "Failed to generate summary" w3)
    end.
Proof.
  rewrite (main_after_title env url w video_id title info Hid Hid_truthy Hinfo Htitle
             Htitle_truthy).
  unfold titled.
  rewrite (run_transcript env w video_id title fragments transcript Hfragments Htranscript).
  cbn [truthy_opt default]. by rewrite (truthy_nonempty _ Htranscript_truthy).
Qed.

(** X14.  A response with status 200 whose text is empty (an empty string,
    array or object) is returned as it is, and both [generate_summary] and
    [main] take it as a failure: the run ends normally with "Failed to
    generate summary" in its log and no file opened. *)
Theorem empty_summary_is_a_failure (response : Response) (summary : pyval) :
  requests_post env (api_request env (prompt_of transcript)) = Return response ->
  resp_status_code response = 200 ->
  content_text response = Return summary ->
  summary = PStr "" \/ summary = PList [] \/ summary = PDict [] ->
  fst (claude_api_request env (prompt_of transcript) w) = Return summary
  /\ exists w',
       main env url w = (Return tt, w')
       /\ trace w' = trace w ++
            [EvExtractInfo (watch_url video_id);
             EvGetTranscript video_id;
             EvPost (api_request env (prompt_of transcript))]
       /\ files w' = files w
       /\ In (ERROR, "Failed to generate summary") (logged w').
Proof.
  intros Hp Hs Hc Hempty.
  assert (py_len summary = Return 0%nat /\ truthy summary = false) as [Hn Hfalse]
    by (destruct Hempty as [-> | [-> | ->]]; by split).
  split.
  - by rewrite (claude_api_request_success _ _ _ _ _ _ Hp Hs Hc Hn).
  - eexists. split.
    + rewrite main_after_transcript, generate_summary_unfold.
      rewrite (claude_api_request_success _ _ _ _ _ _ Hp Hs Hc Hn). by rewrite Hfalse.
    + unfold transcribed, titled. split; [run_world|]. split; [run_world|].
      unfold gave_up. world. rewrite !in_app_iff. simpl. tauto.
Qed.

(** X15.  When the output file cannot be opened, the error of [open] is
    raised by [save_to_file] and by [main]: all three calls have been made,
    the summary is lost, no file has changed, and nothing says that the
    summary was saved. *)
Theorem open_error_is_fatal (response : Response) (summary : string) (e : exn) :
  requests_post env (api_request env (prompt_of transcript)) = Return response ->
  resp_status_code response = 200 ->
  content_text response = Return (PStr summary) ->
  summary <> "" ->
  open_error env (video_id +:+ "_summary.txt") = Some e ->
  exists w',
    main env url w = (Raise e, w')
    /\ trace w' = trace w ++
         [EvExtractInfo (watch_url video_id);
          EvGetTranscript video_id;
          EvPost (api_request env (prompt_of transcript));
          EvOpen (video_id +:+ "_summary.txt")]
    /\ files w' = files w
    /\ ~ In (INFO, saved_msg video_id) (skipn (length (logged w)) (logged w')).
Proof.
  intros Hp Hs Hc Hne Hopen.
  assert (truthy (PStr summary) = true) as Ht by (by apply truthy_nonempty).
  eexists. split.
  - rewrite main_after_transcript, generate_summary_unfold.
    rewrite (claude_api_request_success _ _ _ _ _ _ Hp Hs Hc eq_refl). rewrite Ht.
    by rewrite (save_to_file_open_fails _ _ _ _ _ _ _ Hopen).
  - unfold transcribed, titled. split; [run_world|]. split; [run_world|].
    unfold after_post, after_details. world. rewrite <- !app_assoc.
    rewrite drop_app_length. simpl. intros H.
    repeat (destruct H as [H|H]; [discriminate H|]). done.
Qed.

End AfterTranscript.

Definition empty_text : Response :=
  {| resp_status_code := 200;
     resp_text := "{...}";
     resp_json := Return (PDict [("content", PList [PDict [("text", PStr "")]])]) |}.

Lemma empty_summary_is_a_failure_witness :
  exists w',
    main (with_post sample_env (fun _ => Return empty_text)) "https://youtu.be/ABC123"
      empty_world = (Return tt, w')
    /\ files w' = ∅
    /\ In (ERROR, "Failed to generate summary") (logged w').
Proof.
  assert (fst (extract_video_id (with_post sample_env (fun _ => Return empty_text))
                 "https://youtu.be/ABC123" empty_world)
          = Return (Some "ABC123")) as Hid by (vm_compute; reflexivity).
  assert ("ABC123" <> "") as Hne by discriminate.
  assert ("A talk" <> "") as Htne by discriminate.
  assert ("a b c" <> "") as Hcne by discriminate.
  destruct (proj2 (empty_summary_is_a_failure
                     (with_post sample_env (fun _ => Return empty_text))
                     "https://youtu.be/ABC123" empty_world "ABC123" "A talk" "a b c"
                     {| info_title := Some "A talk" |} sample_transcript
                     Hid Hne eq_refl eq_refl Htne eq_refl eq_refl Hcne
                     empty_text (PStr "") eq_refl eq_refl eq_refl (or_introl eq_refl)))
    as (w' & Hmain & _ & Hfiles & Hlog).
  exists w'. split; [exact Hmain|]. split; [exact Hfiles | exact Hlog].
Defined.

Definition with_open_error (env : Env) (r : string -> option exn) : Env :=
  {| CLAUDE_API_KEY := CLAUDE_API_KEY env;
     CLAUDE_API_URL := CLAUDE_API_URL env;
     unicodedata_normalize_NFKC := unicodedata_normalize_NFKC env;
     ipaddress_ip_address := ipaddress_ip_address env;
     ydl_extract_info := ydl_extract_info env;
     YouTubeTranscriptApi_get_transcript := YouTubeTranscriptApi_get_transcript env;
     requests_post := requests_post env;
     open_error := r |}.

Definition permission_denied : exn :=
  Exn OSError "[Errno 13] Permission denied: 'ABC123_summary.txt'".

Definition read_only_env : Env := with_open_error sample_env (fun _ => Some permission_denied).

Lemma open_error_is_fatal_witness :
  exists w',
    main read_only_env "https://youtu.be/ABC123" empty_world = (Raise permission_denied, w')
    /\ files w' = ∅.
Proof.
  assert (fst (extract_video_id read_only_env "https://youtu.be/ABC123" empty_world)
          = Return (Some "ABC123")) as Hid by (vm_compute; reflexivity).
  assert ("ABC123" <> "") as Hne by discriminate.
  assert ("A talk" <> "") as Htne by discriminate.
  assert ("a b c" <> "") as Hcne by discriminate.
  assert ("A short summary." <> "") as Hsne by discriminate.
  destruct (open_error_is_fatal read_only_env "https://youtu.be/ABC123" empty_world
              "ABC123" "A talk" "a b c" {| info_title := Some "A talk" |} sample_transcript
              Hid Hne eq_refl eq_refl Htne eq_refl eq_refl Hcne
              {| resp_status_code := 200; resp_text := "{...}";
                 resp_json := Return sample_payload |}
              "A short summary." permission_denied eq_refl eq_refl eq_refl Hsne eq_refl)
    as (w' & Hmain & _ & Hfiles & _).
  exists w'. split; [exact Hmain | exact Hfiles].
Defined.

(** ** The output file, read back *)

Lemma join_split (c : ascii) (s : string) :
  PyStr.join (String c "") (PyStr.split c s) = s.
Proof.
  induction s as [|a s IH]; [done|]. simpl.
  destruct (Ascii.eqb_spec a c) as [->|Hne].
  - destruct (split_cons c s) as (h & t & E). rewrite E in *.
    change (PyStr.join (String c "") ("" :: h :: t))
      with (String c (PyStr.join (String c "") (h :: t))).
    by rewrite IH.
  - destruct (split_cons c s) as (h & t & E). rewrite E in *.
    destruct t as [|h' t].
    + simpl in *. by rewrite IH.
    + change (PyStr.join (String c "") (String a h :: h' :: t))
        with (String a (PyStr.join (String c "") (h :: h' :: t))).
      by rewrite IH.
Qed.

(** X16.  The file can be read back.  When the title, the identifier and
    the summary contain no newline, the lines of the file are the title
    line, the URL line, an empty line, "Summary:", the summary, an empty
    line and "Full Transcript:", followed by the lines of the transcript;
    joining the lines after the seventh with newlines gives the transcript
    back, whatever it contains. *)
Theorem file_content_lines (video_id video_title summary transcript : string) :
  PyStr.contains PyStr.LF video_title = false ->
  PyStr.contains PyStr.LF video_id = false ->
  PyStr.contains PyStr.LF summary = false ->
  PyStr.split PyStr.LF (file_content video_id video_title summary transcript)
  = [ "Video Title: " +:+ video_title;
      "Video URL: https://www.youtube.com/watch?v=" +:+ video_id;
      "";
      "Summary:";
      summary;
      "";
      "Full Transcript:" ] ++ PyStr.split PyStr.LF transcript
  /\ PyStr.join PyStr.nl
       (drop 7 (PyStr.split PyStr.LF (file_content video_id video_title summary transcript)))
     = transcript.
Proof.
  intros Ht Hi Hs.
  assert (forall pre s rest, PyStr.contains PyStr.LF pre = false ->
            PyStr.contains PyStr.LF s = false ->
            PyStr.split PyStr.LF (pre +:+ s +:+ PyStr.nl +:+ rest)
            = (pre +:+ s) :: PyStr.split PyStr.LF rest) as Hline.
  { intros pre s rest Hpre Hs'.
    rewrite <- (append_assoc pre s). apply split_app_sep.
    clear -Hpre Hs'. induction pre as [|a pre IH]; [done|].
    simpl in Hpre. apply orb_false_elim in Hpre as [Ha Hpre].
    rewrite append_cons. simpl. by rewrite Ha, IH. }
  assert (PyStr.split PyStr.LF (file_content video_id video_title summary transcript)
          = [ "Video Title: " +:+ video_title;
              "Video URL: https://www.youtube.com/watch?v=" +:+ video_id;
              "";
              "Summary:";
              summary;
              "";
              "Full Transcript:" ] ++ PyStr.split PyStr.LF transcript) as Hlines.
  { unfold file_content.
    rewrite (Hline "Video Title: " video_title) by done.
    rewrite (Hline "Video URL: https://www.youtube.com/watch?v=" video_id) by done.
    change (PyStr.nl +:+ "Summary:" +:+ PyStr.nl +:+ summary +:+ PyStr.nl +:+ PyStr.nl +:+
            "Full Transcript:" +:+ PyStr.nl +:+ transcript)
      with ("" +:+ "" +:+ PyStr.nl +:+ "Summary:" +:+ "" +:+ PyStr.nl +:+ "" +:+ summary
            +:+ PyStr.nl +:+ "" +:+ "" +:+ PyStr.nl +:+ "Full Transcript:" +:+ "" +:+ PyStr.nl
            +:+ transcript).
    rewrite (Hline "" "") by done. rewrite (Hline "Summary:" "") by done.
    rewrite (Hline "" summary) by done. rewrite (Hline "" "") by done.
    rewrite (Hline "Full Transcript:" "") by done. reflexivity. }
  split; [exact Hlines|].
  rewrite Hlines. cbn [drop app]. apply join_split.
Qed.

Lemma file_content_lines_witness :
  PyStr.split PyStr.LF (file_content "ABC123" "A talk" "A short summary." "a b c")
  = [ "Video Title: A talk";
      "Video URL: https://www.youtube.com/watch?v=ABC123";
      "";
      "Summary:";
      "A short summary.";
      "";
      "Full Transcript:";
      "a b c" ].
Proof.
  exact (proj1 (file_content_lines "ABC123" "A talk" "A short summary." "a b c"
                  eq_refl eq_refl eq_refl)).
Defined.

(** ** File names and prompts determine their identifier and transcript *)

Lemma length_app (a b : string) :
  String.length (a +:+ b) = (String.length a + String.length b)%nat.
Proof.
  induction a as [|x a IH]; [done|]. rewrite append_cons. simpl. by rewrite IH.
Qed.

Lemma app_inj_r (a b c : string) : a +:+ c = b +:+ c -> a = b.
Proof.
  revert b. induction a as [|x a IH]; intros [|y b] H.
  - done.
  - apply (f_equal String.length) in H. rewrite !length_app in H. simpl in H. lia.
  - apply (f_equal String.length) in H. rewrite !length_app in H. simpl in H. lia.
  - rewrite !append_cons in H. injection H as -> H. f_equal. by apply IH.
Qed.

Lemma app_inj_l (a b c : string) : a +:+ b = a +:+ c -> b = c.
Proof.
  induction a as [|x a IH]; [done|]. rewrite !append_cons. intros [= H]. by apply IH.
Qed.

(** What [save_to_file] does to the files, whatever the summary is and
    whether or not the file can be opened: only its own file changes. *)
Lemma save_to_file_other_files (env : Env) (video_id video_title : string) (summary : pyval)
    (transcript : string) (w : World) (other : string) :
  other <> summary_filename video_id ->
  files (snd (save_to_file env video_id video_title summary transcript w)) !! other
  = files w !! other.
Proof.
  intros Hne. unfold save_to_file, open_w, bind, write_val.
  fold (summary_filename video_id).
  destruct (open_error env (summary_filename video_id)) as [e|]; [done|].
  repeat (erewrite write_after by apply set_file_lookup).
  destruct summary; cbn [lift fst snd]; world; rewrite ?lookup_insert_ne by done; try done.
  repeat (erewrite write_after by apply set_file_lookup).
  cbn [logger_info log snd]. world. by rewrite !lookup_insert_ne by done.
Qed.



Lemma len_app (a b : string) : PyStr.len (a +:+ b) = (PyStr.len a + PyStr.len b)%nat.
Proof.
  induction a as [|x a IH]; [done|]. rewrite append_cons. simpl.
  destruct (PyStr.is_continuation x); by rewrite IH.
Qed.

(** X18.  The prompt holds the transcript whole, whatever its length: it
    is 504 characters longer than the transcript, and two transcripts that
    give the same prompt are the same transcript. *)
Theorem prompt_keeps_the_whole_transcript (content : string) :
  PyStr.len (prompt_intro +:+ content +:+ prompt_outro) = (PyStr.len content + 504)%nat
  /\ (forall content',
        prompt_intro +:+ content +:+ prompt_outro
        = prompt_intro +:+ content' +:+ prompt_outro ->
        content = content').
Proof.
  split.
  - rewrite !len_app.
    change (PyStr.len prompt_intro) with 494%nat.
    change (PyStr.len prompt_outro) with 10%nat. lia.
  - intros content' H. apply app_inj_l in H. by apply app_inj_r in H.
Qed.

(** ** Every run is one pass through the pipeline *)

(** A step that only adds the events [evs] to the trace (and may log). *)
Definition adds (evs : list event) (w w' : World) : Prop :=
  trace w' = trace w ++ evs /\ files w' = files w /\ progress w' = progress w.

Lemma get_video_details_adds (env : Env) (video_id : string) (w : World) :
  adds [EvExtractInfo (watch_url video_id)] w (snd (get_video_details env video_id w)).
Proof.
  unfold adds, get_video_details, bind, call, logger_info, logger_error, log, ret.
  fold (watch_url video_id). cbn [fst snd].
  destruct (ydl_extract_info env (watch_url video_id)) as [info|e]; [|done].
  by destruct (truthy_opt (info_title info)).
Qed.

Lemma get_transcript_adds (env : Env) (video_id : string) (w : World) :
  adds [EvGetTranscript video_id] w (snd (get_transcript env video_id w)).
Proof.
  unfold adds, get_transcript, try_except, bind, call, logger_info, logger_error, log, ret.
  cbn [fst snd].
  destruct (YouTubeTranscriptApi_get_transcript env video_id) as [fragments|e]; [done|].
  by destruct (is_Exception e).
Qed.

Lemma claude_api_request_adds (env : Env) (prompt : string) (w : World) :
  adds [EvPost (api_request env prompt)] w (snd (claude_api_request env prompt w)).
Proof.
  unfold adds, claude_api_request, bind, call, lift, logger_info, logger_error, log, ret.
  fold (api_request env prompt). simpl.
  destruct (requests_post env (api_request env prompt)) as [response|e]; simpl; [|done].
  destruct (resp_status_code response =? 200); simpl; [|done].
  repeat (case_match; simpl; try done).
Qed.

Lemma generate_summary_adds (env : Env) (content : string) (w : World) :
  adds [EvPost (api_request env (prompt_of content))] w
    (snd (generate_summary env content w)).
Proof.
  rewrite generate_summary_unfold.
  pose proof (claude_api_request_adds env (prompt_of content)
                (add_log INFO "Generating summary" w)) as (Ht & Hf & Hp).
  destruct (claude_api_request _ _ _) as [[summary|e] w']; simpl in *; [|done].
  by destruct (truthy summary).
Qed.

(** An event on the file [filename]. *)
Definition file_event (filename : string) (ev : event) : Prop :=
  ev = EvOpen filename \/ exists chunk, ev = EvWrite filename chunk.

Lemma save_to_file_events (env : Env) (video_id video_title : string) (summary : pyval)
    (transcript : string) (w : World) :
  exists evs,
    trace (snd (save_to_file env video_id video_title summary transcript w)) = trace w ++ evs
    /\ Forall (file_event (summary_filename video_id)) evs
    /\ progress (snd (save_to_file env video_id video_title summary transcript w))
       = progress w.
Proof.
  assert (forall l, Forall (file_event (summary_filename video_id))
                      (EvOpen (summary_filename video_id)
                       :: List.map (EvWrite (summary_filename video_id)) l)) as Hall.
  { intros l. constructor; [by left|]. apply Forall_map, Forall_true.
    intros chunk. right. by exists chunk. }
  unfold save_to_file, open_w, bind, write_val.
  fold (summary_filename video_id).
  destruct (open_error env (summary_filename video_id)) as [e|].
  { eexists. split; [reflexivity|]. split; [apply (Hall [])|done]. }
  repeat (erewrite write_after by apply set_file_lookup).
  destruct summary as [| | | |s| |].
  5: { repeat (erewrite write_after by apply set_file_lookup).
       cbn [logger_info log snd].
       eexists. split; [world; rewrite <- !app_assoc; reflexivity|].
       split; [|by world]. apply (Hall [_; _; _; _; _; _]). }
  all: cbn [lift fst snd].
  all: eexists; split; [world; rewrite <- !app_assoc; reflexivity|].
  all: split; [|by world]; apply (Hall [_; _; _]).
Qed.

(** The calls of a complete run, in order. *)
Definition pipeline (env : Env) (video_id transcript : string) (file_events : list event)
  : list event :=
  [EvExtractInfo (watch_url video_id);
   EvGetTranscript video_id;
   EvPost (api_request env (prompt_of transcript))] ++ file_events.

(** X19.  Whatever the URL and whatever the collaborators answer, a run of
    [main] is one pass: the calls it makes are an initial part of the
    sequence [extract_info], [get_transcript], [requests.post], then the
    opening and writing of one output file, all for one identifier; no call
    is made twice and none out of order.  No file but
    <identifier>_summary.txt changes, and the progress bar advances by at
    most four. *)
Theorem main_is_one_pass (env : Env) (url : string) (w : World) :
  exists video_id transcript file_events evs,
    trace (snd (main env url w)) = trace w ++ evs
    /\ prefix evs (pipeline env video_id transcript file_events)
    /\ Forall (file_event (summary_filename video_id)) file_events
    /\ (forall other, other <> summary_filename video_id ->
          files (snd (main env url w)) !! other = files w !! other)
    /\ (progress (snd (main env url w)) <= progress w + 4)%nat.
Proof.
  unfold main, bind.
  destruct (extract_video_id env url w) as [[r|e] w0] eqn:Ex.
  2: { apply extract_video_id_trace in Ex as (Ht & Hf & Hp).
       exists "", "", [], []. cbn [snd]. rewrite Ht, Hf, Hp, app_nil_r.
       split; [|split; [|split; [|split]]]; [done | apply prefix_nil | done | done | lia]. }
  destruct (truthy_opt r) eqn:Hr; cbn [negb].
  2: { apply extract_video_id_trace in Ex as (Ht & Hf & Hp).
       exists "", "", [], []. cbn [snd logger_error log]. world.
       rewrite Ht, Hf, Hp, app_nil_r.
       split; [|split; [|split; [|split]]]; [done | apply prefix_nil | done | done | lia]. }
  destruct r as [vid|]; [|discriminate].
  apply extract_video_id_some in Ex as ->.
  change (default "" (Some vid)) with vid.
  pose proof (get_video_details_adds env vid w) as (Ht1 & Hf1 & Hp1).
  destruct (get_video_details env vid w) as [[title|e] w1]; cbn [snd] in *.
  2: { exists vid, "", [], [EvExtractInfo (watch_url vid)].
       split; [|split; [|split; [|split]]]; [done | by eexists | done | by rewrite Hf1 | lia]. }
  cbn [pbar_update].
  destruct (truthy_opt title).
  2: { exists vid, "", [], [EvExtractInfo (watch_url vid)].
       cbn [logger_error logger_info log snd]. world.
       split; [|split; [|split; [|split]]]; [done | by eexists | done | by rewrite Hf1 | lia]. }
  pose proof (get_transcript_adds env vid (add_progress 1 w1)) as (Ht2 & Hf2 & Hp2).
  destruct (get_transcript env vid (add_progress 1 w1)) as [[tr|e] w2]; cbn [snd] in *.
  2: { exists vid, "", [], [EvExtractInfo (watch_url vid); EvGetTranscript vid].
       revert Ht2 Hf2 Hp2. world. intros Ht2 Hf2 Hp2.
       split; [|split; [|split; [|split]]]; [by rewrite Ht2, Ht1, <- app_assoc | by eexists | done
                     | by rewrite Hf2, Hf1 | lia]. }
  destruct (truthy_opt tr).
  2: { exists vid, "", [], [EvExtractInfo (watch_url vid); EvGetTranscript vid].
       cbn [logger_error logger_info log snd]. revert Ht2 Hf2 Hp2. world. intros Ht2 Hf2 Hp2.
       split; [|split; [|split; [|split]]]; [by rewrite Ht2, Ht1, <- app_assoc | by eexists | done
                     | by rewrite Hf2, Hf1 | lia]. }
  pose proof (generate_summary_adds env (default "" tr) (add_progress 1 w2))
    as (Ht3 & Hf3 & Hp3).
  destruct (generate_summary env (default "" tr) (add_progress 1 w2)) as [[s|e] w3];
    cbn [snd] in *.
  2: { exists vid, (default "" tr), [],
         [EvExtractInfo (watch_url vid); EvGetTranscript vid;
          EvPost (api_request env (prompt_of (default "" tr)))].
       revert Ht2 Hf2 Hp2 Ht3 Hf3 Hp3. world. intros Ht2 Hf2 Hp2 Ht3 Hf3 Hp3.
       split; [|split; [|split; [|split]]]; [by rewrite Ht3, Ht2, Ht1, <- !app_assoc | by exists [] | done
                     | by rewrite Hf3, Hf2, Hf1 | lia]. }
  destruct (truthy s).
  2: { exists vid, (default "" tr), [],
         [EvExtractInfo (watch_url vid); EvGetTranscript vid;
          EvPost (api_request env (prompt_of (default "" tr)))].
       cbn [logger_error logger_info log snd].
       revert Ht2 Hf2 Hp2 Ht3 Hf3 Hp3. world. intros Ht2 Hf2 Hp2 Ht3 Hf3 Hp3.
       split; [|split; [|split; [|split]]]; [by rewrite Ht3, Ht2, Ht1, <- !app_assoc | by exists [] | done
                     | by rewrite Hf3, Hf2, Hf1 | lia]. }
  destruct (save_to_file_events env vid (default "" title) s (default "" tr)
              (add_progress 1 w3)) as (fevs & Ht4 & Hall & Hp4).
  pose proof (save_to_file_other_files env vid (default "" title) s (default "" tr)
                (add_progress 1 w3)) as Hf4.
  destruct (save_to_file env vid (default "" title) s (default "" tr) (add_progress 1 w3))
    as [[[]|e] w4]; cbn [snd] in *.
  all: exists vid, (default "" tr), fevs,
         ([EvExtractInfo (watch_url vid); EvGetTranscript vid;
           EvPost (api_request env (prompt_of (default "" tr)))] ++ fevs).
  all: cbv beta iota zeta; cbn [pbar_update logger_error logger_info log snd].
  all: revert Ht2 Hf2 Hp2 Ht3 Hf3 Hp3 Ht4 Hp4 Hf4; world;
    intros Ht2 Hf2 Hp2 Ht3 Hf3 Hp3 Ht4 Hp4 Hf4.
  all: split; [|split; [|split; [|split]]];
    [ by rewrite Ht4, Ht3, Ht2, Ht1, <- !app_assoc
    | by exists []; rewrite app_nil_r
    | done
    | intros other Hne; by rewrite (Hf4 other Hne), Hf3, Hf2, Hf1
    | lia ].
Qed.
